(** * search-evals: the run orchestrator, the query validator, the validity
    filter, the gateway registry and the grading pass

    A shallow embedding of [src/search-evals/src] (runner, gateway registry,
    the Tavily, Parallel and You.com gateways, evaluator) and the properties
    of its specification.

    Conventions of the embedding.
    - A JavaScript string is a Rocq [string]: a sequence of code units, here
      restricted to the range 0..255.
    - A JavaScript number is an integer [Z] (latencies, token counts, epoch
      milliseconds, JSON integers in the safe range); [NaN] results of the
      date functions are [None].
    - Values whose TypeScript type is not enforced at run time (parsed JSON,
      [unknown] payloads, parameter bags) are [JsValue]s.
    - Effects are explicit: every effectful function takes and returns the
      [World] (environment variables, files, console, module-level client
      handles, and the outside world with its clock and network). *)

From Stdlib Require Import ZArith List Ascii String Bool Lia.
From stdpp Require Import base option list sorting gmap strings pretty.

Import ListNotations.
Set Warnings "-register-all".
Local Open Scope string_scope.
Local Open Scope Z_scope.

(** ** JavaScript values *)

Inductive JsValue : Type :=
| JUndefined
| JNull
| JBool (b : bool)
| JNum (n : Z)
| JStr (s : string)
| JArr (items : list JsValue)
| JObj (fields : list (string * JsValue)).

(** [Record<string, unknown>]: own properties in insertion order. *)
Definition Params : Type := list (string * JsValue).

Module Js.

(** [!!v] *)
Definition truthy (v : JsValue) : bool :=
  match v with
  | JUndefined | JNull => false
  | JBool b => b
  | JNum n => negb (n =? 0)
  | JStr s => negb (String.eqb s "")
  | JArr _ | JObj _ => true
  end.

(** [typeof v] *)
Definition typeof (v : JsValue) : string :=
  match v with
  | JUndefined => "undefined"
  | JNull | JArr _ | JObj _ => "object"
  | JBool _ => "boolean"
  | JNum _ => "number"
  | JStr _ => "string"
  end.

Fixpoint assoc {A : Type} (k : string) (l : list (string * A)) : option A :=
  match l with
  | [] => None
  | (k', v) :: rest => if String.eqb k k' then Some v else assoc k rest
  end.

(** [v.k] for one of the property names the runner reads ([query],
    [groundTruth], [validFrom], [validUntil], parameter names): an own
    property of an object, [undefined] on every other non-nullish value.
    On [null] and [undefined] the access throws a TypeError: the runner
    reads the properties of entries that passed the validator's object
    check, and what is stated of a reading on any value takes a value that
    is neither. *)
Definition prop (v : JsValue) (k : string) : JsValue :=
  match v with
  | JObj fields => default JUndefined (assoc k fields)
  | _ => JUndefined
  end.

(** [a ?? b] *)
Definition nullish (v d : JsValue) : JsValue :=
  match v with
  | JUndefined | JNull => d
  | _ => v
  end.

(** [v !== undefined] *)
Definition defined (v : JsValue) : bool :=
  match v with JUndefined => false | _ => true end.

(** [v !== null] *)
Definition nonNull (v : JsValue) : bool :=
  match v with JNull => false | _ => true end.

(** [l.join(sep)] on an array of strings *)
Definition join (sep : string) (l : list string) : string := String.concat sep l.

(** The ASCII and Latin-1 members of the WhiteSpace and LineTerminator sets. *)
Definition isWhiteSpace (c : ascii) : bool :=
  let n := nat_of_ascii c in
  ((9 <=? n) && (n <=? 13) || (n =? 32) || (n =? 160))%nat.

Fixpoint trimStart (s : string) : string :=
  match s with
  | String c rest => if isWhiteSpace c then trimStart rest else s
  | EmptyString => EmptyString
  end.

(** [s.trim()] *)
Definition trim (s : string) : string :=
  String.rev (trimStart (String.rev (trimStart s))).

(** [s.length] *)
Definition strlen (s : string) : Z := Z.of_nat (String.length s).

(** [s.replace(/:/g, "-")] *)
Fixpoint replaceColons (s : string) : string :=
  match s with
  | EmptyString => EmptyString
  | String c rest =>
      String (if Ascii.eqb c ":"%char then "-"%char else c) (replaceColons rest)
  end.

(** [s.endsWith(suffix)] *)
Definition endsWith (s suffix : string) : bool :=
  String.prefix (String.rev suffix) (String.rev s).

(** ToString of an array element inside [Array.prototype.join]. *)
Definition joinItem (toS : JsValue -> string) (v : JsValue) : string :=
  match v with
  | JUndefined | JNull => ""
  | _ => toS v
  end.

(** [String(v)] / template-literal conversion. An object read from JSON
    converts to [[object Object]] unless it has a [toString] key of its
    own, which is no function: then the conversion throws a TypeError.
    What is stated of a conversion on any value takes a primitive value. *)
Fixpoint ToString (v : JsValue) : string :=
  match v with
  | JUndefined => "undefined"
  | JNull => "null"
  | JBool true => "true"
  | JBool false => "false"
  | JNum n => pretty n
  | JStr s => s
  | JArr items => String.concat "," (map (joinItem ToString) items)
  | JObj _ => "[object Object]"
  end.

End Js.

(** A double quote, for the messages that contain one. *)
Definition dq : string := String "034"%char EmptyString.

(** ** Dates

    A [Date] object is its time value: epoch milliseconds, or [None] for an
    Invalid Date (time value [NaN]). *)

Definition Date : Type := option Z.

(** [a < b] on two dates (both converted to numbers; any [NaN] gives false). *)
Definition date_lt (a b : Date) : bool :=
  match a, b with
  | Some x, Some y => x <? y
  | _, _ => false
  end.

(** [a > b] *)
Definition date_gt (a b : Date) : bool := date_lt b a.

Definition maxTimeValue : Z := 8640000000000000.

Definition TimeClip (n : Z) : Date :=
  if Z.abs n <=? maxTimeValue then Some n else None.

(** ** Exceptions and outcomes *)

(** A thrown value, as far as the code inspects it in a [catch]:
    [error instanceof Error ? error.message : String(error)]. *)
Inductive Thrown : Type :=
| ErrorObj (message : string)
| NonError (asString : string).

Definition errorMessageOf (error : Thrown) : string :=
  match error with
  | ErrorObj message => message
  | NonError asString => asString
  end.

(** The result of a call that may throw (of a promise that may reject). *)
Inductive Outcome (A : Type) : Type :=
| Returned (a : A)
| Threw (error : Thrown).
Arguments Returned {A} a.
Arguments Threw {A} error.

(** ** Records of [types.ts] *)

Record SearchConfig : Type := mkSearchConfig {
  cfg_id : string;
  cfg_gateway : string;
  cfg_parameters : Params;
}.

Record SearchResponse : Type := mkSearchResponse {
  data : JsValue;
  latencyMs : Z;
  tokenCount : Z;
  requestId : JsValue;
  error : option string;
}.

(** The query fields are copied from the query object as they are. *)
Record QueryResult : Type := mkQueryResult {
  query : JsValue;
  groundTruth : JsValue;
  validFrom : JsValue;
  validUntil : JsValue;
  configId : string;
  gateway : string;
  parameters : Params;
  executedAt : string;
  response : SearchResponse;
  hasError : bool;
}.

Record RunResult : Type := mkRunResult {
  run_id : string;
  run_executedAt : string;
  results : list QueryResult;
}.

(** The request of [client.chat.completions.create]. *)
Record ChatMessage : Type := mkChatMessage {
  role : string;
  content : string;
}.

Record ChatRequest : Type := mkChatRequest {
  model : string;
  max_completion_tokens : Z;
  messages : list ChatMessage;
}.

(** ** The platform

    What the code takes from the engine, the SDKs and the outside world.
    [Ext] is the state of everything outside the process; the clock and the
    network calls read and change it. *)

Class Platform : Type := {
  Ext : Type;
  (** [Date.now()] / the time value of [new Date()] *)
  Date_now : Ext -> Z * Ext;
  (** [Date.parse] on a string; the formats accepted beyond ISO 8601 are the
      engine's. *)
  Date_parse : string -> Date;
  (** [date.toISOString()] of a valid date *)
  toISOString : Z -> string;
  (** [JSON.parse] *)
  JSON_parse : string -> Outcome JsValue;
  (** [countTokens] of [utils/tokens]: the number of tiktoken tokens of the
      payload's JSON text (the encoder may throw) *)
  countTokens : JsValue -> Outcome Z;
  (** [tavilyClient.search(query, searchOptions)] of a client built with the
      given key *)
  tavily_sdk_search : string -> JsValue -> JsValue -> Ext -> Outcome JsValue * Ext;
  (** [parallelClient.beta.search(request)] of a client built with the given key *)
  parallel_sdk_search : string -> JsValue -> Ext -> Outcome JsValue * Ext;
  (** [youClient.search(request)] of a client built with the given key *)
  you_sdk_search : string -> JsValue -> Ext -> Outcome JsValue * Ext;
  (** [client.chat.completions.create(request)], observed through
      [response.choices[0]?.message?.content] *)
  chat_completions_create : ChatRequest -> Ext -> Outcome JsValue * Ext;
  (** [join(__dirname, "..")] *)
  projectRoot : string;
}.

(** ** The world *)

Record World `{Platform} : Type := mkWorld {
  (** [process.env] *)
  env : gmap string string;
  (** the file system: directory path to (entry name to file content) *)
  dirs : gmap string (gmap string string);
  (** lines written by [console.log] and [console.warn], oldest first *)
  console : list string;
  (** the module-level [client] of each gateway module: the key it was built with *)
  tavilyClient : option string;
  parallelClient : option string;
  youClient : option string;
  (** requests sent to the grading model, oldest first *)
  chatLog : list ChatRequest;
  ext : Ext;
}.

(** ** Computations: state passing over the world, with exceptions *)

Definition M `{Platform} (A : Type) : Type := World -> Outcome A * World.

Definition ret `{Platform} {A : Type} (a : A) : M A := fun w => (Returned a, w).

Definition throw `{Platform} {A : Type} (e : Thrown) : M A := fun w => (Threw e, w).

Definition bind `{Platform} {A B : Type} (m : M A) (k : A -> M B) : M B :=
  fun w =>
    match m w with
    | (Returned a, w') => k a w'
    | (Threw e, w') => (Threw e, w')
    end.

(** [try { m } catch (error) { handler(error) }] *)
Definition try_catch `{Platform} {A : Type} (m : M A) (handler : Thrown -> M A) : M A :=
  fun w =>
    match m w with
    | (Returned a, w') => (Returned a, w')
    | (Threw e, w') => handler e w'
    end.

Notation "'let!' x ':=' m 'in' k" := (bind m (fun x => k))
  (at level 10, x name, m at level 100, k at level 200).
Notation "m ';;' k" := (bind m (fun _ => k))
  (at level 100, k at level 200, right associativity).

Section Primitives.
Context `{P : Platform}.

Definition setConsole (lines : list string) (w : World) : World :=
  {| env := env w; dirs := dirs w; console := lines; tavilyClient := tavilyClient w;
     parallelClient := parallelClient w; youClient := youClient w;
     chatLog := chatLog w; ext := ext w |}.

Definition setExt (e : Ext) (w : World) : World :=
  {| env := env w; dirs := dirs w; console := console w; tavilyClient := tavilyClient w;
     parallelClient := parallelClient w; youClient := youClient w;
     chatLog := chatLog w; ext := e |}.

Definition setTavilyClient (c : option string) (w : World) : World :=
  {| env := env w; dirs := dirs w; console := console w; tavilyClient := c;
     parallelClient := parallelClient w; youClient := youClient w;
     chatLog := chatLog w; ext := ext w |}.

Definition setParallelClient (c : option string) (w : World) : World :=
  {| env := env w; dirs := dirs w; console := console w; tavilyClient := tavilyClient w;
     parallelClient := c; youClient := youClient w;
     chatLog := chatLog w; ext := ext w |}.

Definition setYouClient (c : option string) (w : World) : World :=
  {| env := env w; dirs := dirs w; console := console w; tavilyClient := tavilyClient w;
     parallelClient := parallelClient w; youClient := c;
     chatLog := chatLog w; ext := ext w |}.

Definition setDirs (d : gmap string (gmap string string)) (w : World) : World :=
  {| env := env w; dirs := d; console := console w; tavilyClient := tavilyClient w;
     parallelClient := parallelClient w; youClient := youClient w;
     chatLog := chatLog w; ext := ext w |}.

Definition setChatLog (l : list ChatRequest) (w : World) : World :=
  {| env := env w; dirs := dirs w; console := console w; tavilyClient := tavilyClient w;
     parallelClient := parallelClient w; youClient := youClient w;
     chatLog := l; ext := ext w |}.

(** [console.log(line)] and [console.warn(line)] *)
Definition log (line : string) : M unit :=
  fun w => (Returned tt, setConsole (console w ++ [line]) w).

Definition logAll (lines : list string) : M unit :=
  fun w => (Returned tt, setConsole (console w ++ lines) w).

(** [Date.now()] *)
Definition now_ms : M Z :=
  fun w => let '(t, e) := Date_now (ext w) in (Returned t, setExt e w).

(** [process.env[key]] *)
Definition getenv (key : string) : M (option string) :=
  fun w => (Returned (env w !! key), w).

(** [!process.env[key]]: unset, or set to the empty string *)
Definition envMissing (environment : gmap string string) (key : string) : bool :=
  match environment !! key with
  | Some value => String.eqb value ""
  | None => true
  end.

(** *** Paths and files *)

(** [join(dir, name)] for a directory and an entry name *)
Definition joinPath (dir name : string) : string := dir +:+ "/" +:+ name.

(** The directory and the last segment of a path, split at its last slash. *)
Fixpoint splitPathRev (r : string) : string * string :=
  match r with
  | EmptyString => (EmptyString, EmptyString)
  | String c rest =>
      if Ascii.eqb c "/"%char then (rest, EmptyString)
      else let '(d, n) := splitPathRev rest in (d, String c n)
  end.

Definition dirname (path : string) : string :=
  String.rev (fst (splitPathRev (String.rev path))).

Definition basename (path : string) : string :=
  String.rev (snd (splitPathRev (String.rev path))).

Definition ENOENT (syscall path : string) : Thrown :=
  ErrorObj ("ENOENT: no such file or directory, " +:+ syscall +:+ " '" +:+ path +:+ "'").

(** The text of the file at a path, if there is one. *)
Definition lookupFile (files : gmap string (gmap string string)) (path : string)
  : Outcome string :=
  match files !! dirname path with
  | Some dir =>
      match dir !! basename path with
      | Some text => Returned text
      | None => Threw (ENOENT "open" path)
      end
  | None => Threw (ENOENT "open" path)
  end.

(** [readFile(path, "utf-8")] *)
Definition readFile (path : string) : M string :=
  fun w => (lookupFile (dirs w) path, w).

(** [readdir(dir)]: the entry names, in the order the system lists them *)
Definition readdir (dir : string) : M (list string) :=
  fun w =>
    match dirs w !! dir with
    | Some entries => (Returned (map fst (map_to_list entries)), w)
    | None => (Threw (ENOENT "scandir" dir), w)
    end.

(** [mkdir(dir, { recursive: true })] *)
Definition mkdir (dir : string) : M unit :=
  fun w =>
    match dirs w !! dir with
    | Some _ => (Returned tt, w)
    | None => (Returned tt, setDirs (<[dir := ∅]> (dirs w)) w)
    end.

(** [writeFile(path, text)] into a directory, for a name the file system
    takes; a name with a NUL code unit or of more than 255 bytes, a
    directory standing at [path], permissions and free space are not part
    of the world. *)
Definition writeFile (path text : string) : M unit :=
  fun w =>
    match dirs w !! dirname path with
    | Some dir =>
        (Returned tt, setDirs (<[dirname path := <[basename path := text]> dir]> (dirs w)) w)
    | None => (Threw (ENOENT "open" path), w)
    end.

End Primitives.

(** ** The validity filter and the query validator (runner) *)

Section Runner_queries.
Context `{P : Platform}.

(** [new Date(v)]: strings are parsed, other primitives are converted to a
    number, objects and arrays go through their string form. *)
Definition new_Date (v : JsValue) : Date :=
  match v with
  | JStr s => Date_parse s
  | JNum n => TimeClip n
  | JBool b => Some (if b then 1 else 0)
  | JNull => Some 0
  | JUndefined => None
  | JArr _ | JObj _ => Date_parse (Js.ToString v)
  end.

(** [isQueryRunnable(query, now)] *)
Definition isQueryRunnable (query : JsValue) (now : Date) : bool :=
  let validFrom := Js.prop query "validFrom" in
  let validUntil := Js.prop query "validUntil" in
  if negb (Js.truthy validFrom) && negb (Js.truthy validUntil) then true
  else if Js.truthy validFrom && date_lt now (new_Date validFrom) then false
  else if Js.truthy validUntil && date_gt now (new_Date validUntil) then false
  else true.

(** [isValidIsoDate(value)] *)
Definition isValidIsoDate (value : JsValue) : bool :=
  match Date_parse (Js.ToString value) with
  | Some _ => true
  | None => false
  end.

(** The body of the [forEach] callback of [validateQueries]: [inr] is the
    [valid.push(query)] exit, [inl] the warning pushed before a [return].
    The two exits are the ones of an entry whose bounds are primitive
    values; a bound that is an object with a [toString] key of its own makes
    the callback throw where it is converted. *)
Definition validateQuery (query : JsValue) (index : nat) : string + JsValue :=
  let n := pretty (index + 1)%nat in
  let validFrom := Js.prop query "validFrom" in
  let validUntil := Js.prop query "validUntil" in
  if negb (Js.truthy query) || negb (String.eqb (Js.typeof query) "object") then
    inl ("Query #" +:+ n +:+ " is not an object.")
  else if negb (String.eqb (Js.typeof (Js.prop query "query")) "string")
          || (Js.strlen (Js.trim (Js.ToString (Js.prop query "query"))) =? 0) then
    inl ("Query #" +:+ n +:+ " has an invalid or empty " +:+ dq +:+ "query" +:+ dq
           +:+ " field.")
  else if Js.defined (Js.prop query "groundTruth")
          && negb (String.eqb (Js.typeof (Js.prop query "groundTruth")) "string") then
    inl ("Query #" +:+ n +:+ " has a non-string " +:+ dq +:+ "groundTruth" +:+ dq +:+ ".")
  else if Js.truthy validFrom && negb (isValidIsoDate validFrom) then
    inl ("Query #" +:+ n +:+ " has invalid " +:+ dq +:+ "validFrom" +:+ dq +:+ ": "
           +:+ Js.ToString validFrom)
  else if Js.defined validUntil && Js.nonNull validUntil
          && (negb (Js.truthy validUntil) || negb (isValidIsoDate validUntil)) then
    inl ("Query #" +:+ n +:+ " has invalid " +:+ dq +:+ "validUntil" +:+ dq +:+ ": "
           +:+ Js.ToString validUntil)
  else if Js.truthy validFrom && Js.truthy validUntil
          && date_gt (new_Date validFrom) (new_Date validUntil) then
    inl ("Query #" +:+ n +:+ " has validFrom after validUntil.")
  else inr query.

(** The [forEach] loop from position [index] on: the [valid] and
    [warnings] arrays it builds. *)
Fixpoint validateFrom (index : nat) (queries : list JsValue)
  : list JsValue * list string :=
  match queries with
  | [] => ([], [])
  | query :: rest =>
      let '(valid, warnings) := validateFrom (S index) rest in
      match validateQuery query index with
      | inl warning => (valid, warning :: warnings)
      | inr q => (q :: valid, warnings)
      end
  end.

(** What [validateQueries] writes with [console.warn]. *)
Definition validationReport (warnings : list string) : list string :=
  match warnings with
  | [] => []
  | _ =>
      ["Warning: Skipped " +:+ pretty (length warnings) +:+ " invalid queries:"]
        ++ map (fun warning => "  - " +:+ warning) (take 10 warnings)
        ++ (if (10 <? length warnings)%nat
            then ["  - ...and " +:+ pretty (length warnings - 10)%nat +:+ " more."]
            else [])
        ++ [""]
  end.

(** [validateQueries(queries)] *)
Definition validateQueries (queries : list JsValue) : M (list JsValue) :=
  let '(valid, warnings) := validateFrom 0 queries in
  logAll (validationReport warnings);;
  ret valid.

(** [[...value]]: arrays and strings are iterable *)
Definition spread (name : string) (value : JsValue) : M (list JsValue) :=
  match value with
  | JArr items => ret items
  | JStr s => ret (map (fun c => JStr (String c EmptyString)) (list_ascii_of_string s))
  | _ => throw (ErrorObj (name +:+ " is not iterable"))
  end.

Definition parseJSON (text : string) : M JsValue :=
  fun w => (JSON_parse text, w).

(** [loadQueries()]: both files are read and parsed; a failure of either
    rejects the whole load (which of two failures is reported depends on
    timing, the model reports them in program order). *)
Definition loadQueries : M (list JsValue) :=
  let queriesDir := joinPath projectRoot "queries" in
  let! staticText := readFile (joinPath queriesDir "queries-static.json") in
  let! temporalText := readFile (joinPath queriesDir "queries-temporal.json") in
  let! staticQueries := parseJSON staticText in
  let! temporalQueries := parseJSON temporalText in
  let! s := spread "staticQueries" staticQueries in
  let! t := spread "temporalQueries" temporalQueries in
  ret (s ++ t)%list.

End Runner_queries.

(** ** The gateways and the gateway registry (gateways) *)

(** [SearchGateway.search(query, parameters)] *)
Definition SearchGateway `{Platform} : Type :=
  JsValue -> Params -> World -> Outcome SearchResponse * World.

(** The members every plain object inherits from [Object.prototype]: a lookup
    [table[name]] with one of these names finds the inherited member. *)
Definition objectPrototypeKeys : list string :=
  ["constructor"; "__defineGetter__"; "__defineSetter__"; "hasOwnProperty";
   "__lookupGetter__"; "__lookupSetter__"; "isPrototypeOf"; "propertyIsEnumerable";
   "toString"; "valueOf"; "__proto__"; "toLocaleString"].

Definition inherited (name : string) : bool :=
  existsb (String.eqb name) objectPrototypeKeys.

Section Gateway_modules.
Context `{P : Platform}.

(** The shape shared by the three [getClient] functions: the module-level
    client is built on first use from the key in the environment. *)
Definition lazyClient (client : option string) (keyName : string)
  (store : option string -> World -> World) : M string :=
  fun w =>
    match client with
    | Some c => (Returned c, w)
    | None =>
        match env w !! keyName with
        | Some apiKey =>
            if String.eqb apiKey ""
            then (Threw (ErrorObj (keyName +:+ " environment variable is not set")), w)
            else (Returned apiKey, store (Some apiKey) w)
        | None => (Threw (ErrorObj (keyName +:+ " environment variable is not set")), w)
        end
    end.

(** [parameters.name] *)
Definition parameter (parameters : Params) (name : string) : JsValue :=
  default JUndefined (Js.assoc name parameters).

Definition countTokensM (payload : JsValue) : M Z :=
  fun w => (countTokens payload, w).

(** [response.name] on an SDK response *)
Definition responseProp (response : JsValue) (name : string) : M JsValue :=
  match response with
  | JUndefined | JNull =>
      throw (ErrorObj ("Cannot read properties of " +:+ Js.ToString response
                         +:+ " (reading '" +:+ name +:+ "')"))
  | _ => ret (Js.prop response name)
  end.

(** The [catch] block shared by the three gateways. *)
Definition failed (startTime : Z) (error : Thrown) : M SearchResponse :=
  let! endTime := now_ms in
  let latencyMs := endTime - startTime in
  let errorMessage := errorMessageOf error in
  ret {| data := JNull; latencyMs := latencyMs; tokenCount := 0;
         requestId := JUndefined; error := Some errorMessage |}.

(** *** tavily *)

Definition tavily_getClient : M string :=
  fun w => lazyClient (tavilyClient w) "TAVILY_API_KEY" setTavilyClient w.

Definition tavilySearchOptions (parameters : Params) : JsValue :=
  JObj [("searchDepth", Js.nullish (parameter parameters "searchDepth") (JStr "basic"));
        ("includeAnswer", Js.nullish (parameter parameters "includeAnswer") (JBool false));
        ("includeRawContent",
         Js.nullish (parameter parameters "includeRawContent") (JBool false));
        ("includeImageDescriptions",
         Js.nullish (parameter parameters "includeImageDescriptions") (JBool false));
        ("includeFavicon", Js.nullish (parameter parameters "includeFavicon") (JBool true));
        ("maxResults", Js.nullish (parameter parameters "maxResults") (JNum 5))].

Definition callTavily (client : string) (query options : JsValue) : M JsValue :=
  fun w =>
    let '(r, e) := tavily_sdk_search client query options (ext w) in (r, setExt e w).

(** [TavilyGateway.search(query, parameters)] *)
Definition TavilyGateway : SearchGateway :=
  fun query parameters =>
    let! startTime := now_ms in
    try_catch
      (let! tavilyClient := tavily_getClient in
       let searchOptions := tavilySearchOptions parameters in
       let! response := callTavily tavilyClient query searchOptions in
       let! endTime := now_ms in
       let latencyMs := endTime - startTime in
       let! tokenCount := countTokensM response in
       ret {| data := response; latencyMs := latencyMs; tokenCount := tokenCount;
              requestId := JUndefined; error := None |})
      (failed startTime).

(** *** parallel *)

Definition parallel_getClient : M string :=
  fun w => lazyClient (parallelClient w) "PARALLEL_API_KEY" setParallelClient w.

Definition parallelSearchRequest (query : JsValue) (parameters : Params) : JsValue :=
  let maxResults := Js.nullish (parameter parameters "max_results") (JNum 2) in
  let maxCharsPerResult :=
    Js.nullish (parameter parameters "max_chars_per_result") (JNum 4000) in
  JObj [("search_queries", JArr [query]);
        ("max_results", maxResults);
        ("excerpts", JObj [("max_chars_per_result", maxCharsPerResult)])].

Definition callParallel (client : string) (request : JsValue) : M JsValue :=
  fun w => let '(r, e) := parallel_sdk_search client request (ext w) in (r, setExt e w).

(** [ParallelGateway.search(query, parameters)] *)
Definition ParallelGateway : SearchGateway :=
  fun query parameters =>
    let! startTime := now_ms in
    try_catch
      (let! parallelClient := parallel_getClient in
       let! response := callParallel parallelClient (parallelSearchRequest query parameters) in
       let! endTime := now_ms in
       let latencyMs := endTime - startTime in
       let! tokenCount := countTokensM response in
       let! requestId := responseProp response "request_id" in
       ret {| data := response; latencyMs := latencyMs; tokenCount := tokenCount;
              requestId := requestId; error := None |})
      (failed startTime).

(** *** you *)

(** you: [getClient()] *)
Definition getClient : M string :=
  fun w => lazyClient (youClient w) "YOU_API_KEY" setYouClient w.

Definition optionalField (parameters : Params) (name : string)
  : list (string * JsValue) :=
  let v := parameter parameters name in
  if Js.truthy v then [(name, v)] else [].

(** The [searchRequest] object built from the parameters. *)
Definition youSearchRequest (query : JsValue) (parameters : Params) : JsValue :=
  JObj ([("query", query);
         ("count", Js.nullish (parameter parameters "count") (JNum 10))]
          ++ optionalField parameters "freshness"
          ++ optionalField parameters "country"
          ++ optionalField parameters "safesearch").

(** [response.metadata?.searchUuid] *)
Definition searchUuid (response : JsValue) : M JsValue :=
  let! metadata := responseProp response "metadata" in
  match metadata with
  | JUndefined | JNull => ret JUndefined
  | _ => ret (Js.prop metadata "searchUuid")
  end.

Definition callYou (client : string) (request : JsValue) : M JsValue :=
  fun w => let '(r, e) := you_sdk_search client request (ext w) in (r, setExt e w).

(** [YouGateway.search(query, parameters)] *)
Definition YouGateway : SearchGateway :=
  fun query parameters =>
    let! startTime := now_ms in
    try_catch
      (let! youClient := getClient in
       let searchRequest := youSearchRequest query parameters in
       let! response := callYou youClient searchRequest in
       let! endTime := now_ms in
       let latencyMs := endTime - startTime in
       let! tokenCount := countTokensM response in
       let! requestId := searchUuid response in
       ret {| data := response; latencyMs := latencyMs; tokenCount := tokenCount;
              requestId := requestId; error := None |})
      (failed startTime).

(** *** The registry *)

(** The [gateways] table of the registry module. *)
Definition gateways : list (string * SearchGateway) :=
  [("tavily", TavilyGateway); ("parallel", ParallelGateway); ("you", YouGateway)].

End Gateway_modules.

Section Registry.
Context `{P : Platform}.

(** The table the lookups go through: the [gateways] table above, or the
    capabilities a test puts in its place. *)
Variable registry : list (string * SearchGateway).

(** An inherited member of the table taken for a gateway: it has no
    [search] method, so calling it throws. *)
Definition notAGateway : SearchGateway :=
  fun _ _ w => (Threw (ErrorObj "gateway.search is not a function"), w).

(** [getGateway(name)] *)
Definition getGateway (name : string) : M SearchGateway :=
  match Js.assoc name registry with
  | Some gateway => ret gateway
  | None =>
      if inherited name then ret notAGateway
      else
        let available := Js.join ", " (map fst registry) in
        throw (ErrorObj ("Unknown gateway: " +:+ name +:+ ". Available gateways: "
                           +:+ available))
  end.

(** [getAvailableGateways()] *)
Definition getAvailableGateways : list string := map fst registry.

End Registry.

(** ** The run orchestrator (runner) *)

(** [requiredEnvByGateway] *)
Definition requiredEnvByGateway : list (string * list string) :=
  [("tavily", ["TAVILY_API_KEY"]); ("parallel", ["PARALLEL_API_KEY"])].

Section Runner.
Context `{P : Platform}.
Variable registry : list (string * SearchGateway).

(** [generateResultFilename()] *)
Definition generateResultFilename : M string :=
  let! now := now_ms in
  let timestamp := Js.replaceColons (toISOString now) in
  ret (timestamp +:+ ".json").

(** [!!response.error] *)
Definition errorFlag (response : SearchResponse) : bool :=
  match error response with
  | Some message => negb (String.eqb message "")
  | None => false
  end.

(** The [try] block of [executeQuery]. *)
Definition dispatch (query : JsValue) (config : SearchConfig) : M SearchResponse :=
  let! gateway := getGateway registry (cfg_gateway config) in
  gateway (Js.prop query "query") (cfg_parameters config).

(** The first two statements of [executeQuery]: [startTime = Date.now()]
    and [executedAt = new Date().toISOString()]. *)
Definition callStart (w : World) : Z * string * World :=
  let '(startTime, e) := Date_now (ext w) in
  let '(executedAtMs, e) := Date_now e in
  (startTime, toISOString executedAtMs, setExt e w).

(** The [catch] block of [executeQuery]. *)
Definition caught (startTime : Z) (error : Thrown) (w : World)
  : SearchResponse * World :=
  let errorMessage := errorMessageOf error in
  let '(endTime, e) := Date_now (ext w) in
  ({| data := JNull; latencyMs := endTime - startTime; tokenCount := 0;
      requestId := JUndefined; error := Some errorMessage |}, setExt e w).

(** [executeQuery(query, config)]; it never throws. *)
Definition executeQuery (query : JsValue) (config : SearchConfig) (w : World)
  : QueryResult * World :=
  let '(startTime, executedAt, w) := callStart w in
  let '(response, w) :=
    match dispatch query config w with
    | (Returned response, w) => (response, w)
    | (Threw error, w) => caught startTime error w
    end in
  ({| query := Js.prop query "query";
      groundTruth := Js.prop query "groundTruth";
      validFrom := Js.prop query "validFrom";
      validUntil := Js.prop query "validUntil";
      configId := cfg_id config;
      gateway := cfg_gateway config;
      parameters := cfg_parameters config;
      executedAt := executedAt;
      response := response;
      hasError := errorFlag response |}, w).

(** [requiredEnvByGateway[config.gateway] ?? []], as far as the [filter]
    call on it goes: an inherited member has no [filter] method. *)
Definition requiredEnv (gatewayName : string) : Outcome (list string) :=
  match Js.assoc gatewayName requiredEnvByGateway with
  | Some required => Returned required
  | None =>
      if inherited gatewayName
      then Threw (ErrorObj "required.filter is not a function")
      else Returned []
  end.

(** The callback of [configs.filter]. *)
Definition configFilter (config : SearchConfig) : M bool :=
  fun w =>
    match requiredEnv (cfg_gateway config) with
    | Threw error => (Threw error, w)
    | Returned required =>
        let missing := List.filter (envMissing (env w)) required in
        if (0 <? length missing)%nat then
          (log ("Skipping config " +:+ cfg_id config +:+ " (missing "
                  +:+ Js.join ", " missing +:+ ")");;
           ret false) w
        else (Returned true, w)
    end.

(** [configs.filter(callback)] *)
Fixpoint filterConfigs (configs : list SearchConfig) : M (list SearchConfig) :=
  match configs with
  | [] => ret []
  | config :: rest =>
      let! keep := configFilter config in
      let! kept := filterConfigs rest in
      ret (if keep then config :: kept else kept)
  end.

(** What the callback answers for a configuration in a given environment
    (when the lookup of its requirements does not throw). *)
Definition credentialsPresent (environment : gmap string string)
  (config : SearchConfig) : bool :=
  match requiredEnv (cfg_gateway config) with
  | Returned required =>
      negb (0 <? length (List.filter (envMissing environment) required))%nat
  | Threw _ => false
  end.

(** The pre-check excludes the configuration: some required credential
    is missing. *)
Definition excluded (environment : gmap string string) (config : SearchConfig) : bool :=
  match requiredEnv (cfg_gateway config) with
  | Returned required => (0 <? length (List.filter (envMissing environment) required))%nat
  | Threw _ => false
  end.

(** The runnable configuration set. *)
Definition runnableConfigSet (environment : gmap string string)
  (configs : list SearchConfig) : list SearchConfig :=
  List.filter (credentialsPresent environment) configs.

(** The runnable query set: the loaded entries that pass the validator and
    are in window at the run's start instant. *)
Definition runnableQuerySet (now : Z) (allQueries : list JsValue) : list JsValue :=
  List.filter (fun q => isQueryRunnable q (Some now)) (fst (validateFrom 0 allQueries)).

Definition print (line : string) (w : World) : World :=
  setConsole (console w ++ [line]) w.

(** The line logged before each call. *)
Definition progressLine (completed totalCombinations : nat) (query : JsValue)
  (config : SearchConfig) : string :=
  "[" +:+ pretty completed +:+ "/" +:+ pretty totalCombinations +:+ "] "
    +:+ dq +:+ String.substring 0 40 (Js.ToString (Js.prop query "query"))
    +:+ "..." +:+ dq +:+ " → " +:+ cfg_id config.

(** The inner [for] loop, from the current [completed] counter and
    [results] array. *)
Fixpoint forConfigs (totalCombinations : nat) (query : JsValue)
  (configs : list SearchConfig) (completed : nat) (results : list QueryResult)
  (w : World) : nat * list QueryResult * World :=
  match configs with
  | [] => (completed, results, w)
  | config :: rest =>
      let completed := S completed in
      let w := print (progressLine completed totalCombinations query config) w in
      let '(result, w) := executeQuery query config w in
      let results := (results ++ [result])%list in
      let w :=
        if hasError result then
          print ("  ⚠ Error: " +:+ default "undefined" (error (response result))) w
        else
          print ("  ✓ " +:+ pretty (latencyMs (response result)) +:+ "ms, "
                   +:+ pretty (tokenCount (response result)) +:+ " tokens") w in
      forConfigs totalCombinations query rest completed results w
  end.

(** The outer [for] loop. *)
Fixpoint forQueries (totalCombinations : nat) (queries : list JsValue)
  (configs : list SearchConfig) (completed : nat) (results : list QueryResult)
  (w : World) : nat * list QueryResult * World :=
  match queries with
  | [] => (completed, results, w)
  | query :: rest =>
      let '(completed, results, w) :=
        forConfigs totalCombinations query configs completed results w in
      forQueries totalCombinations rest configs completed results w
  end.

(** [runEvaluation(configs)] *)
Definition runEvaluation (configs : list SearchConfig) : M RunResult :=
  let! now := now_ms in
  let runId := Js.replaceColons (toISOString now) in
  log ("Starting evaluation run: " +:+ runId);;
  let! runnableConfigs := filterConfigs configs in
  if (length runnableConfigs =? 0)%nat then
    log "No runnable configs. Set missing API keys to run evaluations.";;
    ret {| run_id := runId; run_executedAt := toISOString now; results := [] |}
  else
    let! allQueries := loadQueries in
    log ("Loaded " +:+ pretty (length allQueries) +:+ " total queries");;
    let! validatedQueries := validateQueries allQueries in
    let runnableQueries :=
      List.filter (fun q => isQueryRunnable q (Some now)) validatedQueries in
    log (pretty (length runnableQueries) +:+ " queries are within validity window");;
    let skippedCount := (length allQueries - length runnableQueries)%nat in
    (if (0 <? skippedCount)%nat
     then log ("Skipped " +:+ pretty skippedCount +:+ " queries outside validity window")
     else ret tt);;
    let totalCombinations := (length runnableQueries * length runnableConfigs)%nat in
    log ("Running " +:+ pretty (length runnableQueries) +:+ " queries × "
           +:+ pretty (length runnableConfigs) +:+ " configs = "
           +:+ pretty totalCombinations +:+ " combinations");;
    log "";;
    fun w =>
      let '(_, results, w) :=
        forQueries totalCombinations runnableQueries runnableConfigs 0 [] w in
      (Returned {| run_id := runId; run_executedAt := toISOString now;
                   results := results |}, w).

End Runner.

(** ** [JSON.stringify(value, null, 2)] *)

Definition nl : string := String "010"%char EmptyString.

Module Json.

Definition hexDigit (n : nat) : ascii :=
  default "0"%char (String.get n "0123456789abcdef").

(** One code unit inside a JSON string literal. *)
Definition escape (c : ascii) : string :=
  let n := nat_of_ascii c in
  if (n =? 34)%nat then "\" +:+ dq
  else if (n =? 92)%nat then "\\"
  else if (n =? 8)%nat then "\b"
  else if (n =? 9)%nat then "\t"
  else if (n =? 10)%nat then "\n"
  else if (n =? 12)%nat then "\f"
  else if (n =? 13)%nat then "\r"
  else if (n <? 32)%nat then
    "\u00" +:+ String (hexDigit (n / 16)) (String (hexDigit (n mod 16)) EmptyString)
  else String c EmptyString.

Fixpoint escapeAll (s : string) : string :=
  match s with
  | EmptyString => EmptyString
  | String c rest => escape c +:+ escapeAll rest
  end.

Definition quote (s : string) : string := dq +:+ escapeAll s +:+ dq.

(** The text of a value at the given current indentation; an [undefined]
    array element is written [null], an [undefined] property is left out.
    Numbers are the integers below 10^21 in absolute value, which are
    written in full. *)
Fixpoint stringify (indent : string) (v : JsValue) : string :=
  match v with
  | JUndefined | JNull => "null"
  | JBool true => "true"
  | JBool false => "false"
  | JNum n => pretty n
  | JStr s => quote s
  | JArr items =>
      let inner := indent +:+ "  " in
      match items with
      | [] => "[]"
      | _ =>
          "[" +:+ nl +:+ inner
            +:+ String.concat ("," +:+ nl +:+ inner) (map (stringify inner) items)
            +:+ nl +:+ indent +:+ "]"
      end
  | JObj fields =>
      let inner := indent +:+ "  " in
      let properties :=
        (fix go (fs : list (string * JsValue)) : list string :=
           match fs with
           | [] => []
           | (k, x) :: rest =>
               if Js.defined x
               then (quote k +:+ ": " +:+ stringify inner x) :: go rest
               else go rest
           end) fields in
      match properties with
      | [] => "{}"
      | _ =>
          "{" +:+ nl +:+ inner
            +:+ String.concat ("," +:+ nl +:+ inner) properties
            +:+ nl +:+ indent +:+ "}"
      end
  end.

Definition ofOption (o : option string) : JsValue :=
  match o with
  | Some s => JStr s
  | None => JUndefined
  end.

(** The objects the runner builds, with their properties in the order of
    the object literals. *)
Definition ofResponse (r : SearchResponse) : JsValue :=
  JObj [("data", data r); ("latencyMs", JNum (latencyMs r));
        ("tokenCount", JNum (tokenCount r)); ("requestId", requestId r);
        ("error", ofOption (error r))].

Definition ofQueryResult (r : QueryResult) : JsValue :=
  JObj [("query", query r); ("groundTruth", groundTruth r);
        ("validFrom", validFrom r); ("validUntil", validUntil r);
        ("configId", JStr (configId r)); ("gateway", JStr (gateway r));
        ("parameters", JObj (parameters r)); ("executedAt", JStr (executedAt r));
        ("response", ofResponse (response r)); ("hasError", JBool (hasError r))].

Definition ofRunResult (run : RunResult) : JsValue :=
  JObj [("id", JStr (run_id run)); ("executedAt", JStr (run_executedAt run));
        ("results", JArr (map ofQueryResult (results run)))].

End Json.

(** ** The result store and the grading pass (runner, evaluator) *)

Section Store.
Context `{P : Platform}.

(** [saveResults(runResult)] *)
Definition saveResults (runResult : RunResult) : M string :=
  let resultsDir := joinPath projectRoot "results" in
  mkdir resultsDir;;
  let filename := run_id runResult +:+ ".json" in
  let filepath := joinPath resultsDir filename in
  writeFile filepath (Json.stringify "" (Json.ofRunResult runResult));;
  ret filepath.

(** [names.sort()]: ascending by code units (a merge sort, as in the engine). *)
Definition sortStrings (l : list string) : list string :=
  merge_sort String.le l.

(** [findLatestResultsFile()] *)
Definition findLatestResultsFile : M string :=
  let resultsDir := joinPath projectRoot "results" in
  let! files := readdir resultsDir in
  let jsonFiles :=
    rev (sortStrings (List.filter (fun f => Js.endsWith f ".json") files)) in
  match jsonFiles with
  | [] => throw (ErrorObj "No results files found in results/")
  | latest :: _ => ret (joinPath resultsDir latest)
  end.

(** [value || fallback] on an environment variable *)
Definition orDefault (value : option string) (fallback : string) : string :=
  match value with
  | Some text => if String.eqb text "" then fallback else text
  | None => fallback
  end.

Definition resultsHeading : string :=
  nl +:+ nl +:+ "## Results to Evaluate" +:+ nl +:+ nl.

(** The request [evaluate] sends. *)
Definition gradingRequest (modelName instructions results : string) : ChatRequest :=
  {| model := modelName;
     max_completion_tokens := 8192;
     messages := [ {| role := "user";
                      content := instructions +:+ resultsHeading +:+ results |} ] |}.

Definition createChatCompletion (request : ChatRequest) : M JsValue :=
  fun w =>
    let '(r, e) := chat_completions_create request (ext w) in
    (r, setChatLog (chatLog w ++ [request]) (setExt e w)).

(** [evaluate(resultsPath)] *)
Definition evaluate (resultsPath : string) : M string :=
  let! results := readFile resultsPath in
  let! instructions := readFile (joinPath projectRoot "EVALUATOR_INSTRUCTIONS.md") in
  let! evalModel := getenv "EVAL_MODEL" in
  let modelName := orDefault evalModel "gpt-4o" in
  log ("Using model: " +:+ modelName);;
  let! response := createChatCompletion (gradingRequest modelName instructions results) in
  let output := if Js.truthy response then Js.ToString response else "" in
  (match JSON_parse output with
   | Returned _ => ret tt
   | Threw _ => log "Warning: LLM output is not valid JSON. Writing raw output."
   end);;
  let filename := basename resultsPath in
  let evalsDir := joinPath projectRoot "evals" in
  mkdir evalsDir;;
  let evalPath := joinPath evalsDir filename in
  writeFile evalPath output;;
  log ("Evaluation written to: " +:+ evalPath);;
  ret evalPath.

End Store.

(** ** The summary and the entry point (runner, index) *)

(** [s.repeat(n)] *)
Fixpoint repeatString (s : string) (n : nat) : string :=
  match n with
  | O => ""
  | S n' => s +:+ repeatString s n'
  end.

(** [map.set(key, value)] on a [Map], held as the list of its entries in
    insertion order: a key already there keeps its place. *)
Fixpoint mapSet {A : Type} (key : string) (value : A) (entries : list (string * A))
  : list (string * A) :=
  match entries with
  | [] => [(key, value)]
  | (k, v) :: rest =>
      if String.eqb key k then (key, value) :: rest else (k, v) :: mapSet key value rest
  end.

(** One turn of a grouping loop of [printSummary]:
    [existing = map.get(key) || []; existing.push(result); map.set(key, existing)]. *)
Definition groupStep (key : QueryResult -> string)
  (byKey : list (string * list QueryResult)) (result : QueryResult)
  : list (string * list QueryResult) :=
  let existing := default [] (Js.assoc (key result) byKey) in
  mapSet (key result) (existing ++ [result])%list byKey.

(** The grouping loops of [printSummary]. *)
Definition groupBy (key : QueryResult -> string) (results : list QueryResult)
  : list (string * list QueryResult) :=
  fold_left (groupStep key) results [].

(** The [configs] array of the configurations module. *)
Definition configs : list SearchConfig :=
  [ {| cfg_id := "tavily-basic"; cfg_gateway := "tavily";
       cfg_parameters := [("searchDepth", JStr "basic"); ("includeAnswer", JBool false);
                          ("maxResults", JNum 5)] |};
    {| cfg_id := "tavily-advanced"; cfg_gateway := "tavily";
       cfg_parameters := [("searchDepth", JStr "advanced"); ("includeAnswer", JBool true);
                          ("maxResults", JNum 5)] |};
    {| cfg_id := "parallel-default"; cfg_gateway := "parallel";
       cfg_parameters := [("max_results", JNum 2); ("max_chars_per_result", JNum 4000)] |};
    {| cfg_id := "parallel-extended"; cfg_gateway := "parallel";
       cfg_parameters := [("max_results", JNum 5); ("max_chars_per_result", JNum 8000)] |};
    {| cfg_id := "you-default"; cfg_gateway := "you";
       cfg_parameters := [("count", JNum 5)] |};
    {| cfg_id := "you-fresh"; cfg_gateway := "you";
       cfg_parameters := [("count", JNum 5); ("freshness", JStr "week")] |} ].

Section Entry.
Context `{P : Platform}.

(** [(sum / count).toFixed(0)], and the text [console.error] prints for a
    caught value: both are left to the platform. *)
Variable toFixed0 : Z -> nat -> string.
Variable inspect : Thrown -> string.

Definition sumOf (f : QueryResult -> Z) (results : list QueryResult) : Z :=
  fold_left (fun sum r => sum + f r) results 0.

(** A line of "Results by config" or of "Results by gateway". *)
Definition groupLine (entry : string * list QueryResult) : string :=
  let '(name, group) := entry in
  let errors := length (List.filter hasError group) in
  let success := (length group - errors)%nat in
  "  " +:+ name +:+ ": " +:+ pretty success +:+ "/" +:+ pretty (length group)
    +:+ " successful".

(** [printSummary(runResult)] *)
Definition printSummary (runResult : RunResult) : M unit :=
  let results := results runResult in
  let totalResults := length results in
  let errorCount := length (List.filter hasError results) in
  let successCount := (totalResults - errorCount)%nat in
  log "";;
  log (repeatString "=" 60);;
  log "RUN SUMMARY";;
  log (repeatString "=" 60);;
  log ("Run ID: " +:+ run_id runResult);;
  log ("Total results: " +:+ pretty totalResults);;
  log ("Successful: " +:+ pretty successCount);;
  log ("Errors: " +:+ pretty errorCount);;
  (if (0 <? totalResults)%nat then
     let successfulResults := List.filter (fun r => negb (hasError r)) results in
     (if (0 <? length successfulResults)%nat then
        log ("Average latency: "
               +:+ toFixed0 (sumOf (fun r => latencyMs (response r)) successfulResults)
                     (length successfulResults) +:+ "ms");;
        log ("Average tokens: "
               +:+ toFixed0 (sumOf (fun r => tokenCount (response r)) successfulResults)
                     (length successfulResults))
      else ret tt);;
     log "";;
     log "Results by config:";;
     logAll (map groupLine (groupBy configId results));;
     log "";;
     log "Results by gateway:";;
     logAll (map groupLine (groupBy gateway results))
   else ret tt);;
  log (repeatString "=" 60).

(** The start of [main]: the banner and the warning about missing keys. *)
Definition announce : M unit :=
  log "Search Evals - Evaluation Framework";;
  log "===================================";;
  log "";;
  fun w =>
    let missingKeys :=
      ((if envMissing (env w) "TAVILY_API_KEY" then ["TAVILY_API_KEY"] else [])
         ++ (if envMissing (env w) "PARALLEL_API_KEY" then ["PARALLEL_API_KEY"] else []))%list in
    if (0 <? length missingKeys)%nat then
      (log ("Warning: Missing API keys: " +:+ Js.join ", " missingKeys);;
       log "Configs requiring missing keys will be skipped. Set them in .env.";;
       log "") w
    else (Returned tt, w).

(** The [try] block of [main]; its value is the exit status it asks for. *)
Definition mainBody : M Z :=
  let! runResult := runEvaluation gateways configs in
  let! filepath := saveResults runResult in
  log "";;
  log ("Results saved to: " +:+ filepath);;
  printSummary runResult;;
  let errorCount := length (List.filter hasError (results runResult)) in
  ret (if (0 <? errorCount)%nat then 1 else 0).

(** [main()] of the entry point: the exit status of the process and the
    world it leaves. *)
Definition main (w : World) : Z * World :=
  match (announce;; mainBody) w with
  | (Returned status, w') => (status, w')
  | (Threw error, w') =>
      (1, print ("Fatal error during evaluation: " +:+ inspect error) w')
  end.

End Entry.

(** ** The WikiData seeder: [processResults] *)

(** A binding of the SPARQL response, as [processResults] reads it:
    [item.value], [itemLabel.value] and [itemLabel["xml:lang"]]. *)
Record WikiDataBinding : Type := mkWikiDataBinding {
  item_value : string;
  itemLabel_value : string;
  itemLabel_lang : option string
}.

Record SeedEntity : Type := mkSeedEntity {
  seed_id : string;
  seed_label : string
}.

(** [value.split('/').pop()]: the text after the last slash. *)
Definition lastSegment (value : string) : string :=
  String.rev (snd (splitPathRev (String.rev value))).

(** [!lang || lang === 'en'] *)
Definition acceptedLanguage (lang : option string) : bool :=
  match lang with
  | None => true
  | Some l => String.eqb l "" || String.eqb l "en"
  end.

(** [self.findIndex(predicate)], from position [index] on; -1 when no
    element passes. *)
Fixpoint findIndexFrom (predicate : SeedEntity -> bool) (self : list SeedEntity)
  (index : Z) : Z :=
  match self with
  | [] => -1
  | t :: rest => if predicate t then index else findIndexFrom predicate rest (index + 1)
  end.

Definition findIndex (predicate : SeedEntity -> bool) (self : list SeedEntity) : Z :=
  findIndexFrom predicate self 0.

(** [self.filter((item, index) => callback(item, index))], from position
    [index] on. *)
Fixpoint filterIndexed (callback : SeedEntity -> Z -> bool) (self : list SeedEntity)
  (index : Z) : list SeedEntity :=
  match self with
  | [] => []
  | item :: rest =>
      if callback item index
      then item :: filterIndexed callback rest (index + 1)
      else filterIndexed callback rest (index + 1)
  end.

Definition toSeedEntity (item : WikiDataBinding) : SeedEntity :=
  {| seed_id := lastSegment (item_value item); seed_label := itemLabel_value item |}.

(** [processResults(bindings)] *)
Definition processResults (bindings : list WikiDataBinding) : list SeedEntity :=
  let mapped :=
    map toSeedEntity
      (List.filter (fun item => acceptedLanguage (itemLabel_lang item)) bindings) in
  filterIndexed
    (fun item index =>
       index =? findIndex (fun t => String.eqb (seed_id t) (seed_id item)) mapped)
    mapped 0.

(** ** A JSON reader

    [JSON.parse] restricted to integer numbers and to escapes of code units
    below 256, used by the concrete platform below. The recursion is bounded
    by the length of the text. *)

Module JsonReader.

Definition isSpace (c : ascii) : bool :=
  let n := nat_of_ascii c in
  ((n =? 32) || (n =? 9) || (n =? 10) || (n =? 13))%nat.

Fixpoint skipSpaces (s : string) : string :=
  match s with
  | String c rest => if isSpace c then skipSpaces rest else s
  | EmptyString => EmptyString
  end.

Definition isDigit (c : ascii) : bool :=
  let n := nat_of_ascii c in ((48 <=? n) && (n <=? 57))%nat.

Definition hexValue (c : ascii) : option nat :=
  let n := nat_of_ascii c in
  if ((48 <=? n) && (n <=? 57))%nat then Some (n - 48)%nat
  else if ((97 <=? n) && (n <=? 102))%nat then Some (n - 87)%nat
  else if ((65 <=? n) && (n <=? 70))%nat then Some (n - 55)%nat
  else None.

(** The rest of a string literal, after its opening quote. *)
Fixpoint stringBody (s : string) : option (string * string) :=
  match s with
  | EmptyString => None
  | String c rest =>
      if (nat_of_ascii c =? 34)%nat then Some (EmptyString, rest)
      else if (nat_of_ascii c <? 32)%nat then None
      else if (nat_of_ascii c =? 92)%nat then
        match rest with
        | String e rest' =>
            let simple (code : nat) :=
              match stringBody rest' with
              | Some (body, after) => Some (String (ascii_of_nat code) body, after)
              | None => None
              end in
            match nat_of_ascii e with
            | 34%nat => simple 34%nat
            | 92%nat => simple 92%nat
            | 47%nat => simple 47%nat
            | 98%nat => simple 8%nat
            | 102%nat => simple 12%nat
            | 110%nat => simple 10%nat
            | 114%nat => simple 13%nat
            | 116%nat => simple 9%nat
            | 117%nat =>
                match rest' with
                | String "0" (String "0" (String h1 (String h2 rest''))) =>
                    match hexValue h1, hexValue h2, stringBody rest'' with
                    | Some a, Some b, Some (body, after) =>
                        Some (String (ascii_of_nat (16 * a + b)) body, after)
                    | _, _, _ => None
                    end
                | _ => None
                end
            | _ => None
            end
        | EmptyString => None
        end
      else
        match stringBody rest with
        | Some (body, after) => Some (String c body, after)
        | None => None
        end
  end.

(** The digits at the head of a string, as a number, and what follows. *)
Fixpoint digits (acc : Z) (s : string) : Z * string :=
  match s with
  | String c rest =>
      if isDigit c then digits (10 * acc + (Z.of_nat (nat_of_ascii c) - 48)) rest
      else (acc, s)
  | EmptyString => (acc, s)
  end.

Definition startsNumberTail (s : string) : bool :=
  match s with
  | String c _ =>
      let n := nat_of_ascii c in ((n =? 46) || (n =? 101) || (n =? 69))%nat
  | EmptyString => false
  end.

(** An integer literal. *)
Definition integer (s : string) : option (Z * string) :=
  let '(negative, s1) :=
    match s with
    | String "-" rest => (true, rest)
    | _ => (false, s)
    end in
  match s1 with
  | String c _ =>
      if isDigit c then
        let '(n, after) := digits 0 s1 in
        if startsNumberTail after then None
        else Some (if negative then - n else n, after)
      else None
  | EmptyString => None
  end.

(** A later duplicate of a key replaces the value and keeps the position. *)
Fixpoint setField (k : string) (v : JsValue) (fields : list (string * JsValue))
  : list (string * JsValue) :=
  match fields with
  | [] => [(k, v)]
  | (k', v') :: rest =>
      if String.eqb k k' then (k, v) :: rest else (k', v') :: setField k v rest
  end.

Fixpoint value (fuel : nat) (s : string) : option (JsValue * string) :=
  match fuel with
  | O => None
  | S fuel' =>
      match skipSpaces s with
      | String "n" (String "u" (String "l" (String "l" rest))) => Some (JNull, rest)
      | String "t" (String "r" (String "u" (String "e" rest))) => Some (JBool true, rest)
      | String "f" (String "a" (String "l" (String "s" (String "e" rest)))) =>
          Some (JBool false, rest)
      | String "[" rest =>
          match skipSpaces rest with
          | String "]" after => Some (JArr [], after)
          | _ =>
              (fix items (n : nat) (s : string) (acc : list JsValue)
                 : option (JsValue * string) :=
                 match n with
                 | O => None
                 | S n' =>
                     match value fuel' s with
                     | Some (v, s1) =>
                         match skipSpaces s1 with
                         | String "," s2 => items n' s2 (v :: acc)
                         | String "]" s2 => Some (JArr (rev (v :: acc)), s2)
                         | _ => None
                         end
                     | None => None
                     end
                 end) fuel' rest []
          end
      | String "{" rest =>
          match skipSpaces rest with
          | String "}" after => Some (JObj [], after)
          | _ =>
              (fix members (n : nat) (s : string) (acc : list (string * JsValue))
                 : option (JsValue * string) :=
                 match n with
                 | O => None
                 | S n' =>
                     match skipSpaces s with
                     | String c s0 =>
                         if (nat_of_ascii c =? 34)%nat then
                           match stringBody s0 with
                           | Some (k, s1) =>
                               match skipSpaces s1 with
                               | String ":" s2 =>
                                   match value fuel' s2 with
                                   | Some (v, s3) =>
                                       match skipSpaces s3 with
                                       | String "," s4 => members n' s4 (setField k v acc)
                                       | String "}" s4 => Some (JObj (setField k v acc), s4)
                                       | _ => None
                                       end
                                   | None => None
                                   end
                               | _ => None
                               end
                           | None => None
                           end
                         else None
                     | EmptyString => None
                     end
                 end) fuel' rest []
          end
      | String c rest =>
          if (nat_of_ascii c =? 34)%nat then
            match stringBody rest with
            | Some (text, after) => Some (JStr text, after)
            | None => None
            end
          else
            match integer (String c rest) with
            | Some (n, after) => Some (JNum n, after)
            | None => None
            end
      | EmptyString => None
      end
  end.

Definition parse (text : string) : Outcome JsValue :=
  match value (S (String.length text)) text with
  | Some (v, rest) =>
      match skipSpaces rest with
      | EmptyString => Returned v
      | _ => Threw (ErrorObj "Unexpected non-whitespace character after JSON")
      end
  | None => Threw (ErrorObj "Unexpected token in JSON")
  end.

End JsonReader.

(** ** A concrete platform

    An engine whose [Date.parse] recognises the two ISO 8601 forms
    [YYYY-MM-DDTHH:mm:ssZ] and [YYYY-MM-DDTHH:mm:ss.sssZ], with the proleptic
    Gregorian calendar, used to run the model on concrete inputs. *)

Module Iso.

Definition digit (c : ascii) : option Z :=
  let n := nat_of_ascii c in
  if ((48 <=? n) && (n <=? 57))%nat then Some (Z.of_nat n - 48) else None.

(** The number written by a string of decimal digits. *)
Fixpoint number (acc : Z) (s : string) : option Z :=
  match s with
  | EmptyString => Some acc
  | String c rest =>
      match digit c with
      | Some d => number (10 * acc + d) rest
      | None => None
      end
  end.

Definition field (s : string) (start len : nat) : option Z :=
  let part := String.substring start len s in
  if (String.length part =? len)%nat then number 0 part else None.

Definition isLeap (y : Z) : bool :=
  ((y mod 4 =? 0) && negb (y mod 100 =? 0)) || (y mod 400 =? 0).

Definition daysInMonth (y m : Z) : Z :=
  if m =? 2 then (if isLeap y then 29 else 28)
  else if (m =? 4) || (m =? 6) || (m =? 9) || (m =? 11) then 30
  else 31.

(** Days from 1970-01-01 to the civil date. *)
Definition daysFromCivil (y m d : Z) : Z :=
  let y' := if m <=? 2 then y - 1 else y in
  let era := y' / 400 in
  let yoe := y' - era * 400 in
  let doy := (153 * (if 2 <? m then m - 3 else m + 9) + 2) / 5 + d - 1 in
  let doe := yoe * 365 + yoe / 4 - yoe / 100 + doy in
  era * 146097 + doe - 719468.

(** The civil date of a day number. *)
Definition civilFromDays (z : Z) : Z * Z * Z :=
  let z := z + 719468 in
  let era := z / 146097 in
  let doe := z - era * 146097 in
  let yoe := (doe - doe / 1460 + doe / 36524 - doe / 146096) / 365 in
  let doy := doe - (365 * yoe + yoe / 4 - yoe / 100) in
  let mp := (5 * doy + 2) / 153 in
  let d := doy - (153 * mp + 2) / 5 + 1 in
  let m := if mp <? 10 then mp + 3 else mp - 9 in
  ((yoe + era * 400 + (if m <=? 2 then 1 else 0)), m, d).

Definition charAt (s : string) (i : nat) (c : ascii) : bool :=
  match String.get i s with
  | Some c' => Ascii.eqb c c'
  | None => false
  end.

Definition inRange (lo x hi : Z) : bool := (lo <=? x) && (x <=? hi).

Definition parse (s : string) : Date :=
  let len := String.length s in
  if negb ((len =? 20)%nat || (len =? 24)%nat) then None
  else if negb (charAt s 4 "-" && charAt s 7 "-" && charAt s 10 "T"
                && charAt s 13 ":" && charAt s 16 ":"
                && charAt s (len - 1) "Z") then None
  else if (len =? 24)%nat && negb (charAt s 19 ".") then None
  else
    match field s 0 4, field s 5 2, field s 8 2,
          field s 11 2, field s 14 2, field s 17 2,
          (if (len =? 24)%nat then field s 20 3 else Some 0) with
    | Some y, Some m, Some d, Some hh, Some mm, Some ss, Some ms =>
        if inRange 1 m 12 && inRange 1 d (daysInMonth y m)
           && inRange 0 hh 23 && inRange 0 mm 59 && inRange 0 ss 59
        then Some ((((daysFromCivil y m d * 24 + hh) * 60 + mm) * 60 + ss) * 1000 + ms)
        else None
    | _, _, _, _, _, _, _ => None
    end.

(** [n] written with at least [width] digits. *)
Definition pad (width : nat) (n : Z) : string :=
  let text := pretty n in
  String.concat "" (replicate (width - String.length text) "0") +:+ text.

Definition year (y : Z) : string :=
  if inRange 0 y 9999 then pad 4 y
  else if y <? 0 then "-" +:+ pad 6 (- y)
  else "+" +:+ pad 6 y.

Definition toISOString (t : Z) : string :=
  let day := t / 86400000 in
  let ms := t mod 86400000 in
  let '(y, m, d) := civilFromDays day in
  year y +:+ "-" +:+ pad 2 m +:+ "-" +:+ pad 2 d +:+ "T"
    +:+ pad 2 (ms / 3600000) +:+ ":" +:+ pad 2 (ms / 60000 mod 60) +:+ ":"
    +:+ pad 2 (ms / 1000 mod 60) +:+ "." +:+ pad 3 (ms mod 1000) +:+ "Z".

End Iso.

(** ** Sample data: query files, configurations, gateways and worlds *)

Module Fixture.

Definition obj (fields : list (string * JsValue)) : JsValue := JObj fields.

Definition worldCup : JsValue :=
  obj [("query", JStr "Who won the 2022 World Cup?"); ("groundTruth", JStr "Argentina")].

Definition berlinWall : JsValue :=
  obj [("query", JStr "What year did the Berlin Wall fall?"); ("groundTruth", JStr "1989")].

(** An entry without ground truth. *)
Definition tallestBuilding : JsValue :=
  obj [("query", JStr "What is the tallest building in the world?")].

(** A malformed entry: empty text. *)
Definition emptyText : JsValue := obj [("query", JStr "")].

Definition realMadrid : JsValue :=
  obj [("query", JStr "What was Real Madrid's last game?");
       ("groundTruth", JStr "Real Madrid beat Valencia 3-1 on January 28, 2025");
       ("validFrom", JStr "2025-01-28T23:00:00Z");
       ("validUntil", JStr "2025-02-01T19:00:00Z")].

Definition openAiCeo : JsValue :=
  obj [("query", JStr "Who is the current CEO of OpenAI?");
       ("groundTruth", JStr "Sam Altman");
       ("validFrom", JStr "2024-01-01T00:00:00Z");
       ("validUntil", JNull)].

(** An entry whose [validFrom] is the empty string, and its mirror image
    on [validUntil]. *)
Definition emptyValidFrom : JsValue :=
  obj [("query", JStr "Q"); ("validFrom", JStr "")].

Definition emptyValidUntil : JsValue :=
  obj [("query", JStr "Q"); ("validUntil", JStr "")].

Definition staticQueries : JsValue :=
  JArr [worldCup; berlinWall; emptyText; tallestBuilding].
Definition temporalQueries : JsValue := JArr [realMadrid; openAiCeo].

Definition staticText : string := Json.stringify "" staticQueries.
Definition temporalText : string := Json.stringify "" temporalQueries.

Definition youPayload : JsValue :=
  obj [("results", obj [("web", JArr [obj [("title", JStr "FIFA")]])]);
       ("metadata", obj [("searchUuid", JStr "3f1c")])].

Definition tavilyPayload : JsValue :=
  obj [("query", JStr "q"); ("results", JArr [obj [("title", JStr "FIFA")]])].

(** The outside world is the clock; a network call takes time. The Tavily
    and You.com services answer, the Parallel service drops the connection. *)
Definition platformWith (youSdk : string -> JsValue -> Z -> Outcome JsValue * Z)
  : Platform :=
  {| Ext := Z;
     Date_now := fun t => (t, t + 1);
     Date_parse := Iso.parse;
     toISOString := Iso.toISOString;
     JSON_parse := JsonReader.parse;
     countTokens := fun payload => Returned (Js.strlen (Json.stringify "" payload));
     tavily_sdk_search := fun _ _ _ t => (Returned tavilyPayload, t + 40);
     parallel_sdk_search := fun _ _ t => (Threw (ErrorObj "socket hang up"), t + 15);
     you_sdk_search := youSdk;
     chat_completions_create := fun _ t => (Returned (JStr "[]"), t + 900);
     projectRoot := "/app" |}.

Definition platform : Platform :=
  platformWith (fun _ _ t => (Returned youPayload, t + 120)).

(** A platform whose You.com SDK fails with [new Error()]: an error with
    an empty message. *)
Definition platformSilentFailure : Platform :=
  platformWith (fun _ _ t => (Threw (ErrorObj ""), t + 120)).

(** 2025-01-30T00:00:00Z *)
Definition startInstant : Z := 1738195200000.

Definition queriesDir : gmap string string :=
  {[ "queries-static.json" := staticText; "queries-temporal.json" := temporalText ]}.

Definition instructionsText : string := "Skip results that have no groundTruth.".

Definition disk : gmap string (gmap string string) :=
  {[ "/app" := {[ "EVALUATOR_INSTRUCTIONS.md" := instructionsText ]};
     "/app/queries" := queriesDir ]}.

Definition worldWith (P : Platform) (environment : gmap string string)
  (files : gmap string (gmap string string)) (clock : @Ext P) : @World P :=
  {| env := environment; dirs := files; console := []; tavilyClient := None;
     parallelClient := None; youClient := None; chatLog := []; ext := clock |}.




Definition tavilyBasic : SearchConfig :=
  {| cfg_id := "tavily-basic"; cfg_gateway := "tavily";
     cfg_parameters := [("searchDepth", JStr "basic"); ("includeAnswer", JBool false);
                        ("maxResults", JNum 5)] |}.

Definition parallelDefault : SearchConfig :=
  {| cfg_id := "parallel-default"; cfg_gateway := "parallel";
     cfg_parameters := [("max_results", JNum 2); ("max_chars_per_result", JNum 4000)] |}.

Definition youDefault : SearchConfig :=
  {| cfg_id := "you-default"; cfg_gateway := "you";
     cfg_parameters := [("count", JNum 5)] |}.

Definition allKeys : gmap string string :=
  {[ "TAVILY_API_KEY" := "tvly-1"; "PARALLEL_API_KEY" := "par-1"; "YOU_API_KEY" := "ydc-1" ]}.

Definition sampleConfigs : list SearchConfig := [tavilyBasic; parallelDefault; youDefault].

Definition sampleWorld : @World platform := worldWith platform allKeys disk startInstant.

(** A full run on the sample world, and its artifact. *)
Definition sampleRun : Outcome RunResult * @World platform :=
  @runEvaluation platform gateways sampleConfigs sampleWorld.

Definition noArtifact : RunResult :=
  {| run_id := ""; run_executedAt := ""; results := [] |}.

Definition artifactOf (o : Outcome RunResult) : RunResult :=
  match o with
  | Returned run => run
  | Threw _ => noArtifact
  end.

Definition sampleArtifact : RunResult := artifactOf (fst sampleRun).

Definition blankRecord : QueryResult :=
  {| query := JUndefined; groundTruth := JUndefined; validFrom := JUndefined;
     validUntil := JUndefined; configId := ""; gateway := ""; parameters := [];
     executedAt := "";
     response := {| data := JUndefined; latencyMs := 0; tokenCount := 0;
                    requestId := JUndefined; error := None |};
     hasError := false |}.

(** The record at a position of the sample artifact. *)
Definition sampleRecord (position : nat) : QueryResult :=
  nth position (results sampleArtifact) blankRecord.

Definition sampleArtifactPath : string := "/app/results/2025-01-30T00-00-00.000Z.json".

(** The sample world after two earlier runs were stored. *)
Definition storedRuns : gmap string string :=
  {[ "2025-01-29T10-15-00.000Z.json" := "{}"; "2025-01-30T00-00-00.000Z.json" := "{}";
     "notes.txt" := "" ]}.

Definition storeWorld : @World platform :=
  worldWith platform allKeys (<["/app/results" := storedRuns]> disk) startInstant.

(** Scenario C: three valid queries and a malformed one, two configurations. *)
Definition scenarioDisk : gmap string (gmap string string) :=
  {[ "/app/queries" :=
       {[ "queries-static.json" := staticText; "queries-temporal.json" := "[]" ]} ]}.

Definition scenarioWorld : @World platform :=
  worldWith platform allKeys scenarioDisk startInstant.

(** No credential at all, and no query file on disk. *)
Definition bareWorld : @World platform := worldWith platform ∅ ∅ startInstant.


End Fixture.

(** ** Vocabulary of the further properties *)

(** The code unit [c] occurs in [s]. *)
Fixpoint hasChar (c : ascii) (s : string) : bool :=
  match s with
  | EmptyString => false
  | String c' rest => Ascii.eqb c' c || hasChar c rest
  end.

(** A name that can stand for one entry of a directory: not empty, no
    slash, and neither [.] nor [..] (which [join] would resolve). *)
Definition isEntryName (name : string) : bool :=
  negb (String.eqb name "") && negb (hasChar "/" name)
  && negb (String.eqb name ".") && negb (String.eqb name "..").

(** [process.env] replaced as a whole. *)
Definition setEnv `{Platform} (environment : gmap string string) (w : World) : World :=
  {| env := environment; dirs := dirs w; console := console w;
     tavilyClient := tavilyClient w; parallelClient := parallelClient w;
     youClient := youClient w; chatLog := chatLog w; ext := ext w |}.

(** The validator keeps the entry (the position only shows in warnings). *)
Definition accepts `{Platform} (query : JsValue) : bool :=
  match validateQuery query 0 with
  | inr _ => true
  | inl _ => false
  end.

(** A response as the gateways build it: without an error, or an error
    response with no payload, no token and no request id. *)
Definition wellShaped (r : SearchResponse) : Prop :=
  error r = None
  \/ exists message,
       error r = Some message /\ data r = JNull /\ tokenCount r = 0
       /\ requestId r = JUndefined.

(** The world after the clock was read twice and nothing else happened. *)
Definition afterTwoReads `{Platform} (w : World) : World :=
  setExt (snd (Date_now (snd (Date_now (ext w))))) w.

(** The response of a gateway whose [getClient] found no key. *)
Definition missingKeyResponse `{Platform} (keyName : string) (w : World) : SearchResponse :=
  {| data := JNull;
     latencyMs := fst (Date_now (snd (Date_now (ext w)))) - fst (Date_now (ext w));
     tokenCount := 0;
     requestId := JUndefined;
     error := Some (keyName +:+ " environment variable is not set") |}.

(** The module-level [client] variable of the gateway module registered
    under a name, and the key its [getClient] reads. *)
Definition moduleClient `{Platform} (name : string) (w : World) : option string :=
  if String.eqb name "tavily" then tavilyClient w
  else if String.eqb name "parallel" then parallelClient w
  else if String.eqb name "you" then youClient w
  else None.

Definition apiKeyName (name : string) : string :=
  if String.eqb name "tavily" then "TAVILY_API_KEY"
  else if String.eqb name "parallel" then "PARALLEL_API_KEY"
  else if String.eqb name "you" then "YOU_API_KEY"
  else "".

(** What a run must leave alone: the file system, the environment and the
    log of grading requests. *)
Definition storeOf `{Platform} (w : World)
  : gmap string (gmap string string) * gmap string string * list ChatRequest :=
  (dirs w, env w, chatLog w).

Definition keepsStore `{Platform} {A : Type} (m : M A) : Prop :=
  forall w : World, storeOf (snd (m w)) = storeOf w.

(** The record [r] was made by [executeQuery] for the pair ([q], [c]). *)
Definition madeBy `{Platform} (registry : list (string * SearchGateway))
  (qc : JsValue * SearchConfig) (r : QueryResult) : Prop :=
  exists w : World, r = fst (executeQuery registry (fst qc) (snd qc) w).



(** The computation returns and only writes to the console. *)
Definition logsOnly `{Platform} (m : M unit) : Prop :=
  forall w : World, exists lines, m w = (Returned tt, setConsole (console w ++ lines) w).

(** The entities whose id was not [seen] before, each id once: the first
    of its entities. *)
Fixpoint firstOccurrences (seen : list string) (entities : list SeedEntity)
  : list SeedEntity :=
  match entities with
  | [] => []
  | e :: rest =>
      if existsb (String.eqb (seed_id e)) seen
      then firstOccurrences seen rest
      else e :: firstOccurrences (seed_id e :: seen) rest
  end.

(** A value that is neither an object nor an array, so that converting it
    to a string or to a number cannot throw, and that, if a number, is
    written in full when converted to a string (below 10^21 in absolute
    value). *)
Definition isPrimitive (v : JsValue) : bool :=
  match v with
  | JArr _ | JObj _ => false
  | JNum n => Z.abs n <? 10 ^ 21
  | _ => true
  end.

(** The bounds of an entry are primitive values (the type [SearchQuery] has
    them absent, [null] or a string), so that [Date.parse], [new Date] and
    the template of a warning never meet an object, whose conversion throws
    when it carries a [toString] key of its own. *)
Definition primitiveBounds (query : JsValue) : bool :=
  isPrimitive (Js.prop query "validFrom") && isPrimitive (Js.prop query "validUntil").

(** A query whose bounds [isQueryRunnable] can read and convert: it is not
    [null] or [undefined], where reading a property throws, and its bounds
    are primitive. *)
Definition readableQuery (query : JsValue) : bool :=
  Js.defined query && Js.nonNull query && primitiveBounds query.

(** A name the file system takes for a file: an entry name without a NUL
    code unit and of at most 255 bytes in UTF-8 (127 code units, as a code
    unit below 256 takes at most two bytes). *)
Definition isFileName (name : string) : bool :=
  isEntryName name && negb (hasChar "000" name) && (String.length name <=? 127)%nat.

(** A location the file system takes: no NUL code unit, and less than 4096
    bytes in UTF-8. *)
Definition isLocation (path : string) : bool :=
  negb (hasChar "000" path) && (String.length path <=? 2047)%nat.

(** The results directory takes a file of this name: the name and the
    location are ones the file system takes, no file stands where the
    directory goes and no directory where the file goes. (Permissions and
    free space are not part of the world.) *)
Definition storable `{Platform} (w : World) (name : string) : Prop :=
  isFileName name = true
  /\ isLocation (joinPath (joinPath projectRoot "results") name) = true
  /\ dirs w !! projectRoot ≫= (.!! "results") = None
  /\ dirs w !! joinPath (joinPath projectRoot "results") name = None.


(** ** Vocabulary of the specification *)

(** The Result Record [r] is the record of the pair (query [q],
    configuration [c]): it embeds the query's and the configuration's
    fields. *)
Definition recordOf (q : JsValue) (c : SearchConfig) (r : QueryResult) : Prop :=
  query r = Js.prop q "query"
  /\ groundTruth r = Js.prop q "groundTruth"
  /\ validFrom r = Js.prop q "validFrom"
  /\ validUntil r = Js.prop q "validUntil"
  /\ configId r = cfg_id c
  /\ gateway r = cfg_gateway c
  /\ parameters r = cfg_parameters c.

(** The ordered cross product: [xs] in the outer loop, [ys] in the inner. *)
Definition crossProduct {A B : Type} (xs : list A) (ys : list B) : list (A * B) :=
  flat_map (fun x => map (pair x) ys) xs.

(** Following the specification's words: a Result Record is gradable when
    its [groundTruth] is present and its [hasError] is false. *)
Definition gradable (r : QueryResult) : bool :=
  Js.defined (groundTruth r) && negb (hasError r).

(** The text of a Result Record inside a stored Run Artifact (an element of
    the [results] array, two levels deep). *)
Definition entryText (r : QueryResult) : string :=
  Json.stringify "    " (Json.ofQueryResult r).

(** [needle] occurs in [text]. *)
Definition occursIn (needle text : string) : bool :=
  match String.index 0 needle text with
  | Some _ => true
  | None => false
  end.

(** [w'] differs from [w] in the console only. *)
Definition sameButConsole `{Platform} (w w' : World) : Prop :=
  w' = setConsole (console w') w.

(** The computation leaves the log of grading requests as it is. *)
Definition keepsChatLog `{Platform} {A : Type} (m : M A) : Prop :=
  forall w : World, chatLog (snd (m w)) = chatLog w.





(** * Properties *)

(** ** The validity filter *)

Section Validity_properties.
Context `{P : Platform}.

(** Engines answer [NaN] for the empty string. *)
Hypothesis Date_parse_empty : Date_parse "" = None.

Lemma parseable_truthy (s : string) (t : Z) :
  Date_parse s = Some t -> Js.truthy (JStr s) = true.
Proof.
  intros Hs. simpl. destruct (String.eqb_spec s "") as [-> | _]; [|reflexivity].
  rewrite Date_parse_empty in Hs. discriminate.
Qed.

(** With a parseable lower bound, the filter is the conjunction of the two
    bound checks. *)
Lemma isQueryRunnable_from (query : JsValue) (s1 : string) (T1 now : Z) :
  Js.prop query "validFrom" = JStr s1 ->
  Date_parse s1 = Some T1 ->
  isQueryRunnable query (Some now) =
    negb (now <? T1)
    && negb (Js.truthy (Js.prop query "validUntil")
             && date_gt (Some now) (new_Date (Js.prop query "validUntil"))).
Proof.
  intros Hfrom H1. unfold isQueryRunnable. rewrite Hfrom.
  rewrite (parseable_truthy s1 T1 H1). cbn [negb andb new_Date].
  rewrite H1. cbn [date_lt].
  destruct (now <? T1); [reflexivity|]. cbn [negb andb].
  destruct (Js.truthy _ && date_gt _ _); reflexivity.
Qed.

(** C3: with [validFrom = T1] and [validUntil = T2], both parseable and
    [T1 <= T2], the query is runnable at [now] exactly when
    [T1 <= now <= T2]; it is not runnable one millisecond before [T1] nor one
    millisecond after [T2]. *)
Theorem isQueryRunnable_window (query : JsValue) (s1 s2 : string) (T1 T2 now : Z) :
  Js.prop query "validFrom" = JStr s1 ->
  Js.prop query "validUntil" = JStr s2 ->
  Date_parse s1 = Some T1 ->
  Date_parse s2 = Some T2 ->
  T1 <= T2 ->
  (isQueryRunnable query (Some now) = true <-> T1 <= now <= T2)
  /\ isQueryRunnable query (Some (T1 - 1)) = false
  /\ isQueryRunnable query (Some (T2 + 1)) = false.
Proof.
  intros Hfrom Huntil H1 H2 Hle.
  assert (Hrun : forall t, isQueryRunnable query (Some t)
                           = negb (t <? T1) && negb (T2 <? t)).
  { intros t. rewrite (isQueryRunnable_from query s1 T1 t Hfrom H1).
    rewrite Huntil, (parseable_truthy s2 T2 H2). cbn [new_Date andb].
    rewrite H2. reflexivity. }
  rewrite !Hrun. repeat split.
  - destruct (Z.ltb_spec now T1); [discriminate | assumption].
  - destruct (Z.ltb_spec now T1); [discriminate|].
    destruct (Z.ltb_spec T2 now); [discriminate | assumption].
  - intros [Hlo Hhi].
    destruct (Z.ltb_spec now T1); [lia|].
    destruct (Z.ltb_spec T2 now); [lia | reflexivity].
  - destruct (Z.ltb_spec (T1 - 1) T1); [reflexivity | lia].
  - destruct (Z.ltb_spec (T2 + 1) T1); [reflexivity|].
    destruct (Z.ltb_spec T2 (T2 + 1)); [reflexivity | lia].
Qed.

(** C8: with a parseable [validFrom = T1] and [validUntil] explicitly
    [null], the query is runnable at every instant [now >= T1]. *)
Theorem isQueryRunnable_null_until (query : JsValue) (s1 : string) (T1 now : Z) :
  Js.prop query "validFrom" = JStr s1 ->
  Js.prop query "validUntil" = JNull ->
  Date_parse s1 = Some T1 ->
  T1 <= now ->
  isQueryRunnable query (Some now) = true.
Proof.
  intros Hfrom Huntil H1 Hle.
  rewrite (isQueryRunnable_from query s1 T1 now Hfrom H1), Huntil.
  cbn [Js.truthy andb negb].
  destruct (Z.ltb_spec now T1); [lia | reflexivity].
Qed.

End Validity_properties.

(** Scenario A and Scenario B of the specification, on the sample platform. *)
Example scenario_A :
  @isQueryRunnable Fixture.platform
    (JObj [("text", JStr "Q"); ("validFrom", JStr "2025-01-28T23:00:00Z");
           ("validUntil", JStr "2025-02-01T19:00:00Z")])
    (Iso.parse "2025-01-30T00:00:00Z") = true.
Proof. vm_compute. reflexivity. Qed.

Example scenario_B :
  @isQueryRunnable Fixture.platform
    (JObj [("text", JStr "Q"); ("validFrom", JStr "2025-01-28T23:00:00Z");
           ("validUntil", JStr "2025-02-01T19:00:00Z")])
    (Iso.parse "2025-02-02T00:00:00Z") = false.
Proof. vm_compute. reflexivity. Qed.

(** The Real Madrid query of the sample file, at the sample start instant. *)
Lemma isQueryRunnable_window_witness :
  (@isQueryRunnable Fixture.platform Fixture.realMadrid (Some Fixture.startInstant) = true
   <-> 1738105200000 <= Fixture.startInstant <= 1738436400000)
  /\ @isQueryRunnable Fixture.platform Fixture.realMadrid (Some (1738105200000 - 1)) = false
  /\ @isQueryRunnable Fixture.platform Fixture.realMadrid (Some (1738436400000 + 1)) = false.
Proof.
  apply (@isQueryRunnable_window Fixture.platform eq_refl Fixture.realMadrid
           "2025-01-28T23:00:00Z" "2025-02-01T19:00:00Z").
  - reflexivity.
  - reflexivity.
  - vm_compute. reflexivity.
  - vm_compute. reflexivity.
  - lia.
Defined.

(** The OpenAI query of the sample file, a thousand years after the sample
    start instant. *)
Lemma isQueryRunnable_null_until_witness :
  @isQueryRunnable Fixture.platform Fixture.openAiCeo
    (Some (Fixture.startInstant + 31556952000000)) = true.
Proof.
  apply (@isQueryRunnable_null_until Fixture.platform eq_refl Fixture.openAiCeo
           "2024-01-01T00:00:00Z" 1704067200000).
  - reflexivity.
  - reflexivity.
  - vm_compute. reflexivity.
  - vm_compute. discriminate.
Defined.

(** ** The validator *)

Section Validator_properties.
Context `{P : Platform}.

(** A truthy [validFrom] that does not parse is never accepted. *)
Lemma validateQuery_rejects_unparseable_validFrom (query : JsValue) (index : nat) :
  Js.truthy (Js.prop query "validFrom") = true ->
  isValidIsoDate (Js.prop query "validFrom") = false ->
  exists warning, validateQuery query index = inl warning.
Proof.
  intros Htruthy Hbad. unfold validateQuery. rewrite Htruthy, Hbad.
  cbn [negb andb].
  repeat match goal with
         | |- exists _, (if ?c then inl ?m else _) = inl _ =>
             destruct c; [exists m; reflexivity|]
         end.
  eexists. reflexivity.
Qed.

(** C7: what the validator does with the entry
    [{ query: "Q", validFrom: "" }], whose [validFrom] is present and not a
    parseable timestamp: the entry is kept and nothing is written, on every
    platform; the mirror entry [{ query: "Q", validUntil: "" }] is dropped
    with a warning. *)
Theorem validateQueries_keeps_empty_validFrom (w : World) :
  fst (validateQueries [Fixture.emptyValidFrom] w) = Returned [Fixture.emptyValidFrom]
  /\ console (snd (validateQueries [Fixture.emptyValidFrom] w)) = console w
  /\ fst (validateQueries [Fixture.emptyValidUntil] w) = Returned []
  /\ console (snd (validateQueries [Fixture.emptyValidUntil] w))
     = (console w
          ++ ["Warning: Skipped 1 invalid queries:";
              "  - Query #1 has invalid " +:+ dq +:+ "validUntil" +:+ dq +:+ ": ";
              ""])%list.
Proof.
  split; [reflexivity|].
  split; [vm_compute; apply app_nil_r|].
  split; reflexivity.
Qed.

End Validator_properties.

(** ** The cross product *)

Section CrossProduct_properties.
Context {A B : Type}.

Lemma crossProduct_length (xs : list A) (ys : list B) :
  length (crossProduct xs ys) = (length xs * length ys)%nat.
Proof.
  unfold crossProduct. induction xs as [|x xs IH]; [reflexivity|].
  cbn [flat_map]. rewrite length_app, length_map, IH. reflexivity.
Qed.

Lemma crossProduct_lookup (xs : list A) (ys : list B) (i j : nat) (x : A) (y : B) :
  xs !! i = Some x ->
  ys !! j = Some y ->
  crossProduct xs ys !! (i * length ys + j)%nat = Some (x, y).
Proof.
  unfold crossProduct. revert i.
  induction xs as [|x' xs IH]; intros [|i] Hx Hy; try discriminate.
  - injection Hx as ->. cbn [flat_map Nat.mul Nat.add].
    rewrite lookup_app_l.
    + rewrite list_lookup_fmap, Hy. reflexivity.
    + rewrite length_map. apply lookup_lt_Some in Hy. exact Hy.
  - cbn [flat_map]. rewrite lookup_app_r; rewrite length_map; [|simpl; lia].
    replace (S i * length ys + j - length ys)%nat with (i * length ys + j)%nat
      by (simpl; lia).
    apply IH; assumption.
Qed.

End CrossProduct_properties.

(** ** One call: [executeQuery] *)

Section Call_properties.
Context `{P : Platform}.
Variable registry : list (string * SearchGateway).

Lemma errorFlag_true (r : SearchResponse) :
  errorFlag r = true <-> exists message, error r = Some message /\ message <> "".
Proof.
  unfold errorFlag. destruct (error r) as [message|].
  - destruct (String.eqb_spec message "") as [-> | Hne]; cbn [negb]; split.
    + discriminate.
    + intros (m & [= <-] & Hm). contradiction.
    + intros _. exists message. split; [reflexivity | assumption].
    + reflexivity.
  - split; [discriminate | intros (m & Hm & _); discriminate].
Qed.

(** Every record embeds its query and configuration, and its flag is the
    truthiness of the response's error. *)
Lemma executeQuery_record (q : JsValue) (c : SearchConfig) (w : World) :
  recordOf q c (fst (executeQuery registry q c w))
  /\ hasError (fst (executeQuery registry q c w))
     = errorFlag (response (fst (executeQuery registry q c w))).
Proof.
  unfold executeQuery.
  destruct (callStart w) as [[startTime executedAt] w1].
  destruct (dispatch registry q c w1) as [[response1 | error1] w2].
  - cbn. unfold recordOf. cbn. repeat split.
  - destruct (caught startTime error1 w2) as [response1 w3].
    cbn. unfold recordOf. cbn. repeat split.
Qed.


End Call_properties.

(** ** The cross-product dispatch *)

Section Matrix_properties.
Context `{P : Platform}.
Variable registry : list (string * SearchGateway).

(** The inner loop records one Result Record per remaining configuration,
    in order, after the records it started from, whatever the gateways do. *)
Lemma forConfigs_spec (total : nat) (q : JsValue) (configs : list SearchConfig) :
  forall (completed : nat) (results : list QueryResult) (w : World),
  exists (news : list QueryResult) (w' : World),
    forConfigs registry total q configs completed results w
    = ((completed + length configs)%nat, (results ++ news)%list, w')
    /\ Forall2 (recordOf q) configs news.
Proof.
  induction configs as [|c rest IH]; intros completed results w.
  - exists [], w. cbn [forConfigs length]. rewrite app_nil_r, Nat.add_0_r.
    split; [reflexivity | constructor].
  - cbn [forConfigs].
    match goal with
    | |- context [executeQuery registry q c ?w0] =>
        pose proof (executeQuery_record registry q c w0) as [Hrec _];
        destruct (executeQuery registry q c w0) as [r w1]
    end.
    cbn [fst] in Hrec.
    match goal with
    | |- context [forConfigs registry total q rest ?n ?rs ?w0] =>
        destruct (IH n rs w0) as (news & w' & Heq & Hall)
    end.
    exists (r :: news), w'. rewrite Heq. split.
    + rewrite <- app_assoc. cbn [length app]. f_equal. f_equal. lia.
    + constructor; assumption.
Qed.

(** The outer loop records the ordered cross product of the queries and
    the configurations. *)
Lemma forQueries_spec (total : nat) (configs : list SearchConfig) (queries : list JsValue) :
  forall (completed : nat) (results : list QueryResult) (w : World),
  exists (news : list QueryResult) (w' : World),
    forQueries registry total queries configs completed results w
    = ((completed + length queries * length configs)%nat, (results ++ news)%list, w')
    /\ Forall2 (fun qc r => recordOf (fst qc) (snd qc) r)
         (crossProduct queries configs) news.
Proof.
  induction queries as [|q rest IH]; intros completed results w.
  - exists [], w. cbn. rewrite app_nil_r, Nat.add_0_r.
    split; [reflexivity | constructor].
  - cbn [forQueries].
    destruct (forConfigs_spec total q configs completed results w)
      as (news1 & w1 & Heq1 & Hall1).
    rewrite Heq1.
    destruct (IH (completed + length configs)%nat (results ++ news1)%list w1)
      as (news2 & w2 & Heq2 & Hall2).
    exists (news1 ++ news2)%list, w2. rewrite Heq2. split.
    + rewrite <- app_assoc. cbn [length]. f_equal. f_equal. lia.
    + unfold crossProduct. cbn [flat_map]. apply Forall2_app; [|exact Hall2].
      clear -Hall1. induction Hall1; constructor; assumption.
Qed.

End Matrix_properties.

(** ** The run *)

Section Run_properties.
Context `{P : Platform}.
Variable registry : list (string * SearchGateway).

Lemma sameButConsole_refl (w : World) : sameButConsole w w.
Proof. destruct w. reflexivity. Qed.

Lemma sameButConsole_trans (w1 w2 w3 : World) :
  sameButConsole w1 w2 -> sameButConsole w2 w3 -> sameButConsole w1 w3.
Proof. unfold sameButConsole. intros -> ->. reflexivity. Qed.

Lemma sameButConsole_set (lines : list string) (w : World) :
  sameButConsole w (setConsole lines w).
Proof. reflexivity. Qed.

Lemma sameButConsole_env (w w' : World) : sameButConsole w w' -> env w' = env w.
Proof. intros ->. reflexivity. Qed.

Lemma sameButConsole_dirs (w w' : World) : sameButConsole w w' -> dirs w' = dirs w.
Proof. intros ->. reflexivity. Qed.

Lemma bind_Returned {A B : Type} (m : M A) (k : A -> M B) (w w' : World) (b : B) :
  bind m k w = (Returned b, w') ->
  exists (a : A) (w1 : World), m w = (Returned a, w1) /\ k a w1 = (Returned b, w').
Proof.
  unfold bind. destruct (m w) as [[a | e] w1]; intros H; [|discriminate].
  exists a, w1. split; [reflexivity | exact H].
Qed.

Lemma bind_step {A B : Type} (m : M A) (k : A -> M B) (w w1 : World) (a : A) :
  m w = (Returned a, w1) -> bind m k w = k a w1.
Proof. unfold bind. intros ->. reflexivity. Qed.

(** The callback of the pre-check answers [credentialsPresent] and writes
    at most a skip line. *)
Lemma configFilter_Returned (c : SearchConfig) (w w' : World) (keep : bool) :
  configFilter c w = (Returned keep, w') ->
  keep = credentialsPresent (env w) c /\ sameButConsole w w'.
Proof.
  unfold configFilter, credentialsPresent.
  destruct (requiredEnv (cfg_gateway c)) as [required | e]; [|discriminate].
  destruct (0 <? length (List.filter (envMissing (env w)) required))%nat.
  - cbn. intros [= <- <-]. split; [reflexivity | apply sameButConsole_set].
  - intros [= <- <-]. split; [reflexivity | apply sameButConsole_refl].
Qed.

Lemma filterConfigs_Returned (configs : list SearchConfig) :
  forall (w w' : World) (kept : list SearchConfig),
    filterConfigs configs w = (Returned kept, w') ->
    kept = runnableConfigSet (env w) configs /\ sameButConsole w w'.
Proof.
  induction configs as [|c rest IH]; intros w w' kept.
  - cbn. intros [= <- <-]. split; [reflexivity | apply sameButConsole_refl].
  - cbn [filterConfigs]. intros H.
    apply bind_Returned in H as (keep & w1 & Hc & H).
    apply bind_Returned in H as (kept' & w2 & Hrest & H).
    injection H as <- <-.
    apply configFilter_Returned in Hc as [-> Hw1].
    apply IH in Hrest as [-> Hw2].
    rewrite (sameButConsole_env _ _ Hw1).
    split; [|eapply sameButConsole_trans; eassumption].
    unfold runnableConfigSet. cbn [List.filter].
    destruct (credentialsPresent (env w) c); reflexivity.
Qed.

(** [loadQueries] reads the file system and nothing else, and changes
    nothing. *)
Lemma loadQueries_dirs (w1 w2 : World) :
  dirs w1 = dirs w2 -> fst (loadQueries w1) = fst (loadQueries w2).
Proof.
  intros Hd. unfold loadQueries, bind, readFile, parseJSON. rewrite Hd.
  destruct (lookupFile (dirs w2) _) as [staticText | e]; [|reflexivity].
  destruct (lookupFile (dirs w2) _) as [temporalText | e]; [|reflexivity].
  destruct (JSON_parse staticText) as [staticQueries | e]; [|reflexivity].
  destruct (JSON_parse temporalText) as [temporalQueries | e]; [|reflexivity].
  destruct staticQueries; cbn; try reflexivity;
    destruct temporalQueries; reflexivity.
Qed.

Lemma loadQueries_world (w : World) : snd (loadQueries w) = w.
Proof.
  unfold loadQueries, bind, readFile, parseJSON.
  destruct (lookupFile (dirs w) _) as [staticText | e]; [|reflexivity].
  destruct (lookupFile (dirs w) _) as [temporalText | e]; [|reflexivity].
  destruct (JSON_parse staticText) as [staticQueries | e]; [|reflexivity].
  destruct (JSON_parse temporalText) as [temporalQueries | e]; [|reflexivity].
  destruct staticQueries; cbn; try reflexivity;
    destruct temporalQueries; reflexivity.
Qed.

Lemma validateQueries_spec (queries : list JsValue) (w : World) :
  fst (validateQueries queries w) = Returned (fst (validateFrom 0 queries))
  /\ sameButConsole w (snd (validateQueries queries w)).
Proof.
  unfold validateQueries. destruct (validateFrom 0 queries) as [valid warnings].
  cbn. split; [reflexivity | apply sameButConsole_set].
Qed.

Lemma validateQueries_eq (queries : list JsValue) (w : World) :
  validateQueries queries w
  = (Returned (fst (validateFrom 0 queries)), snd (validateQueries queries w)).
Proof.
  destruct (validateQueries_spec queries w) as [Hvalid _].
  destruct (validateQueries queries w) as [o w']. cbn [fst snd] in *. subst. reflexivity.
Qed.

End Run_properties.

Section Artifact_properties.
Context `{P : Platform}.
Variable registry : list (string * SearchGateway).

(** A list of records that matches the ordered cross product pair by pair
    has N×M entries, and entry [i*M + j] is the record of the pair (i, j). *)
Lemma matrix_positions (qs : list JsValue) (cs : list SearchConfig)
  (rs : list QueryResult) :
  Forall2 (fun qc r => recordOf (fst qc) (snd qc) r) (crossProduct qs cs) rs ->
  length rs = (length qs * length cs)%nat
  /\ forall (i j : nat) (q : JsValue) (c : SearchConfig),
       qs !! i = Some q -> cs !! j = Some c ->
       exists r, rs !! (i * length cs + j)%nat = Some r /\ recordOf q c r.
Proof.
  intros Hall. split.
  - rewrite <- (Forall2_length _ _ _ Hall). apply crossProduct_length.
  - intros i j q c Hq Hc.
    pose proof (crossProduct_lookup qs cs i j q c Hq Hc) as Hpos.
    destruct (Forall2_lookup_l _ _ _ _ _ Hall Hpos) as (r & Hr & Hrec).
    exists r. split; assumption.
Qed.

Lemma now_ms_Returned (w w1 : World) (now : Z) :
  now_ms w = (Returned now, w1) ->
  now = fst (Date_now (ext w)) /\ env w1 = env w /\ dirs w1 = dirs w.
Proof.
  unfold now_ms. destruct (Date_now (ext w)) as [t e].
  intros [= <- <-]. repeat split.
Qed.

Lemma log_Returned (line : string) (w w1 : World) (u : unit) :
  log line w = (Returned u, w1) -> sameButConsole w w1.
Proof. unfold log. intros [= _ <-]. apply sameButConsole_set. Qed.

(** C1: the results of the Run Artifact are the ordered cross product of
    the runnable query set (outer loop) and the runnable configuration set
    (inner loop): the artifact has exactly N×M Result Records and the record
    at position [i*M + j] is the one of the [i]-th runnable query paired
    with the [j]-th runnable configuration. (When the runnable
    configuration set is empty the queries are not loaded, and the artifact
    has N×0 = 0 records.) *)
Theorem runEvaluation_cross_product (configs : list SearchConfig) (w : World)
  (art : RunResult) :
  fst (runEvaluation registry configs w) = Returned art ->
  exists qs : list JsValue,
    (runnableConfigSet (env w) configs = []
     \/ exists allQueries,
          fst (loadQueries w) = Returned allQueries
          /\ qs = runnableQuerySet (fst (Date_now (ext w))) allQueries)
    /\ Forall2 (fun qc r => recordOf (fst qc) (snd qc) r)
         (crossProduct qs (runnableConfigSet (env w) configs)) (results art)
    /\ length (results art)
       = (length qs * length (runnableConfigSet (env w) configs))%nat
    /\ forall (i j : nat) (q : JsValue) (c : SearchConfig),
         qs !! i = Some q ->
         runnableConfigSet (env w) configs !! j = Some c ->
         exists r,
           results art !! (i * length (runnableConfigSet (env w) configs) + j)%nat = Some r
           /\ recordOf q c r.
Proof.
  intros Hfst.
  destruct (runEvaluation registry configs w) as [o w'] eqn:H.
  cbn [fst] in Hfst. subst o. unfold runEvaluation in H.
  apply bind_Returned in H as (now & w1 & Hnow & H).
  apply now_ms_Returned in Hnow as (-> & Henv1 & Hdirs1).
  apply bind_Returned in H as (u & w2 & Hlog & H).
  apply log_Returned in Hlog.
  apply bind_Returned in H as (cs & w3 & Hfilter & H).
  apply filterConfigs_Returned in Hfilter as [-> Hw3].
  rewrite (sameButConsole_env _ _ Hlog), Henv1 in H.
  set (cs := runnableConfigSet (env w) configs) in *.
  assert (Hdirs3 : dirs w3 = dirs w).
  { rewrite (sameButConsole_dirs _ _ Hw3), (sameButConsole_dirs _ _ Hlog). exact Hdirs1. }
  destruct (length cs =? 0)%nat eqn:Hempty.
  - apply bind_Returned in H as (u' & w4 & _ & H). injection H as <- _.
    apply Nat.eqb_eq, length_zero_iff_nil in Hempty.
    exists []. rewrite Hempty. cbn. repeat split.
    + left. reflexivity.
    + constructor.
    + intros i j q c Hq. rewrite lookup_nil in Hq. discriminate.
  - apply bind_Returned in H as (allQueries & w4 & Hload & H).
    apply bind_Returned in H as (u1 & w5 & _ & H).
    apply bind_Returned in H as (validated & w6 & Hvalid & H).
    apply bind_Returned in H as (u2 & w7 & _ & H).
    apply bind_Returned in H as (u3 & w8 & _ & H).
    apply bind_Returned in H as (u4 & w9 & _ & H).
    apply bind_Returned in H as (u5 & w10 & _ & H).
    pose proof (validateQueries_spec allQueries w5) as [Hv _].
    rewrite Hvalid in Hv. cbn [fst] in Hv. injection Hv as ->.
    fold (runnableQuerySet (fst (Date_now (ext w))) allQueries) in H.
    set (qs := runnableQuerySet (fst (Date_now (ext w))) allQueries) in *.
    destruct (forQueries_spec registry (length qs * length cs) cs qs 0 [] w10)
      as (news & w11 & Heq & Hall).
    rewrite Heq in H. injection H as <- _. cbn [results app].
    exists qs. split; [|split; [exact Hall | apply matrix_positions; exact Hall]].
    right. exists allQueries. split; [|reflexivity].
    rewrite <- (loadQueries_dirs w3 w Hdirs3), Hload. reflexivity.
Qed.

Lemma filterConfigs_returns (configs : list SearchConfig) :
  forall w : World,
    Forall (fun c => inherited (cfg_gateway c) = false) configs ->
    exists w',
      filterConfigs configs w = (Returned (runnableConfigSet (env w) configs), w')
      /\ sameButConsole w w'.
Proof.
  induction configs as [|c rest IH]; intros w Hall.
  - exists w. split; [reflexivity | apply sameButConsole_refl].
  - inversion Hall as [|? ? Hc Hrest]; subst.
    assert (Hstep : exists w1,
               configFilter c w = (Returned (credentialsPresent (env w) c), w1)
               /\ sameButConsole w w1).
    { unfold configFilter, credentialsPresent, requiredEnv. rewrite Hc.
      destruct (Js.assoc (cfg_gateway c) requiredEnvByGateway) as [required|].
      - destruct (0 <? length (List.filter (envMissing (env w)) required))%nat;
          eexists; (split; [reflexivity|]);
          [apply sameButConsole_set | apply sameButConsole_refl].
      - exists w. split; [reflexivity | apply sameButConsole_refl]. }
    destruct Hstep as (w1 & Hfilter & Hsame1).
    destruct (IH w1 Hrest) as (w2 & Hkept & Hsame2).
    cbn [filterConfigs]. rewrite (bind_step _ _ _ _ _ Hfilter).
    rewrite (bind_step _ _ _ _ _ Hkept). unfold ret.
    rewrite (sameButConsole_env _ _ Hsame1).
    exists w2. split; [|eapply sameButConsole_trans; eassumption].
    unfold runnableConfigSet. cbn [List.filter].
    destruct (credentialsPresent (env w) c); reflexivity.
Qed.

(** The run does return an artifact: whenever no configuration names an
    inherited member of the tables and the query files load. *)
Lemma runEvaluation_returns (configs : list SearchConfig) (w : World)
  (allQueries : list JsValue) :
  Forall (fun c => inherited (cfg_gateway c) = false) configs ->
  fst (loadQueries w) = Returned allQueries ->
  exists art, fst (runEvaluation registry configs w) = Returned art.
Proof.
  intros Hall Hload. unfold runEvaluation.
  destruct (Date_now (ext w)) as [now e] eqn:Hclock.
  erewrite bind_step by (unfold now_ms; rewrite Hclock; reflexivity).
  erewrite bind_step by (unfold log; reflexivity).
  match goal with
  | |- context [bind (filterConfigs configs) _ ?w0] =>
      destruct (filterConfigs_returns configs w0 Hall) as (w1 & Hkept & Hsame)
  end.
  erewrite bind_step by exact Hkept.
  match goal with
  | |- context [(length ?cs =? 0)%nat] => destruct (length cs =? 0)%nat
  end.
  - erewrite bind_step by (unfold log; reflexivity). eexists. reflexivity.
  - assert (Hload1 : loadQueries w1 = (Returned allQueries, w1)).
    { pose proof (loadQueries_world w1) as Hw.
      pose proof (loadQueries_dirs w1 w (sameButConsole_dirs _ _ Hsame)) as Hd.
      rewrite Hload in Hd.
      destruct (loadQueries w1) as [o w0]. cbn [fst snd] in *. subst. reflexivity. }
    erewrite bind_step by exact Hload1.
    erewrite bind_step by (unfold log; reflexivity).
    erewrite bind_step by apply validateQueries_eq.
    erewrite bind_step by (unfold log; reflexivity).
    match goal with
    | |- context [if ?b then log ?l else ret tt] =>
        destruct b
    end.
    + erewrite bind_step by (unfold log; reflexivity).
      erewrite bind_step by (unfold log; reflexivity).
      erewrite bind_step by (unfold log; reflexivity).
      match goal with
      | |- context [forQueries ?g ?t ?qs ?cs ?n ?rs ?w0] =>
          destruct (forQueries g t qs cs n rs w0) as [[completed results] w3]
      end.
      eexists. reflexivity.
    + erewrite bind_step by (unfold ret; reflexivity).
      erewrite bind_step by (unfold log; reflexivity).
      erewrite bind_step by (unfold log; reflexivity).
      match goal with
      | |- context [forQueries ?g ?t ?qs ?cs ?n ?rs ?w0] =>
          destruct (forQueries g t qs cs n rs w0) as [[completed results] w3]
      end.
      eexists. reflexivity.
Qed.

End Artifact_properties.

Section Sample_run.
#[local] Existing Instance Fixture.platform.

(** The sample run: three credentials present, five runnable queries, three
    runnable configurations. *)
Lemma runEvaluation_cross_product_witness :
  exists qs : list JsValue,
    (runnableConfigSet (env Fixture.sampleWorld) Fixture.sampleConfigs = []
     \/ exists allQueries,
          fst (loadQueries Fixture.sampleWorld) = Returned allQueries
          /\ qs = runnableQuerySet (fst (Date_now (ext Fixture.sampleWorld))) allQueries)
    /\ Forall2 (fun qc r => recordOf (fst qc) (snd qc) r)
         (crossProduct qs (runnableConfigSet (env Fixture.sampleWorld) Fixture.sampleConfigs))
         (results Fixture.sampleArtifact)
    /\ length (results Fixture.sampleArtifact)
       = (length qs * length (runnableConfigSet (env Fixture.sampleWorld) Fixture.sampleConfigs))%nat
    /\ forall (i j : nat) (q : JsValue) (c : SearchConfig),
         qs !! i = Some q ->
         runnableConfigSet (env Fixture.sampleWorld) Fixture.sampleConfigs !! j = Some c ->
         exists r,
           results Fixture.sampleArtifact
             !! (i * length (runnableConfigSet (env Fixture.sampleWorld) Fixture.sampleConfigs) + j)%nat
           = Some r
           /\ recordOf q c r.
Proof.
  apply (@runEvaluation_cross_product Fixture.platform gateways
           Fixture.sampleConfigs Fixture.sampleWorld Fixture.sampleArtifact).
  vm_compute. reflexivity.
Defined.

Example sampleArtifact_size : length (results Fixture.sampleArtifact) = 15%nat.
Proof. vm_compute. reflexivity. Qed.

(** Scenario C of the specification: two configurations, three valid
    queries and one with an empty text; one warning, six Result Records. *)
Example scenario_C :
  length (results (Fixture.artifactOf
                     (fst (runEvaluation gateways
                             [Fixture.tavilyBasic; Fixture.youDefault]
                             Fixture.scenarioWorld)))) = 6%nat
  /\ List.filter (String.prefix "Warning")
       (console (snd (runEvaluation gateways
                        [Fixture.tavilyBasic; Fixture.youDefault]
                        Fixture.scenarioWorld)))
     = ["Warning: Skipped 1 invalid queries:"].
Proof. split; vm_compute; reflexivity. Qed.

End Sample_run.

(** ** A run with no runnable configuration *)

Section Early_return_properties.
Context `{P : Platform}.
Variable registry : list (string * SearchGateway).

Lemma filterConfigs_all_excluded (configs : list SearchConfig) :
  forall w : World,
    Forall (fun c => excluded (env w) c = true) configs ->
    exists w', filterConfigs configs w = (Returned [], w') /\ sameButConsole w w'.
Proof.
  induction configs as [|c rest IH]; intros w Hall.
  - exists w. split; [reflexivity | apply sameButConsole_refl].
  - inversion Hall as [|? ? Hc Hrest]; subst.
    cbn [filterConfigs]. unfold bind at 1.
    unfold configFilter. unfold excluded in Hc.
    destruct (requiredEnv (cfg_gateway c)) as [required | e]; [|discriminate].
    rewrite Hc. cbn.
    match goal with
    | |- context [bind _ _ ?w0] =>
        destruct (IH w0) as (w' & Heq & Hsame); [exact Hrest|]
    end.
    unfold bind. rewrite Heq. exists w'. split; [reflexivity|].
    eapply sameButConsole_trans; [|exact Hsame]. apply sameButConsole_set.
Qed.

(** C10: when every configuration is excluded by the credential pre-check,
    [runEvaluation] returns a Run Artifact with no Result Record, whatever
    the file system holds: the query sources are neither read nor
    validated, and the artifact is the same on every file system. *)
Theorem runEvaluation_no_runnable_config (configs : list SearchConfig) (w : World)
  (files : gmap string (gmap string string)) :
  Forall (fun c => excluded (env w) c = true) configs ->
  exists w',
    runEvaluation registry configs (setDirs files w)
    = (Returned {| run_id := Js.replaceColons (toISOString (fst (Date_now (ext w))));
                   run_executedAt := toISOString (fst (Date_now (ext w)));
                   results := [] |}, w')
    /\ dirs w' = files.
Proof.
  intros Hall. unfold runEvaluation.
  destruct (Date_now (ext w)) as [now e] eqn:Hclock. cbn [fst].
  erewrite bind_step
    by (unfold now_ms; cbn [ext setDirs]; rewrite Hclock; reflexivity).
  erewrite bind_step by (unfold log; reflexivity).
  match goal with
  | |- context [bind (filterConfigs configs) _ ?w0] =>
      destruct (filterConfigs_all_excluded configs w0) as (w1 & Heq & Hsame);
      [exact Hall|]
  end.
  erewrite bind_step by exact Heq. cbn [length Nat.eqb].
  erewrite bind_step by (unfold log; reflexivity).
  unfold ret. eexists. split; [reflexivity|].
  cbn. rewrite (sameButConsole_dirs _ _ Hsame). reflexivity.
Qed.

End Early_return_properties.

Section Sample_early_return.
#[local] Existing Instance Fixture.platform.

(** No key is set and no query file exists: loading the queries would fail,
    and the run still returns its empty artifact. *)
Example bareWorld_queries_unreadable :
  fst (loadQueries Fixture.bareWorld)
  = Threw (ErrorObj "ENOENT: no such file or directory, open '/app/queries/queries-static.json'").
Proof. vm_compute. reflexivity. Qed.

Lemma runEvaluation_no_runnable_config_witness :
  exists w',
    @runEvaluation Fixture.platform gateways
      [Fixture.tavilyBasic; Fixture.parallelDefault] (setDirs ∅ Fixture.bareWorld)
    = (Returned {| run_id := "2025-01-30T00-00-00.000Z";
                   run_executedAt := "2025-01-30T00:00:00.000Z";
                   results := [] |}, w')
    /\ dirs w' = ∅.
Proof.
  apply (@runEvaluation_no_runnable_config Fixture.platform gateways
           [Fixture.tavilyBasic; Fixture.parallelDefault] Fixture.bareWorld ∅).
  repeat constructor.
Defined.

End Sample_early_return.

(** ** Failure isolation *)

Section Isolation_properties.
Context `{P : Platform}.
Variable registry : list (string * SearchGateway).







End Isolation_properties.

Section Sample_isolation.
#[local] Existing Instance Fixture.platform.



End Sample_isolation.

(** ** The error flag *)

Section Flag_properties.
Context `{P : Platform}.
Variable registry : list (string * SearchGateway).

(** What the flag of a produced record is: the error is defined and not
    the empty string. *)
Lemma executeQuery_hasError (q : JsValue) (c : SearchConfig) (w : World) :
  hasError (fst (executeQuery registry q c w)) = true
  <-> exists message,
        error (response (fst (executeQuery registry q c w))) = Some message
        /\ message <> "".
Proof.
  destruct (executeQuery_record registry q c w) as [_ ->]. apply errorFlag_true.
Qed.

End Flag_properties.

(** C2: the record [executeQuery] produces when the You.com SDK fails with an
    error whose message is empty ([new Error()]): the gateway returns a
    response whose [error] is defined (the empty string), and the record's
    [hasError] is false. *)
Theorem executeQuery_empty_error_not_flagged :
  error (response (fst (@executeQuery Fixture.platformSilentFailure gateways
                          Fixture.worldCup Fixture.youDefault
                          (Fixture.worldWith Fixture.platformSilentFailure
                             Fixture.allKeys Fixture.disk Fixture.startInstant))))
  = Some ""
  /\ hasError (fst (@executeQuery Fixture.platformSilentFailure gateways
                      Fixture.worldCup Fixture.youDefault
                      (Fixture.worldWith Fixture.platformSilentFailure
                         Fixture.allKeys Fixture.disk Fixture.startInstant)))
     = false.
Proof. split; vm_compute; reflexivity. Qed.

(** ** The credential pre-check *)

Section Precheck_properties.
Context `{P : Platform}.
Variable registry : list (string * SearchGateway).

(** A configuration of a gateway listed in [requiredEnvByGateway] is
    skipped, with a logged line, when its key is missing. *)
Lemma tavily_config_skipped (name : string) (parameters : Params) (w : World) :
  envMissing (env w) "TAVILY_API_KEY" = true ->
  filterConfigs [mkSearchConfig name "tavily" parameters] w
  = (Returned [],
     setConsole (console w
                   ++ ["Skipping config " +:+ name +:+ " (missing TAVILY_API_KEY)"]) w).
Proof.
  intros Hmissing. cbn [filterConfigs]. unfold bind, configFilter.
  cbn [cfg_gateway cfg_id requiredEnv requiredEnvByGateway Js.assoc String.eqb
         Ascii.eqb Bool.eqb List.filter].
  cbn. rewrite Hmissing. reflexivity.
Qed.

(** C6: a configuration naming the [you] gateway is never excluded by the
    pre-check, whatever the environment holds, and nothing is logged for
    it; on the sample world with no credential at all, every call of the
    [you] configuration is dispatched and fails on the missing
    [YOU_API_KEY], while the [tavily] configuration is skipped. *)
Theorem you_config_is_not_pre_checked :
  (forall (name : string) (parameters : Params) (w : World),
      filterConfigs [mkSearchConfig name "you" parameters] w
      = (Returned [mkSearchConfig name "you" parameters], w))
  /\ map (fun r => (configId r, hasError r, error (response r)))
       (results (Fixture.artifactOf
                   (fst (@runEvaluation Fixture.platform gateways
                           [Fixture.tavilyBasic; Fixture.youDefault]
                           (Fixture.worldWith Fixture.platform ∅ Fixture.disk
                              Fixture.startInstant)))))
     = replicate 5
         ("you-default", true, Some "YOU_API_KEY environment variable is not set").
Proof.
  split.
  - intros name parameters w. reflexivity.
  - vm_compute. reflexivity.
Qed.

End Precheck_properties.

(** ** The result store: the latest artifact *)

Section Store_properties.
Context `{P : Platform}.

Lemma readdir_world (dir : string) (w : World) : snd (readdir dir w) = w.
Proof. unfold readdir. destruct (dirs w !! dir); reflexivity. Qed.

(** Without a results directory the listing itself fails. *)
Lemma findLatestResultsFile_no_directory (w : World) :
  dirs w !! joinPath projectRoot "results" = None ->
  findLatestResultsFile w
  = (Threw (ENOENT "scandir" (joinPath projectRoot "results")), w).
Proof.
  intros Hnone. unfold findLatestResultsFile, bind, readdir. rewrite Hnone. reflexivity.
Qed.

Lemma rev_cons_inv {A : Type} (l tl : list A) (x : A) :
  rev l = x :: tl -> l = (rev tl ++ [x])%list.
Proof. intros H. rewrite <- (rev_involutive l), H. reflexivity. Qed.

(** C9: [findLatestResultsFile] keeps the stored names that end in
    [.json]; when there is at least one it returns the location of the
    lexicographically greatest of them, and when there is none it fails
    with the error "No results files found in results/" instead of
    returning a location. *)
Theorem findLatestResultsFile_latest (w : World) (files : list string) :
  fst (readdir (joinPath projectRoot "results") w) = Returned files ->
  (List.filter (fun f => Js.endsWith f ".json") files = [] ->
   findLatestResultsFile w
   = (Threw (ErrorObj "No results files found in results/"), w))
  /\ (List.filter (fun f => Js.endsWith f ".json") files <> [] ->
      exists latest : string,
        findLatestResultsFile w
        = (Returned (joinPath (joinPath projectRoot "results") latest), w)
        /\ latest ∈ files
        /\ Js.endsWith latest ".json" = true
        /\ forall f : string,
             f ∈ files -> Js.endsWith f ".json" = true -> String.le f latest).
Proof.
  intros Hread.
  assert (Hdir : readdir (joinPath projectRoot "results") w = (Returned files, w)).
  { pose proof (readdir_world (joinPath projectRoot "results") w) as Hw.
    destruct (readdir (joinPath projectRoot "results") w) as [o w0].
    cbn [fst snd] in Hread, Hw. subst. reflexivity. }
  unfold findLatestResultsFile. rewrite (bind_step _ _ _ _ _ Hdir).
  set (names := List.filter (fun f => Js.endsWith f ".json") files).
  assert (Hnames : forall f, f ∈ names <-> f ∈ files /\ Js.endsWith f ".json" = true).
  { intros f. unfold names. rewrite !list_elem_of_In, filter_In. reflexivity. }
  split.
  - intros ->. reflexivity.
  - intros Hne.
    pose proof (merge_sort_Permutation String.le names) as Hperm.
    pose proof (StronglySorted_merge_sort String.le names) as Hsorted.
    fold (sortStrings names) in Hperm, Hsorted |- *.
    destruct (rev (sortStrings names)) as [|latest tl] eqn:Hrev.
    + apply (f_equal (@rev string)) in Hrev. rewrite rev_involutive in Hrev. cbn in Hrev.
      rewrite Hrev in Hperm. apply Permutation_nil_l in Hperm.
      exfalso. apply Hne. symmetry. exact Hperm.
    + apply rev_cons_inv in Hrev. rewrite Hrev in Hperm, Hsorted.
      assert (Hlatest : latest ∈ names).
      { rewrite <- Hperm. apply elem_of_app. right. apply list_elem_of_singleton.
        reflexivity. }
      exists latest. split; [reflexivity|].
      apply Hnames in Hlatest as [Hin Hjson]. split; [exact Hin|]. split; [exact Hjson|].
      intros f Hf Hfjson.
      assert (Hfin : f ∈ (rev tl ++ [latest])%list).
      { rewrite Hperm. apply Hnames. split; assumption. }
      apply elem_of_app in Hfin as [Hleft | Hright].
      * eapply StronglySorted_app_1_elem_of; [exact Hsorted | exact Hleft|].
        apply list_elem_of_singleton. reflexivity.
      * apply list_elem_of_singleton in Hright. subst f. reflexivity.
Qed.

End Store_properties.

Section Sample_store.
#[local] Existing Instance Fixture.platform.

(** Two stored runs and a stray file: the later run is the latest. *)
Example storeWorld_latest :
  fst (findLatestResultsFile Fixture.storeWorld)
  = Returned "/app/results/2025-01-30T00-00-00.000Z.json".
Proof. vm_compute. reflexivity. Qed.

Lemma findLatestResultsFile_latest_witness :
  (List.filter (fun f => Js.endsWith f ".json") (map fst (map_to_list Fixture.storedRuns)) = [] ->
   findLatestResultsFile Fixture.storeWorld
   = (Threw (ErrorObj "No results files found in results/"), Fixture.storeWorld))
  /\ (List.filter (fun f => Js.endsWith f ".json") (map fst (map_to_list Fixture.storedRuns)) <> [] ->
      exists latest : string,
        findLatestResultsFile Fixture.storeWorld
        = (Returned (joinPath (joinPath projectRoot "results") latest), Fixture.storeWorld)
        /\ latest ∈ map fst (map_to_list Fixture.storedRuns)
        /\ Js.endsWith latest ".json" = true
        /\ forall f : string,
             f ∈ map fst (map_to_list Fixture.storedRuns) ->
             Js.endsWith f ".json" = true -> String.le f latest).
Proof.
  apply (@findLatestResultsFile_latest Fixture.platform Fixture.storeWorld
           (map fst (map_to_list Fixture.storedRuns))).
  vm_compute. reflexivity.
Defined.

End Sample_store.

(** ** The grading pass *)

Section Grading_properties.
Context `{P : Platform}.

Lemma keepsChatLog_ret {A : Type} (a : A) : keepsChatLog (ret a).
Proof. intros w. reflexivity. Qed.

Lemma keepsChatLog_bind {A B : Type} (m : M A) (k : A -> M B) :
  keepsChatLog m -> (forall a, keepsChatLog (k a)) -> keepsChatLog (bind m k).
Proof.
  intros Hm Hk w. unfold bind. specialize (Hm w).
  destruct (m w) as [[a | e] w1]; cbn [snd] in *; [|exact Hm].
  rewrite (Hk a w1). exact Hm.
Qed.

Lemma keepsChatLog_log (line : string) : keepsChatLog (log line).
Proof. intros w. reflexivity. Qed.

Lemma keepsChatLog_mkdir (dir : string) : keepsChatLog (mkdir dir).
Proof. intros w. unfold mkdir. destruct (dirs w !! dir); reflexivity. Qed.

Lemma keepsChatLog_writeFile (path text : string) : keepsChatLog (writeFile path text).
Proof. intros w. unfold writeFile. destruct (dirs w !! dirname path); reflexivity. Qed.

(** A file just written reads back as written. *)
Lemma writeFile_lookupFile (path text : string) (w : World) (u : unit) :
  fst (writeFile path text w) = Returned u ->
  lookupFile (dirs (snd (writeFile path text w))) path = Returned text.
Proof.
  unfold writeFile, lookupFile.
  destruct (dirs w !! dirname path) as [dir|]; [|discriminate].
  intros _. cbn. rewrite lookup_insert_eq, lookup_insert_eq. reflexivity.
Qed.

(** [evaluate] sends one request: the instructions, the heading, and the
    text of the results file as it is. *)
Lemma evaluate_request (resultsPath : string) (w : World)
  (resultsText instructions : string) :
  lookupFile (dirs w) resultsPath = Returned resultsText ->
  lookupFile (dirs w) (joinPath projectRoot "EVALUATOR_INSTRUCTIONS.md")
  = Returned instructions ->
  chatLog (snd (evaluate resultsPath w))
  = (chatLog w
       ++ [gradingRequest (orDefault (env w !! "EVAL_MODEL") "gpt-4o")
             instructions resultsText])%list.
Proof.
  intros Hresults Hinstructions. unfold evaluate.
  erewrite bind_step by (unfold readFile; rewrite Hresults; reflexivity).
  erewrite bind_step by (unfold readFile; rewrite Hinstructions; reflexivity).
  erewrite bind_step by (unfold getenv; reflexivity).
  erewrite bind_step by (unfold log; reflexivity).
  unfold bind at 1, createChatCompletion. cbn [ext setConsole].
  destruct (chat_completions_create _ (ext w)) as [[answer | e] e1]; [|reflexivity].
  match goal with
  | |- chatLog (snd (?rest ?w1)) = _ =>
      assert (Hkeep : keepsChatLog rest); [|rewrite (Hkeep w1); reflexivity]
  end.
  repeat first
    [ apply keepsChatLog_bind; [|intros ?]
    | apply keepsChatLog_log
    | apply keepsChatLog_mkdir
    | apply keepsChatLog_writeFile
    | apply keepsChatLog_ret
    | destruct (JSON_parse _) ].
Qed.

(** C5 (amended): the Grading Pass filters nothing. Grading a Run Artifact
    stored by [saveResults] sends one request whose content is the grading
    instructions, the heading, and the complete text of the artifact, every
    Result Record included; leaving out the records without [groundTruth]
    or with [hasError = true] is left to the instructions the model is
    given. *)
Theorem grading_request_is_whole_artifact (run : RunResult) (w : World)
  (path instructions : string) :
  fst (saveResults run w) = Returned path ->
  lookupFile (dirs (snd (saveResults run w)))
    (joinPath projectRoot "EVALUATOR_INSTRUCTIONS.md") = Returned instructions ->
  chatLog (snd (evaluate path (snd (saveResults run w))))
  = (chatLog w
       ++ [gradingRequest (orDefault (env w !! "EVAL_MODEL") "gpt-4o") instructions
             (Json.stringify "" (Json.ofRunResult run))])%list
  /\ content (default (mkChatMessage "" "")
                (head (messages (gradingRequest (orDefault (env w !! "EVAL_MODEL") "gpt-4o")
                                   instructions
                                   (Json.stringify "" (Json.ofRunResult run))))))
     = instructions +:+ resultsHeading +:+ Json.stringify "" (Json.ofRunResult run).
Proof.
  intros Hsave Hinstructions. split; [|reflexivity].
  assert (Hfile : lookupFile (dirs (snd (saveResults run w))) path
                  = Returned (Json.stringify "" (Json.ofRunResult run))
                  /\ chatLog (snd (saveResults run w)) = chatLog w
                  /\ env (snd (saveResults run w)) = env w).
  { revert Hsave. unfold saveResults. clear Hinstructions.
    set (resultsDir := joinPath projectRoot "results").
    set (filepath := joinPath resultsDir (run_id run +:+ ".json")).
    set (text := Json.stringify "" (Json.ofRunResult run)).
    unfold bind at 1 3 5 7.
    assert (Hmk : exists w1, mkdir resultsDir w = (Returned tt, w1)
                             /\ chatLog w1 = chatLog w /\ env w1 = env w).
    { unfold mkdir. destruct (dirs w !! resultsDir); eexists; repeat split. }
    destruct Hmk as (w1 & -> & Hlog1 & Henv1).
    pose proof (writeFile_lookupFile filepath text w1) as Hread.
    pose proof (keepsChatLog_writeFile filepath text w1) as Hlog2.
    assert (Henv2 : env (snd (writeFile filepath text w1)) = env w1).
    { unfold writeFile. destruct (dirs w1 !! dirname filepath); reflexivity. }
    unfold bind.
    destruct (writeFile filepath text w1) as [[[] | e] w2]; [|discriminate].
    cbn [fst snd ret] in *. intros [= <-].
    split; [apply (Hread tt); reflexivity|]. split; congruence. }
  destruct Hfile as (Hfile & Hlog & Henv).
  rewrite (evaluate_request path _ _ instructions Hfile Hinstructions).
  rewrite Hlog, Henv. reflexivity.
Qed.

End Grading_properties.

Section Sample_grading.
#[local] Existing Instance Fixture.platform.

(** The sample artifact, stored and then graded. *)
Lemma grading_request_is_whole_artifact_witness :
  chatLog (snd (evaluate Fixture.sampleArtifactPath
                  (snd (saveResults Fixture.sampleArtifact Fixture.sampleWorld))))
  = (chatLog Fixture.sampleWorld
       ++ [gradingRequest (orDefault (env Fixture.sampleWorld !! "EVAL_MODEL") "gpt-4o")
             Fixture.instructionsText
             (Json.stringify "" (Json.ofRunResult Fixture.sampleArtifact))])%list
  /\ content (default (mkChatMessage "" "")
                (head (messages
                         (gradingRequest
                            (orDefault (env Fixture.sampleWorld !! "EVAL_MODEL") "gpt-4o")
                            Fixture.instructionsText
                            (Json.stringify "" (Json.ofRunResult Fixture.sampleArtifact))))))
     = Fixture.instructionsText +:+ resultsHeading
         +:+ Json.stringify "" (Json.ofRunResult Fixture.sampleArtifact).
Proof.
  apply (@grading_request_is_whole_artifact Fixture.platform Fixture.sampleArtifact
           Fixture.sampleWorld Fixture.sampleArtifactPath Fixture.instructionsText).
  - vm_compute. reflexivity.
  - vm_compute. reflexivity.
Defined.

(** C5, as stated, fails: in the sample artifact the record at position 6
    has no [groundTruth] and the record at position 1 has [hasError = true];
    neither is gradable, and the one request the Grading Pass sends contains
    the entry of each. *)
Lemma grading_request_contains_ungradable_records :
  exists (r1 r2 : QueryResult) (request : ChatRequest) (message : ChatMessage),
    results Fixture.sampleArtifact !! 6%nat = Some r1
    /\ groundTruth r1 = JUndefined
    /\ gradable r1 = false
    /\ results Fixture.sampleArtifact !! 1%nat = Some r2
    /\ hasError r2 = true
    /\ gradable r2 = false
    /\ chatLog (snd (evaluate Fixture.sampleArtifactPath
                       (snd (saveResults Fixture.sampleArtifact Fixture.sampleWorld))))
       = [request]
    /\ messages request = [message]
    /\ occursIn (entryText r1) (content message) = true
    /\ occursIn (entryText r2) (content message) = true.
Proof.
  exists (Fixture.sampleRecord 6), (Fixture.sampleRecord 1),
    (gradingRequest "gpt-4o" Fixture.instructionsText
       (Json.stringify "" (Json.ofRunResult Fixture.sampleArtifact))),
    (mkChatMessage "user"
       (Fixture.instructionsText +:+ resultsHeading
          +:+ Json.stringify "" (Json.ofRunResult Fixture.sampleArtifact))).
  repeat (split; [vm_compute; reflexivity|]).
  vm_compute. reflexivity.
Qed.

End Sample_grading.

(** * Further properties *)

(** ** Strings and paths *)

Section String_facts.

Lemma append_cons (c : ascii) (s t : string) : String c s +:+ t = String c (s +:+ t).
Proof. reflexivity. Qed.

Lemma append_nil_r (s : string) : s +:+ "" = s.
Proof. induction s as [|c s IH]; [reflexivity|]. rewrite append_cons, IH. reflexivity. Qed.

Lemma append_assoc (s1 s2 s3 : string) : (s1 +:+ s2) +:+ s3 = s1 +:+ (s2 +:+ s3).
Proof.
  induction s1 as [|c s1 IH]; [reflexivity|]. rewrite !append_cons, IH. reflexivity.
Qed.

Lemma rev_app_spec (s1 : string) :
  forall s2, String.rev_app s1 s2 = String.rev s1 +:+ s2.
Proof.
  unfold String.rev. induction s1 as [|c s1 IH]; intros s2; [reflexivity|].
  cbn [String.rev_app]. rewrite (IH (String c s2)), (IH (String c "")).
  rewrite append_assoc. reflexivity.
Qed.

Lemma rev_cons (c : ascii) (s : string) :
  String.rev (String c s) = String.rev s +:+ String c "".
Proof. unfold String.rev at 1. cbn [String.rev_app]. apply rev_app_spec. Qed.

Lemma rev_append (s1 s2 : string) :
  String.rev (s1 +:+ s2) = String.rev s2 +:+ String.rev s1.
Proof.
  induction s1 as [|c s1 IH].
  - cbn. rewrite append_nil_r. reflexivity.
  - rewrite append_cons, !rev_cons, IH, append_assoc. reflexivity.
Qed.

Lemma rev_rev (s : string) : String.rev (String.rev s) = s.
Proof.
  induction s as [|c s IH]; [reflexivity|].
  rewrite rev_cons, rev_append, IH. reflexivity.
Qed.

Lemma hasChar_append (c : ascii) (s t : string) :
  hasChar c (s +:+ t) = hasChar c s || hasChar c t.
Proof.
  induction s as [|c' s IH]; [reflexivity|].
  rewrite append_cons. cbn [hasChar]. rewrite IH, orb_assoc. reflexivity.
Qed.

Lemma hasChar_rev (c : ascii) (s : string) : hasChar c (String.rev s) = hasChar c s.
Proof.
  induction s as [|c' s IH]; [reflexivity|].
  rewrite rev_cons, hasChar_append, IH. cbn [hasChar].
  rewrite orb_false_r. apply orb_comm.
Qed.



Lemma splitPathRev_entry (name : string) :
  forall dir,
    hasChar "/" name = false ->
    splitPathRev (name +:+ String "/" dir) = (dir, name).
Proof.
  induction name as [|c name IH]; intros dir Hname.
  - reflexivity.
  - cbn [hasChar] in Hname. apply orb_false_elim in Hname as [Hc Hrest].
    rewrite append_cons. cbn [splitPathRev]. rewrite Hc, (IH dir Hrest). reflexivity.
Qed.


Lemma joinPath_rev (dir name : string) :
  String.rev (joinPath dir name) = String.rev name +:+ String "/" (String.rev dir).
Proof.
  unfold joinPath. rewrite !rev_append, append_assoc. reflexivity.
Qed.

(** [join(dir, name)] splits back into [dir] and [name]. *)
Lemma dirname_joinPath (dir name : string) :
  hasChar "/" name = false -> dirname (joinPath dir name) = dir.
Proof.
  intros Hname. unfold dirname. rewrite joinPath_rev, splitPathRev_entry.
  - apply rev_rev.
  - rewrite hasChar_rev. exact Hname.
Qed.

Lemma basename_joinPath (dir name : string) :
  hasChar "/" name = false -> basename (joinPath dir name) = name.
Proof.
  intros Hname. unfold basename. rewrite joinPath_rev, splitPathRev_entry.
  - apply rev_rev.
  - rewrite hasChar_rev. exact Hname.
Qed.


Lemma replaceColons_no_colon (s : string) : hasChar ":" (Js.replaceColons s) = false.
Proof.
  induction s as [|c s IH]; [reflexivity|].
  cbn [Js.replaceColons hasChar]. rewrite IH, orb_false_r.
  destruct (Ascii.eqb c ":") eqn:Hc; [reflexivity | exact Hc].
Qed.

Lemma isEntryName_no_slash (name : string) :
  isEntryName name = true -> hasChar "/" name = false.
Proof.
  unfold isEntryName. intros H.
  apply andb_true_iff in H as [H _]. apply andb_true_iff in H as [H _].
  apply andb_true_iff in H as [_ H]. apply negb_true_iff in H. exact H.
Qed.

End String_facts.

(** ** The validity filter, on any query *)

Section Window_facts.
Context `{P : Platform}.

(** X1: the instants at which a query is runnable form an interval: a query
    runnable at [a] and at [c] is runnable at every instant between them,
    whatever its bounds hold. *)
Theorem isQueryRunnable_interval (query : JsValue) (a b c : Z) :
  a <= b <= c ->
  isQueryRunnable query (Some a) = true ->
  isQueryRunnable query (Some c) = true ->
  isQueryRunnable query (Some b) = true.
Proof.
  intros Hb. unfold isQueryRunnable.
  destruct (Js.truthy (Js.prop query "validFrom"));
    destruct (Js.truthy (Js.prop query "validUntil")); cbn [negb andb];
    unfold date_gt, date_lt;
    destruct (new_Date (Js.prop query "validFrom")) as [f|];
    destruct (new_Date (Js.prop query "validUntil")) as [u|];
    repeat match goal with
           | |- context [(?x <? ?y)] => destruct (Z.ltb_spec x y)
           end;
    cbn [andb negb]; intros; try reflexivity; try discriminate; lia.
Qed.

(** X2: the filter fails open. On a query it can read (not [null] or
    [undefined], bounds that are primitive values), with an Invalid Date as
    reference instant, or with bounds that do not give a date, no query is
    excluded. *)
Theorem isQueryRunnable_fails_open (query : JsValue) (now : Date) :
  readableQuery query = true ->
  now = None
  \/ (new_Date (Js.prop query "validFrom") = None
      /\ new_Date (Js.prop query "validUntil") = None) ->
  isQueryRunnable query now = true.
Proof.
  intros _ H. unfold isQueryRunnable, date_gt, date_lt.
  destruct H as [-> | [-> ->]].
  - destruct (Js.truthy _), (Js.truthy _); cbn [negb andb]; try reflexivity;
      destruct (new_Date _); try reflexivity; destruct (new_Date _); reflexivity.
  - destruct (Js.truthy _), (Js.truthy _); cbn [negb andb]; try reflexivity;
      destruct now; reflexivity.
Qed.

End Window_facts.

(** ** The validator, on any list *)

Section Validator_facts.
Context `{P : Platform}.

Ltac split_checks :=
  repeat match goal with
         | |- context [if ?c then inl _ else _] => destruct c eqn:?
         end.

Lemma validateQuery_inr (query q' : JsValue) (index : nat) :
  validateQuery query index = inr q' -> q' = query.
Proof.
  unfold validateQuery. split_checks; intros H; try discriminate.
  injection H as <-. reflexivity.
Qed.

(** Whether an entry is kept does not depend on its position. *)
Lemma validateQuery_cases (query : JsValue) (index : nat) :
  (accepts query = true /\ validateQuery query index = inr query)
  \/ (accepts query = false /\ exists warning, validateQuery query index = inl warning).
Proof.
  unfold accepts, validateQuery.
  split_checks;
    first [ left; split; reflexivity
          | right; split; [reflexivity | eexists; reflexivity] ].
Qed.

Lemma validateFrom_filter (queries : list JsValue) :
  forall index : nat,
    fst (validateFrom index queries) = List.filter accepts queries
    /\ (length (fst (validateFrom index queries))
        + length (snd (validateFrom index queries)) = length queries)%nat.
Proof.
  induction queries as [|q rest IH]; intros index; [split; reflexivity|].
  cbn [validateFrom List.filter]. destruct (IH (S index)) as [Hvalid Hcount].
  destruct (validateFrom (S index) rest) as [valid warnings]. cbn [fst snd] in *.
  destruct (validateQuery_cases q index) as [[-> ->] | [-> [warning ->]]];
    cbn [fst snd length]; (split; [f_equal; exact Hvalid || exact Hvalid | lia]).
Qed.

Lemma filter_sublist {A : Type} (f : A -> bool) (l : list A) :
  List.filter f l `sublist_of` l.
Proof.
  induction l as [|x l IH]; [constructor|].
  cbn [List.filter]. destruct (f x); [apply sublist_skip | apply sublist_cons]; exact IH.
Qed.

Lemma filter_filter_same {A : Type} (f : A -> bool) (l : list A) :
  List.filter f (List.filter f l) = List.filter f l.
Proof.
  induction l as [|x l IH]; [reflexivity|].
  cbn [List.filter]. destruct (f x) eqn:Hx; [|exact IH].
  cbn [List.filter]. rewrite Hx, IH. reflexivity.
Qed.

Lemma validateQueries_run (queries : list JsValue) (w : World) :
  validateQueries queries w
  = (Returned (List.filter accepts queries),
     setConsole (console w ++ validationReport (snd (validateFrom 0 queries))) w).
Proof.
  unfold validateQueries. destruct (validateFrom_filter queries 0) as [Hvalid _].
  destruct (validateFrom 0 queries) as [valid warnings]. cbn [fst snd] in *.
  subst valid. reflexivity.
Qed.

(** X3: on entries whose bounds are primitive values (only the conversion
    of an object can throw), [validateQueries] does not throw; what it returns
    is the sublist, in the order supplied, of the entries that pass the
    checks, and it changes nothing but the console. *)
Theorem validateQueries_keeps_sublist (queries : list JsValue) (w : World) :
  forallb primitiveBounds queries = true ->
  exists (valid : list JsValue) (w' : World),
    validateQueries queries w = (Returned valid, w')
    /\ valid `sublist_of` queries
    /\ (forall q, In q valid <-> In q queries /\ exists q', validateQuery q 0 = inr q')
    /\ sameButConsole w w'.
Proof.
  intros _.
  eexists. eexists. split; [apply validateQueries_run|].
  split; [apply filter_sublist|]. split; [|apply sameButConsole_set].
  intros q. rewrite filter_In. unfold accepts. split.
  - intros [Hin Hq]. split; [exact Hin|].
    destruct (validateQuery q 0) as [warning | q']; [discriminate | eauto].
  - intros [Hin [q' Hq]]. split; [exact Hin|]. rewrite Hq. reflexivity.
Qed.

Lemma validationReport_length (warnings : list string) :
  warnings <> [] ->
  length (validationReport warnings)
  = (2 + Nat.min (length warnings) 10 + (if (10 <? length warnings)%nat then 1 else 0))%nat.
Proof.
  intros Hne. unfold validationReport.
  destruct warnings as [|warning rest]; [contradiction|].
  rewrite !length_app, length_map, length_take. cbn [length].
  destruct (10 <? S (length rest))%nat; cbn [length]; lia.
Qed.

(** X4: on entries whose bounds are primitive values, the validator's report
    is short whatever the number of bad entries: nothing is written when no
    entry is dropped; otherwise the report starts with the count of dropped
    entries, lists at most ten warnings, and has at most thirteen lines. *)
Theorem validateQueries_report (queries : list JsValue) (w : World) :
  forallb primitiveBounds queries = true ->
  exists report : list string,
    console (snd (validateQueries queries w)) = (console w ++ report)%list
    /\ (length (List.filter accepts queries) = length queries -> report = [])
    /\ (length (List.filter accepts queries) <> length queries ->
        head report
        = Some ("Warning: Skipped "
                  +:+ pretty (length queries - length (List.filter accepts queries))%nat
                  +:+ " invalid queries:")
        /\ (length report <= 13)%nat).
Proof.
  intros _.
  rewrite validateQueries_run. cbn [snd console setConsole].
  exists (validationReport (snd (validateFrom 0 queries))).
  destruct (validateFrom_filter queries 0) as [Hvalid Hcount]. rewrite Hvalid in Hcount.
  split; [reflexivity|]. split.
  - intros Hall. destruct (snd (validateFrom 0 queries)); [reflexivity|].
    cbn [length] in Hcount. lia.
  - intros Hsome.
    assert (Hne : snd (validateFrom 0 queries) <> []).
    { intros Hnil. rewrite Hnil in Hcount. cbn [length] in Hcount. lia. }
    split.
    + replace (length queries - length (List.filter accepts queries))%nat
        with (length (snd (validateFrom 0 queries))) by lia.
      unfold validationReport.
      destruct (snd (validateFrom 0 queries)); [contradiction | reflexivity].
    + rewrite (validationReport_length _ Hne).
      destruct (10 <? length (snd (validateFrom 0 queries)))%nat; lia.
Qed.

(** X5: an entry the validator keeps is an object whose [query] is a string
    with more than white space in it, whose [groundTruth] is absent or a
    string, whose [validFrom], when truthy, parses, and whose [validUntil] is
    absent, [null], or a non-empty value that parses. *)
Theorem validateQuery_kept_shape (query q' : JsValue) (index : nat) :
  validateQuery query index = inr q' ->
  exists (fields : list (string * JsValue)) (text : string),
    query = JObj fields
    /\ Js.prop query "query" = JStr text
    /\ Js.trim text <> ""
    /\ (Js.prop query "groundTruth" = JUndefined
        \/ exists truth, Js.prop query "groundTruth" = JStr truth)
    /\ (Js.truthy (Js.prop query "validFrom") = true ->
        isValidIsoDate (Js.prop query "validFrom") = true)
    /\ (Js.prop query "validUntil" = JUndefined
        \/ Js.prop query "validUntil" = JNull
        \/ (Js.truthy (Js.prop query "validUntil") = true
            /\ isValidIsoDate (Js.prop query "validUntil") = true)).
Proof.
  unfold validateQuery. split_checks; intros H; try discriminate. clear H.
  repeat match goal with
         | H : (_ || _) = false |- _ => apply orb_false_elim in H as [? ?]
         | H : negb _ = false |- _ => apply negb_false_iff in H
         end.
  destruct query as [| | | | |items|fields]; try discriminate.
  exists fields.
  match goal with
  | H : (Js.typeof (Js.prop (JObj fields) "query") =? "string")%string = true |- _ =>
      destruct (Js.prop (JObj fields) "query") as [| | | |text| |];
        try (vm_compute in H; discriminate H)
  end.
  exists text. split; [reflexivity|]. split; [reflexivity|]. split.
  { intros Hblank.
    match goal with
    | H : (Js.strlen _ =? 0) = false |- _ =>
        cbn [Js.ToString] in H; rewrite Hblank in H; discriminate H
    end. }
  split.
  { match goal with
    | H : Js.defined ?v && negb (Js.typeof ?v =? "string")%string = false |- _ =>
        destruct v; try (vm_compute in H; discriminate H); eauto
    end. }
  split.
  { intros Htruthy.
    match goal with
    | H : Js.truthy ?v && negb (isValidIsoDate ?v) = false |- _ =>
        rewrite Htruthy in H; cbn [andb] in H; apply negb_false_iff in H; exact H
    end. }
  match goal with
  | H : Js.defined ?v && Js.nonNull ?v && _ = false |- _ =>
      destruct (Js.defined v) eqn:Hdefined; [|destruct v; try discriminate; auto];
      destruct (Js.nonNull v) eqn:HnonNull; [|destruct v; try discriminate; auto];
      cbn [andb] in H; apply orb_false_elim in H as [Htruthy Hparses];
      apply negb_false_iff in Htruthy; apply negb_false_iff in Hparses; auto
  end.
Qed.

(** The last check of the validator, for an entry it keeps. *)
Lemma validateQuery_kept_order (query q' : JsValue) (index : nat) :
  validateQuery query index = inr q' ->
  Js.truthy (Js.prop query "validFrom") && Js.truthy (Js.prop query "validUntil")
  && date_gt (new_Date (Js.prop query "validFrom")) (new_Date (Js.prop query "validUntil"))
  = false.
Proof.
  unfold validateQuery. split_checks; intros H; try discriminate. reflexivity.
Qed.

(** X6: the window of an entry the validator keeps is never empty: there is
    an instant at which the entry is runnable. *)
Theorem validateQuery_kept_window (query q' : JsValue) (index : nat) :
  validateQuery query index = inr q' ->
  exists now : Z, isQueryRunnable query (Some now) = true.
Proof.
  intros H. apply validateQuery_kept_order in H. revert H.
  unfold isQueryRunnable, date_gt, date_lt.
  destruct (Js.truthy (Js.prop query "validFrom"));
    destruct (Js.truthy (Js.prop query "validUntil"));
    destruct (new_Date (Js.prop query "validFrom")) as [f|];
    destruct (new_Date (Js.prop query "validUntil")) as [u|];
    cbn [andb negb]; intros H;
    first [ exists 0; reflexivity
          | match goal with
            | t : Z |- _ =>
                exists t; rewrite ?Z.ltb_irrefl, ?H; reflexivity
            end ].
Qed.

(** X7: validating is idempotent: what [validateQueries] returned passes
    it again unchanged, and nothing more is written. *)
Theorem validateQueries_idempotent (queries valid : list JsValue) (w w1 : World) :
  fst (validateQueries queries w) = Returned valid ->
  fst (validateQueries valid w1) = Returned valid
  /\ console (snd (validateQueries valid w1)) = console w1.
Proof.
  rewrite !validateQueries_run. cbn [fst snd console setConsole].
  intros [= <-]. rewrite filter_filter_same. split; [reflexivity|].
  destruct (validateFrom_filter (List.filter accepts queries) 0) as [Hvalid Hcount].
  rewrite Hvalid, filter_filter_same in Hcount.
  destruct (snd (validateFrom 0 (List.filter accepts queries))).
  - apply app_nil_r.
  - cbn [length] in Hcount. lia.
Qed.

End Validator_facts.

(** ** The gateways *)

Section Gateway_facts.
Context `{P : Platform}.

Lemma failed_run (startTime : Z) (e : Thrown) (w : World) :
  failed startTime e w
  = (Returned {| data := JNull; latencyMs := fst (Date_now (ext w)) - startTime;
                 tokenCount := 0; requestId := JUndefined;
                 error := Some (errorMessageOf e) |},
     setExt (snd (Date_now (ext w))) w).
Proof.
  unfold failed, bind, now_ms, ret. destruct (Date_now (ext w)). reflexivity.
Qed.

(** A [try] block whose responses carry no error, under the gateways'
    [catch] block, never throws and gives a well-shaped response. *)
Lemma guarded_shape (body : M SearchResponse) (startTime : Z) (w : World) :
  (forall w1 r w2, body w1 = (Returned r, w2) -> error r = None) ->
  exists r w', try_catch body (failed startTime) w = (Returned r, w') /\ wellShaped r.
Proof.
  intros Hbody. unfold try_catch.
  destruct (body w) as [[r | e] w1] eqn:Hrun.
  - exists r, w1. split; [reflexivity|]. left. eapply Hbody. exact Hrun.
  - rewrite failed_run. eexists. eexists. split; [reflexivity|].
    right. eexists. repeat split.
Qed.

Ltac invert_binds H :=
  repeat (let a := fresh "a" in
          let w := fresh "w" in
          let Hstep := fresh "Hstep" in
          apply bind_Returned in H as (a & w & Hstep & H)).

Lemma TavilyGateway_shape (q : JsValue) (parameters : Params) (w : World) :
  exists r w', TavilyGateway q parameters w = (Returned r, w') /\ wellShaped r.
Proof.
  unfold TavilyGateway, bind at 1, now_ms.
  destruct (Date_now (ext w)) as [startTime e].
  apply guarded_shape. intros w1 r w2 H. invert_binds H.
  injection H as <- _. reflexivity.
Qed.

Lemma ParallelGateway_shape (q : JsValue) (parameters : Params) (w : World) :
  exists r w', ParallelGateway q parameters w = (Returned r, w') /\ wellShaped r.
Proof.
  unfold ParallelGateway, bind at 1, now_ms.
  destruct (Date_now (ext w)) as [startTime e].
  apply guarded_shape. intros w1 r w2 H. invert_binds H.
  injection H as <- _. reflexivity.
Qed.

Lemma YouGateway_shape (q : JsValue) (parameters : Params) (w : World) :
  exists r w', YouGateway q parameters w = (Returned r, w') /\ wellShaped r.
Proof.
  unfold YouGateway, bind at 1, now_ms.
  destruct (Date_now (ext w)) as [startTime e].
  apply guarded_shape. intros w1 r w2 H. invert_binds H.
  injection H as <- _. reflexivity.
Qed.


Ltac open_gateway :=
  unfold TavilyGateway, ParallelGateway, YouGateway, tavily_getClient,
    parallel_getClient, getClient, lazyClient, callTavily, callParallel, callYou,
    countTokensM, searchUuid, responseProp, failed, try_catch, bind, now_ms, ret, throw.

Ltac registered Hin :=
  cbn in Hin; destruct Hin as [[= <- <-] | [[= <- <-] | [[= <- <-] | []]]].

(** X9: when the gateway's client is not built yet and its API key is
    unset or empty, [search] answers with the error response
    "<KEY> environment variable is not set"; nothing happened but two
    readings of the clock: no SDK call, no client stored. *)
Theorem gateway_without_key (name : string) (g : SearchGateway)
  (q : JsValue) (parameters : Params) (w : World) :
  In (name, g) gateways ->
  moduleClient name w = None ->
  envMissing (env w) (apiKeyName name) = true ->
  g q parameters w
  = (Returned (missingKeyResponse (apiKeyName name) w), afterTwoReads w).
Proof.
  intros Hin Hclient Hkey. unfold missingKeyResponse, afterTwoReads.
  registered Hin; cbn in Hclient, Hkey; unfold envMissing in Hkey; open_gateway;
    destruct (Date_now (ext w)) as [startTime e]; cbn; rewrite Hclient;
    (destruct (env w !! _) as [apiKey|]; [rewrite Hkey|]); cbn;
    destruct (Date_now e) as [endTime e']; reflexivity.
Qed.

Ltac case_split :=
  repeat (cbn;
          match goal with
          | |- context [match ?x with _ => _ end] =>
              lazymatch x with
              | context [match _ with _ => _ end] => fail
              | _ => destruct x eqn:?
              end
          end).

(** X10: the first call that finds the key builds the gateway's client and
    stores it, whether the SDK call then succeeds or fails. *)
Theorem client_is_built_on_first_use (name : string) (g : SearchGateway)
  (q : JsValue) (parameters : Params) (w : World) (apiKey : string) :
  In (name, g) gateways ->
  moduleClient name w = None ->
  env w !! apiKeyName name = Some apiKey ->
  apiKey <> "" ->
  moduleClient name (snd (g q parameters w)) = Some apiKey.
Proof.
  intros Hin Hclient Hkey Hnonempty.
  apply String.eqb_neq in Hnonempty.
  registered Hin; cbn in Hclient, Hkey; open_gateway;
    destruct (Date_now (ext w)) as [startTime e]; cbn;
    rewrite Hclient, Hkey, Hnonempty; case_split; reflexivity.
Qed.

(** X11: once built, the client is reused: [process.env] is not read again,
    so a call gives the same response and leaves the same world whatever
    the environment has become, and the client stays as it is. *)
Theorem built_client_is_reused (name : string) (g : SearchGateway)
  (q : JsValue) (parameters : Params) (w : World) (client : string)
  (environment : gmap string string) :
  In (name, g) gateways ->
  moduleClient name w = Some client ->
  g q parameters (setEnv environment w)
  = (fst (g q parameters w), setEnv environment (snd (g q parameters w)))
  /\ moduleClient name (snd (g q parameters w)) = Some client.
Proof.
  intros Hin Hclient.
  registered Hin; cbn in Hclient; open_gateway; cbn;
    destruct (Date_now (ext w)) as [startTime e]; cbn;
    rewrite Hclient; case_split; cbn; (split; [reflexivity | assumption]).
Qed.

(** No registered gateway touches the file system, the environment or the
    log of grading requests. *)
Lemma gateway_store (name : string) (g : SearchGateway)
  (q : JsValue) (parameters : Params) (w : World) :
  In (name, g) gateways -> storeOf (snd (g q parameters w)) = storeOf w.
Proof.
  intros Hin. unfold storeOf.
  registered Hin; open_gateway; destruct (Date_now (ext w)) as [startTime e];
    case_split; reflexivity.
Qed.

End Gateway_facts.

(** ** The registry and the dispatch of one call *)

Section Dispatch_facts.
Context `{P : Platform}.
Variable registry : list (string * SearchGateway).

Lemma assoc_In {A : Type} (k : string) (l : list (string * A)) (v : A) :
  Js.assoc k l = Some v -> In (k, v) l.
Proof.
  induction l as [|[k' v'] rest IH]; cbn; [discriminate|].
  destruct (String.eqb_spec k k') as [-> | Hne].
  - intros [= ->]. left. reflexivity.
  - intros H. right. apply IH. exact H.
Qed.

Lemma assoc_None {A : Type} (k : string) (l : list (string * A)) :
  Js.assoc k l = None <-> ~ In k (map fst l).
Proof.
  induction l as [|[k' v'] rest IH]; cbn.
  - split; [intros _ [] | reflexivity].
  - destruct (String.eqb_spec k k') as [-> | Hne].
    + split; [discriminate | intros H; exfalso; apply H; left; reflexivity].
    + rewrite IH. split.
      * intros H [Heq | Hin]; [apply Hne; symmetry; exact Heq | apply H; exact Hin].
      * intros H Hin. apply H. right. exact Hin.
Qed.

(** X12: [getGateway] resolves every name [getAvailableGateways] lists, to
    a gateway the table holds under that name, without throwing and
    without any effect. *)
Theorem getGateway_available (name : string) (w : World) :
  In name (getAvailableGateways registry) ->
  exists g, getGateway registry name w = (Returned g, w) /\ In (name, g) registry.
Proof.
  unfold getAvailableGateways, getGateway. intros Hin.
  destruct (Js.assoc name registry) as [g|] eqn:Hg.
  - exists g. split; [reflexivity | apply assoc_In; exact Hg].
  - apply assoc_None in Hg. contradiction.
Qed.

Lemma callStart_run (w : World) :
  callStart w
  = (fst (Date_now (ext w)),
     toISOString (fst (Date_now (snd (Date_now (ext w))))),
     setExt (snd (Date_now (snd (Date_now (ext w))))) w).
Proof.
  unfold callStart. destruct (Date_now (ext w)) as [t e]. cbn.
  destruct (Date_now e) as [t' e']. reflexivity.
Qed.

(** X13: a configuration that names a gateway the registry does not hold
    does not stop anything: [executeQuery] records an error response whose
    message names the gateway and lists the available ones, with
    [hasError = true], no payload and no token. *)
Theorem executeQuery_unknown_gateway (q : JsValue) (c : SearchConfig) (w : World) :
  ~ In (cfg_gateway c) (getAvailableGateways registry) ->
  inherited (cfg_gateway c) = false ->
  error (response (fst (executeQuery registry q c w)))
  = Some ("Unknown gateway: " +:+ cfg_gateway c +:+ ". Available gateways: "
            +:+ Js.join ", " (getAvailableGateways registry))
  /\ hasError (fst (executeQuery registry q c w)) = true
  /\ data (response (fst (executeQuery registry q c w))) = JNull
  /\ tokenCount (response (fst (executeQuery registry q c w))) = 0.
Proof.
  intros Hunknown Hown. apply assoc_None in Hunknown.
  unfold executeQuery. rewrite callStart_run.
  unfold dispatch, bind, getGateway. rewrite Hunknown, Hown.
  unfold throw, caught. cbn.
  destruct (Date_now _) as [endTime e]. cbn. repeat split.
Qed.

Lemma inherited_requiredEnv (name : string) :
  inherited name = true ->
  requiredEnv name = Threw (ErrorObj "required.filter is not a function").
Proof.
  unfold requiredEnv. intros H. rewrite H.
  unfold inherited, objectPrototypeKeys in H. cbn [existsb] in H. revert H.
  repeat match goal with
         | |- orb (String.eqb name ?k) _ = true -> _ =>
             destruct (String.eqb_spec name k) as [-> | _]; [reflexivity|];
             cbn [orb]
         end.
  discriminate.
Qed.

Lemma filterConfigs_inherited (configs : list SearchConfig) :
  forall w : World,
    Exists (fun c => inherited (cfg_gateway c) = true) configs ->
    exists w',
      filterConfigs configs w
      = (Threw (ErrorObj "required.filter is not a function"), w')
      /\ sameButConsole w w'.
Proof.
  induction configs as [|c rest IH]; intros w Hex; [inversion Hex|].
  cbn [filterConfigs]. unfold bind at 1.
  destruct (inherited (cfg_gateway c)) eqn:Hc.
  - unfold configFilter. rewrite (inherited_requiredEnv _ Hc).
    exists w. split; [reflexivity | apply sameButConsole_refl].
  - assert (Hrest : Exists (fun c => inherited (cfg_gateway c) = true) rest).
    { inversion Hex as [? ? Hhead | ? ? Htail]; subst; [congruence | exact Htail]. }
    destruct (configFilter c w) as [[keep | e] w1] eqn:Hfilter.
    + apply configFilter_Returned in Hfilter as [_ Hsame1].
      destruct (IH w1 Hrest) as (w2 & Hthrow & Hsame2).
      unfold bind. rewrite Hthrow. exists w2.
      split; [reflexivity | eapply sameButConsole_trans; eassumption].
    + unfold configFilter, requiredEnv in Hfilter. rewrite Hc in Hfilter.
      destruct (Js.assoc (cfg_gateway c) requiredEnvByGateway);
        [destruct (0 <? _)%nat|]; discriminate Hfilter.
Qed.

(** X14: a configuration whose gateway name is a member every object
    inherits ([constructor], [toString], ...) is not reported as an unknown
    gateway: the pre-check itself throws, and the whole run is lost before
    any query file is read or any gateway is called. *)
Theorem inherited_gateway_aborts_run (configs : list SearchConfig) (w : World) :
  Exists (fun c => inherited (cfg_gateway c) = true) configs ->
  fst (runEvaluation registry configs w)
  = Threw (ErrorObj "required.filter is not a function")
  /\ sameButConsole (setExt (snd (Date_now (ext w))) w)
       (snd (runEvaluation registry configs w)).
Proof.
  intros Hex. unfold runEvaluation.
  destruct (Date_now (ext w)) as [now e] eqn:Hclock.
  erewrite bind_step by (unfold now_ms; rewrite Hclock; reflexivity).
  erewrite bind_step by (unfold log; reflexivity).
  match goal with
  | |- context [bind (filterConfigs configs) _ ?w0] =>
      destruct (filterConfigs_inherited configs w0 Hex) as (w1 & Hthrow & Hsame)
  end.
  unfold bind. rewrite Hthrow. cbn [fst snd]. split; [reflexivity|].
  eapply sameButConsole_trans; [|exact Hsame]. apply sameButConsole_set.
Qed.

(** X15: the pre-check is sound for the gateways it covers: a tavily or
    parallel configuration it keeps finds its API key, so [getClient]
    returns a client for it. *)
Theorem kept_config_has_client (c : SearchConfig) (w : World) :
  credentialsPresent (env w) c = true ->
  (cfg_gateway c = "tavily" -> exists client w', tavily_getClient w = (Returned client, w'))
  /\ (cfg_gateway c = "parallel" ->
      exists client w', parallel_getClient w = (Returned client, w')).
Proof.
  unfold credentialsPresent. intros Hkept.
  split; intros Hname; rewrite Hname in Hkept; cbn in Hkept;
    unfold tavily_getClient, parallel_getClient, lazyClient;
    unfold envMissing in Hkept;
    match goal with
    | |- context [match ?client with Some _ => _ | None => _ end] =>
        destruct client; [eexists; eexists; reflexivity|]
    end;
    (destruct (env w !! _) as [apiKey|]; [|discriminate Hkept]);
    (destruct (String.eqb apiKey ""); [discriminate Hkept|]);
    eexists; eexists; reflexivity.
Qed.

End Dispatch_facts.

(** ** The run, on any world *)

Section Run_facts.
Context `{P : Platform}.
Variable registry : list (string * SearchGateway).

Lemma print_invariant (I : World -> Prop) :
  (forall lines w, I w -> I (setConsole lines w)) ->
  forall line w, I w -> I (print line w).
Proof. intros Hconsole line w Hw. unfold print. apply Hconsole. exact Hw. Qed.

(** The inner loop: every new record was made by [executeQuery] for its
    pair, and what each call and each console line preserves, the loop
    preserves. *)
Lemma forConfigs_made (I : World -> Prop) (total : nat) (q : JsValue)
  (configs : list SearchConfig) :
  (forall lines w, I w -> I (setConsole lines w)) ->
  (forall q c w, I w -> I (snd (executeQuery registry q c w))) ->
  forall (completed : nat) (results : list QueryResult) (w : World),
  exists (news : list QueryResult) (w' : World),
    forConfigs registry total q configs completed results w
    = ((completed + length configs)%nat, (results ++ news)%list, w')
    /\ Forall2 (fun c r => madeBy registry (q, c) r) configs news
    /\ (I w -> I w').
Proof.
  intros Hconsole Hcall.
  induction configs as [|c rest IH]; intros completed results w.
  - exists [], w. cbn [forConfigs length]. rewrite app_nil_r, Nat.add_0_r.
    split; [reflexivity|]. split; [constructor | tauto].
  - cbn [forConfigs].
    match goal with
    | |- context [executeQuery registry q c ?w0] =>
        pose proof (Hcall q c w0) as Hstep;
        assert (Hmade : madeBy registry (q, c) (fst (executeQuery registry q c w0)))
          by (exists w0; reflexivity);
        destruct (executeQuery registry q c w0) as [r w1]
    end.
    cbn [fst snd] in Hstep, Hmade.
    match goal with
    | |- context [forConfigs registry total q rest ?n ?rs ?w0] =>
        destruct (IH n rs w0) as (news & w' & Heq & Hall & Hinv)
    end.
    exists (r :: news), w'. rewrite Heq. split; [|split].
    + rewrite <- app_assoc. cbn [length app]. f_equal. f_equal. lia.
    + constructor; assumption.
    + intros Hw. apply Hinv.
      destruct (hasError r); apply print_invariant; try assumption;
        apply Hstep; apply print_invariant; assumption.
Qed.

Lemma forQueries_made (I : World -> Prop) (total : nat)
  (configs : list SearchConfig) (queries : list JsValue) :
  (forall lines w, I w -> I (setConsole lines w)) ->
  (forall q c w, I w -> I (snd (executeQuery registry q c w))) ->
  forall (completed : nat) (results : list QueryResult) (w : World),
  exists (news : list QueryResult) (w' : World),
    forQueries registry total queries configs completed results w
    = ((completed + length queries * length configs)%nat, (results ++ news)%list, w')
    /\ Forall2 (madeBy registry) (crossProduct queries configs) news
    /\ (I w -> I w').
Proof.
  intros Hconsole Hcall.
  induction queries as [|q rest IH]; intros completed results w.
  - exists [], w. cbn. rewrite app_nil_r, Nat.add_0_r.
    split; [reflexivity|]. split; [constructor | tauto].
  - cbn [forQueries].
    destruct (forConfigs_made I total q configs Hconsole Hcall completed results w)
      as (news1 & w1 & Heq1 & Hall1 & Hinv1).
    rewrite Heq1.
    destruct (IH (completed + length configs)%nat (results ++ news1)%list w1)
      as (news2 & w2 & Heq2 & Hall2 & Hinv2).
    exists (news1 ++ news2)%list, w2. rewrite Heq2. split; [|split].
    + rewrite <- app_assoc. cbn [length]. f_equal. f_equal. lia.
    + unfold crossProduct. cbn [flat_map]. apply Forall2_app; [|exact Hall2].
      clear -Hall1. induction Hall1; constructor; assumption.
    + tauto.
Qed.

Lemma bind_throw {A B : Type} (m : M A) (k : A -> M B) (w w1 : World) (e : Thrown) :
  m w = (Threw e, w1) -> bind m k w = (Threw e, w1).
Proof. unfold bind. intros ->. reflexivity. Qed.

(** What an artifact holds, whichever way the run went: its identifier and
    instant come from the one reading of the clock at the start, and its
    records were made, in order, for the cross product of some entries the
    validator accepts and the window admits with the configurations the
    pre-check keeps. *)
Lemma runEvaluation_results (configs : list SearchConfig) (w : World)
  (art : RunResult) :
  fst (runEvaluation registry configs w) = Returned art ->
  run_id art = Js.replaceColons (toISOString (fst (Date_now (ext w))))
  /\ run_executedAt art = toISOString (fst (Date_now (ext w)))
  /\ exists qs : list JsValue,
       Forall (fun q => accepts q = true
                        /\ isQueryRunnable q (Some (fst (Date_now (ext w)))) = true) qs
       /\ Forall2 (madeBy registry)
            (crossProduct qs (runnableConfigSet (env w) configs)) (results art).
Proof.
  intros Hfst.
  destruct (runEvaluation registry configs w) as [o w'] eqn:H.
  cbn [fst] in Hfst. subst o. unfold runEvaluation in H.
  apply bind_Returned in H as (now & w1 & Hnow & H).
  apply now_ms_Returned in Hnow as (-> & Henv1 & Hdirs1).
  apply bind_Returned in H as (u & w2 & Hlog & H).
  apply log_Returned in Hlog.
  apply bind_Returned in H as (cs & w3 & Hfilter & H).
  apply filterConfigs_Returned in Hfilter as [-> Hw3].
  rewrite (sameButConsole_env _ _ Hlog), Henv1 in H.
  set (cs := runnableConfigSet (env w) configs) in *.
  destruct (length cs =? 0)%nat eqn:Hempty.
  - apply bind_Returned in H as (u' & w4 & _ & H). injection H as <- _.
    cbn. split; [reflexivity|]. split; [reflexivity|].
    exists []. split; constructor.
  - apply bind_Returned in H as (allQueries & w4 & Hload & H).
    apply bind_Returned in H as (u1 & w5 & _ & H).
    apply bind_Returned in H as (validated & w6 & Hvalid & H).
    apply bind_Returned in H as (u2 & w7 & _ & H).
    apply bind_Returned in H as (u3 & w8 & _ & H).
    apply bind_Returned in H as (u4 & w9 & _ & H).
    apply bind_Returned in H as (u5 & w10 & _ & H).
    pose proof (validateQueries_spec allQueries w5) as [Hv _].
    rewrite Hvalid in Hv. cbn [fst] in Hv. injection Hv as ->.
    set (qs := List.filter (fun q => isQueryRunnable q (Some (fst (Date_now (ext w)))))
                 (fst (validateFrom 0 allQueries))) in *.
    destruct (forQueries_made (fun _ => True) (length qs * length cs) cs qs
                (fun _ _ _ => I) (fun _ _ _ _ => I) 0 [] w10)
      as (news & w11 & Heq & Hall & _).
    rewrite Heq in H. injection H as <- _. cbn [results run_id run_executedAt app].
    split; [reflexivity|]. split; [reflexivity|].
    exists qs. split; [|exact Hall].
    apply List.Forall_forall. intros q Hq. unfold qs in Hq.
    apply filter_In in Hq as [Hq Hwindow]. split; [|exact Hwindow].
    destruct (validateFrom_filter allQueries 0) as [Hkept _].
    rewrite Hkept in Hq. apply filter_In in Hq as [_ Hq]. exact Hq.
Qed.

Lemma Forall2_In_r {A B : Type} (R : A -> B -> Prop) (xs : list A) (ys : list B) (y : B) :
  Forall2 R xs ys -> In y ys -> exists x, In x xs /\ R x y.
Proof.
  induction 1 as [|x0 y0 xs ys Hhead _ IH]; intros Hin; [destruct Hin|].
  destruct Hin as [-> | Hin].
  - exists x0. split; [left; reflexivity | exact Hhead].
  - destruct (IH Hin) as (x & Hx & HR). exists x. split; [right; exact Hx | exact HR].
Qed.

Lemma crossProduct_In {A B : Type} (xs : list A) (ys : list B) (x : A) (y : B) :
  In (x, y) (crossProduct xs ys) -> In x xs /\ In y ys.
Proof.
  unfold crossProduct. rewrite in_flat_map. intros (x' & Hx & Hin).
  apply in_map_iff in Hin as (y' & [= -> ->] & Hy). split; assumption.
Qed.

(** An entry the validator accepts has a string with more than white
    space as its [query]. *)
Lemma accepts_text (q : JsValue) :
  accepts q = true ->
  exists text, Js.prop q "query" = JStr text /\ Js.trim text <> "".
Proof.
  unfold accepts, validateQuery.
  destruct (negb (Js.truthy q) || negb (String.eqb (Js.typeof q) "object"));
    [discriminate|].
  destruct (negb (String.eqb (Js.typeof (Js.prop q "query")) "string")) eqn:Htype;
    [discriminate|].
  destruct (Js.strlen (Js.trim (Js.ToString (Js.prop q "query"))) =? 0) eqn:Hlen;
    [discriminate|].
  intros _. apply negb_false_iff in Htype.
  destruct (Js.prop q "query") as [| | | |text| |];
    try (vm_compute in Htype; discriminate Htype).
  exists text. split; [reflexivity|].
  intros Hblank. cbn [Js.ToString] in Hlen. rewrite Hblank in Hlen. discriminate Hlen.
Qed.

(** X16: the identifier of a run is its [executedAt] with every colon
    replaced by a dash, so it holds no colon; and it is, without the
    extension, the file name [generateResultFilename] gives at the same
    instant. *)
Theorem run_id_of_artifact (configs : list SearchConfig) (w : World) (art : RunResult) :
  fst (runEvaluation registry configs w) = Returned art ->
  run_id art = Js.replaceColons (run_executedAt art)
  /\ hasChar ":" (run_id art) = false
  /\ fst (generateResultFilename w) = Returned (run_id art +:+ ".json").
Proof.
  intros Hrun. apply runEvaluation_results in Hrun as (Hid & Hat & _).
  rewrite Hid, Hat. split; [reflexivity|]. split; [apply replaceColons_no_colon|].
  unfold generateResultFilename, bind, now_ms.
  destruct (Date_now (ext w)) as [now e]. reflexivity.
Qed.

(** X17: every Result Record of an artifact has a string with more than
    white space as its [query], comes from a configuration that was
    submitted and passed the pre-check, and has [hasError] equal to the
    truthiness of its response's error: true exactly when the error is
    defined and not empty. *)
Theorem artifact_records (configs : list SearchConfig) (w : World) (art : RunResult)
  (r : QueryResult) :
  fst (runEvaluation registry configs w) = Returned art ->
  In r (results art) ->
  (exists text, query r = JStr text /\ Js.trim text <> "")
  /\ (exists c, In c configs /\ credentialsPresent (env w) c = true
                /\ configId r = cfg_id c /\ gateway r = cfg_gateway c
                /\ parameters r = cfg_parameters c)
  /\ (hasError r = true <->
      exists message, error (response r) = Some message /\ message <> "").
Proof.
  intros Hrun Hin.
  apply runEvaluation_results in Hrun as (_ & _ & qs & Hqs & Hall).
  destruct (Forall2_In_r _ _ _ _ Hall Hin) as ([q c] & Hpair & w0 & ->).
  apply crossProduct_In in Hpair as [Hq Hc]. cbn [fst snd].
  rewrite List.Forall_forall in Hqs. destruct (Hqs q Hq) as [Haccepts _].
  destruct (executeQuery_record registry q c w0) as [Hrec Hflag].
  destruct Hrec as (Hquery & _ & _ & _ & Hid & Hgateway & Hparameters).
  split; [|split].
  - rewrite Hquery. apply accepts_text. exact Haccepts.
  - exists c. unfold runnableConfigSet in Hc. apply filter_In in Hc as [Hc Hkept].
    repeat split; assumption.
  - rewrite Hflag. apply errorFlag_true.
Qed.

(** X18: when a configuration is runnable and loading the query files
    fails, the run is lost with that error: no artifact, no call to any
    gateway, nothing but the console and one reading of the clock. *)
Theorem runEvaluation_without_queries (configs : list SearchConfig) (w : World)
  (e : Thrown) :
  Forall (fun c => inherited (cfg_gateway c) = false) configs ->
  runnableConfigSet (env w) configs <> [] ->
  fst (loadQueries w) = Threw e ->
  fst (runEvaluation registry configs w) = Threw e
  /\ sameButConsole (setExt (snd (Date_now (ext w))) w)
       (snd (runEvaluation registry configs w)).
Proof.
  intros Hall Hkept Hload. unfold runEvaluation.
  destruct (Date_now (ext w)) as [now e0] eqn:Hclock.
  erewrite bind_step by (unfold now_ms; rewrite Hclock; reflexivity).
  erewrite bind_step by (unfold log; reflexivity).
  match goal with
  | |- context [bind (filterConfigs configs) _ ?w0] =>
      destruct (filterConfigs_returns configs w0 Hall) as (w1 & Hfilter & Hsame)
  end.
  erewrite bind_step by exact Hfilter. cbn [env setConsole setExt].
  destruct (length (runnableConfigSet (env w) configs) =? 0)%nat eqn:Hempty.
  { apply Nat.eqb_eq, length_zero_iff_nil in Hempty. contradiction. }
  assert (Hload1 : loadQueries w1 = (Threw e, w1)).
  { pose proof (loadQueries_world w1) as Hw.
    pose proof (loadQueries_dirs w1 w (sameButConsole_dirs _ _ Hsame)) as Hd.
    rewrite Hload in Hd. cbn [dirs setConsole setExt] in Hd.
    destruct (loadQueries w1) as [o w0]. cbn [fst snd] in *. subst. reflexivity. }
  rewrite (bind_throw _ _ _ _ _ Hload1). cbn [fst snd]. split; [reflexivity|].
  eapply sameButConsole_trans; [|exact Hsame]. apply sameButConsole_set.
Qed.

End Run_facts.

(** ** The run with the registered gateways *)

Section Run_store_facts.
Context `{P : Platform}.

Lemma keepsStore_ret {A : Type} (a : A) : keepsStore (ret a).
Proof. intros w. reflexivity. Qed.

Lemma keepsStore_bind {A B : Type} (m : M A) (k : A -> M B) :
  keepsStore m -> (forall a, keepsStore (k a)) -> keepsStore (bind m k).
Proof.
  intros Hm Hk w. unfold bind. specialize (Hm w).
  destruct (m w) as [[a | e] w1]; cbn [snd] in *; [|exact Hm].
  rewrite (Hk a w1). exact Hm.
Qed.

Lemma keepsStore_log (line : string) : keepsStore (log line).
Proof. intros w. reflexivity. Qed.

Lemma keepsStore_now_ms : keepsStore now_ms.
Proof. intros w. unfold now_ms. destruct (Date_now (ext w)). reflexivity. Qed.

Lemma keepsStore_configFilter (c : SearchConfig) : keepsStore (configFilter c).
Proof.
  intros w. unfold configFilter.
  destruct (requiredEnv (cfg_gateway c)); [|reflexivity].
  destruct (0 <? _)%nat; reflexivity.
Qed.

Lemma keepsStore_filterConfigs (configs : list SearchConfig) :
  keepsStore (filterConfigs configs).
Proof.
  induction configs as [|c rest IH]; [apply keepsStore_ret|].
  cbn [filterConfigs].
  apply keepsStore_bind; [apply keepsStore_configFilter | intros keep].
  apply keepsStore_bind; [exact IH | intros kept; apply keepsStore_ret].
Qed.

Lemma keepsStore_loadQueries : keepsStore loadQueries.
Proof. intros w. rewrite loadQueries_world. reflexivity. Qed.

Lemma keepsStore_validateQueries (queries : list JsValue) :
  keepsStore (validateQueries queries).
Proof. intros w. rewrite validateQueries_run. reflexivity. Qed.

(** One call through the registered gateways leaves the store alone. *)
Lemma executeQuery_store (q : JsValue) (c : SearchConfig) (w : World) :
  storeOf (snd (executeQuery gateways q c w)) = storeOf w.
Proof.
  unfold executeQuery. rewrite callStart_run.
  set (w1 := setExt _ w).
  assert (Hdispatch : storeOf (snd (dispatch gateways q c w1)) = storeOf w).
  { unfold dispatch, bind, getGateway.
    destruct (Js.assoc (cfg_gateway c) gateways) as [g|] eqn:Hg.
    - apply assoc_In in Hg. cbn [ret].
      rewrite (gateway_store _ _ _ _ _ Hg). reflexivity.
    - destruct (inherited (cfg_gateway c)); reflexivity. }
  destruct (dispatch gateways q c w1) as [[response1 | error1] w2]; cbn [snd] in *.
  - exact Hdispatch.
  - unfold caught. destruct (Date_now (ext w2)) as [endTime e2]. cbn [snd].
    exact Hdispatch.
Qed.

(** X19: a run through the registered gateways persists nothing and
    changes no setting: whether it returns an artifact or throws, the file
    system, the environment and the log of grading requests are as before. *)
Theorem runEvaluation_keeps_store (configs : list SearchConfig) :
  keepsStore (runEvaluation gateways configs).
Proof.
  unfold runEvaluation.
  apply keepsStore_bind; [apply keepsStore_now_ms | intros now].
  apply keepsStore_bind; [apply keepsStore_log | intros _].
  apply keepsStore_bind; [apply keepsStore_filterConfigs | intros runnableConfigs].
  destruct (length runnableConfigs =? 0)%nat.
  { apply keepsStore_bind; [apply keepsStore_log | intros _; apply keepsStore_ret]. }
  apply keepsStore_bind; [apply keepsStore_loadQueries | intros allQueries].
  apply keepsStore_bind; [apply keepsStore_log | intros _].
  apply keepsStore_bind; [apply keepsStore_validateQueries | intros validatedQueries].
  apply keepsStore_bind; [apply keepsStore_log | intros _].
  apply keepsStore_bind;
    [destruct (0 <? _)%nat; [apply keepsStore_log | apply keepsStore_ret] | intros _].
  apply keepsStore_bind; [apply keepsStore_log | intros _].
  apply keepsStore_bind; [apply keepsStore_log | intros _].
  intros w.
  match goal with
  | |- context [forQueries gateways ?t ?qs ?cs 0%nat [] w] =>
      destruct (forQueries_made gateways (fun w' => storeOf w' = storeOf w) t cs qs
                  (fun _ _ H => H)
                  (fun q c w0 H => eq_trans (executeQuery_store q c w0) H) 0%nat [] w)
        as (news & w' & Heq & _ & Hinv)
  end.
  rewrite Heq. cbn [snd]. apply Hinv. reflexivity.
Qed.

Lemma registered_shape (name : string) (g : SearchGateway)
  (q : JsValue) (parameters : Params) (w : World) :
  In (name, g) gateways ->
  exists r w', g q parameters w = (Returned r, w') /\ wellShaped r.
Proof.
  intros Hin. cbn in Hin.
  destruct Hin as [[= _ <-] | [[= _ <-] | [[= _ <-] | []]]].
  - apply TavilyGateway_shape.
  - apply ParallelGateway_shape.
  - apply YouGateway_shape.
Qed.

(** X20: in every Result Record made through the registry, an error
    excludes a payload: the response either has no error, or it has
    [data = null], no token and no request id, whether the error comes from
    a gateway's own [catch] block or from the one of [executeQuery]. *)
Theorem record_response_shape (q : JsValue) (c : SearchConfig) (w : World) :
  wellShaped (response (fst (executeQuery gateways q c w))).
Proof.
  unfold executeQuery. rewrite callStart_run.
  set (w1 := setExt _ w). unfold dispatch, bind, getGateway.
  destruct (Js.assoc (cfg_gateway c) gateways) as [g|] eqn:Hg.
  - apply assoc_In in Hg. cbn [ret].
    destruct (registered_shape _ _ (Js.prop q "query") (cfg_parameters c) w1 Hg)
      as (r & w2 & -> & Hshape).
    exact Hshape.
  - assert (Hcaught : forall e w2,
               wellShaped (response (fst (let '(response, w3) :=
                                            caught (fst (Date_now (ext w))) e w2 in
                                          ({| query := Js.prop q "query";
                                              groundTruth := Js.prop q "groundTruth";
                                              validFrom := Js.prop q "validFrom";
                                              validUntil := Js.prop q "validUntil";
                                              configId := cfg_id c;
                                              gateway := cfg_gateway c;
                                              parameters := cfg_parameters c;
                                              executedAt :=
                                                toISOString
                                                  (fst (Date_now (snd (Date_now (ext w)))));
                                              response := response;
                                              hasError := errorFlag response |}, w3))))).
    { intros e w2. unfold caught. destruct (Date_now (ext w2)) as [endTime e2].
      cbn. right. eexists. repeat split. }
    destruct (inherited (cfg_gateway c)); apply Hcaught.
Qed.

End Run_store_facts.

(** ** The result store, on any world *)

Section Store_facts.
Context `{P : Platform}.

Lemma append_inj_l (s a b : string) : s +:+ a = s +:+ b -> a = b.
Proof.
  induction s as [|c s IH]; [intros H; exact H|].
  rewrite !append_cons. intros [= H]. apply IH. exact H.
Qed.

Lemma mkdir_run (dir : string) (w : World) :
  exists entries,
    mkdir dir w = (Returned tt, setDirs (<[dir := entries]> (dirs w)) w)
    /\ (dirs w !! dir = Some entries \/ (dirs w !! dir = None /\ entries = ∅)).
Proof.
  unfold mkdir. destruct (dirs w !! dir) as [entries|] eqn:Hdir.
  - exists entries. split; [|left; reflexivity].
    rewrite (insert_id _ _ _ Hdir). destruct w. reflexivity.
  - exists ∅. split; [reflexivity | right; split; reflexivity].
Qed.

(** Writing an entry into a directory that exists. *)
Lemma writeFile_entry (dir name text : string) (w : World)
  (entries : gmap string string) :
  hasChar "/" name = false ->
  dirs w !! dir = Some entries ->
  writeFile (joinPath dir name) text w
  = (Returned tt, setDirs (<[dir := <[name := text]> entries]> (dirs w)) w).
Proof.
  intros Hname Hdir. unfold writeFile.
  rewrite (dirname_joinPath dir name Hname), (basename_joinPath dir name Hname), Hdir.
  reflexivity.
Qed.

Lemma lookupFile_entry (files : gmap string (gmap string string)) (dir name : string) :
  hasChar "/" name = false ->
  lookupFile files (joinPath dir name)
  = match files !! dir ≫= (.!! name) with
    | Some text => Returned text
    | None => Threw (ENOENT "open" (joinPath dir name))
    end.
Proof.
  intros Hname. unfold lookupFile.
  rewrite (dirname_joinPath dir name Hname), (basename_joinPath dir name Hname).
  destruct (files !! dir) as [entries|]; cbn; [|reflexivity].
  destruct (entries !! name); reflexivity.
Qed.

(** What [saveResults] does, step by step. *)
Lemma saveResults_run (run : RunResult) (w : World) :
  hasChar "/" (run_id run) = false ->
  exists entries,
    saveResults run w
    = (Returned (joinPath (joinPath projectRoot "results") (run_id run +:+ ".json")),
       setDirs (<[joinPath projectRoot "results" :=
                    <[run_id run +:+ ".json" := Json.stringify "" (Json.ofRunResult run)]>
                      entries]> (dirs w)) w)
    /\ (dirs w !! joinPath projectRoot "results" = Some entries
        \/ (dirs w !! joinPath projectRoot "results" = None /\ entries = ∅)).
Proof.
  intros Hid. unfold saveResults.
  destruct (mkdir_run (joinPath projectRoot "results") w) as (entries & Hmk & Hentries).
  exists entries. split; [|exact Hentries].
  rewrite (bind_step _ _ _ _ _ Hmk).
  erewrite bind_step.
  2:{ apply writeFile_entry with (entries := entries).
      - rewrite hasChar_append, Hid. reflexivity.
      - cbn. apply lookup_insert_eq. }
  unfold ret. cbn. rewrite insert_insert_eq. reflexivity.
Qed.

Lemma storable_no_slash (w : World) (id : string) :
  storable w (id +:+ ".json") -> hasChar "/" id = false.
Proof.
  intros (Hname & _). unfold isFileName in Hname.
  apply andb_true_iff in Hname as [Hname _]. apply andb_true_iff in Hname as [Hname _].
  apply isEntryName_no_slash in Hname. rewrite hasChar_append in Hname.
  apply orb_false_elim in Hname as [Hid _]. exact Hid.
Qed.

(** X21: when the results directory takes a file named [<id>.json],
    [saveResults] does not throw, whether the directory exists or not; it
    returns [results/<id>.json], the artifact's text reads back from
    there, and every other file is as it was. *)
Theorem saveResults_stores (run : RunResult) (w : World) :
  storable w (run_id run +:+ ".json") ->
  exists w',
    saveResults run w
    = (Returned (joinPath (joinPath projectRoot "results") (run_id run +:+ ".json")), w')
    /\ readFile (joinPath (joinPath projectRoot "results") (run_id run +:+ ".json")) w'
       = (Returned (Json.stringify "" (Json.ofRunResult run)), w')
    /\ (forall dir name,
          (dir, name) <> (joinPath projectRoot "results", run_id run +:+ ".json") ->
          dirs w' !! dir ≫= (.!! name) = dirs w !! dir ≫= (.!! name)).
Proof.
  intros Hstorable. pose proof (storable_no_slash w _ Hstorable) as Hid.
  destruct (saveResults_run run w Hid) as (entries & Hsave & Hentries).
  eexists. split; [exact Hsave|]. split.
  - unfold readFile. rewrite lookupFile_entry by (rewrite hasChar_append, Hid; reflexivity).
    cbn. rewrite lookup_insert_eq. cbn. rewrite lookup_insert_eq. reflexivity.
  - intros dir name Hother. cbn.
    destruct (decide (dir = joinPath projectRoot "results")) as [-> | Hdir].
    + rewrite lookup_insert_eq. cbn.
      rewrite lookup_insert_ne by (intros <-; apply Hother; reflexivity).
      destruct Hentries as [-> | [-> ->]]; reflexivity.
    + rewrite lookup_insert_ne by (intros <-; apply Hdir; reflexivity). reflexivity.
Qed.



End Store_facts.

(** ** The grading pass, on any world *)

Section Evaluate_facts.
Context `{P : Platform}.




End Evaluate_facts.

(** ** The summary *)

Section Summary_facts.

Lemma mapSet_keys {A : Type} (key : string) (value : A) (entries : list (string * A)) :
  map fst (mapSet key value entries)
  = match Js.assoc key entries with
    | Some _ => map fst entries
    | None => (map fst entries ++ [key])%list
    end.
Proof.
  induction entries as [|[k v] rest IH]; [reflexivity|].
  cbn [mapSet Js.assoc]. destruct (String.eqb_spec key k) as [-> | Hne]; [reflexivity|].
  cbn [map fst]. rewrite IH. destruct (Js.assoc key rest); reflexivity.
Qed.

Lemma assoc_mapSet {A : Type} (key : string) (value : A) (entries : list (string * A))
  (k : string) :
  Js.assoc k (mapSet key value entries)
  = if String.eqb k key then Some value else Js.assoc k entries.
Proof.
  induction entries as [|[k0 v0] rest IH]; cbn [mapSet Js.assoc].
  - destruct (String.eqb k key); reflexivity.
  - destruct (String.eqb_spec key k0) as [-> | Hne]; cbn [Js.assoc].
    + destruct (String.eqb k k0); reflexivity.
    + destruct (String.eqb_spec k k0) as [-> | Hne'].
      * destruct (String.eqb_spec k0 key) as [-> | _]; [contradiction | reflexivity].
      * exact IH.
Qed.

Lemma assoc_In_NoDup {A : Type} (k : string) (v : A) (entries : list (string * A)) :
  List.NoDup (map fst entries) -> In (k, v) entries -> Js.assoc k entries = Some v.
Proof.
  induction entries as [|[k0 v0] rest IH]; intros Hnodup Hin; [destruct Hin|].
  cbn [map fst] in Hnodup. inversion Hnodup as [|? ? Hfresh Hrest]; subst.
  cbn [Js.assoc]. destruct Hin as [[= -> ->] | Hin].
  - rewrite String.eqb_refl. reflexivity.
  - destruct (String.eqb_spec k k0) as [-> | _]; [|apply IH; assumption].
    exfalso. apply Hfresh. apply in_map_iff.
    exists (k0, v). split; [reflexivity | exact Hin].
Qed.

(** The grouping loop: the keys are the distinct keys of the results in
    the order of their first appearance, and the group of a key holds the
    results with that key, in order. *)
Lemma groupBy_spec (key : QueryResult -> string) (rs : list QueryResult) :
  map fst (groupBy key rs) = rev (nodup string_dec (rev (map key rs)))
  /\ forall k,
       Js.assoc k (groupBy key rs)
       = match List.filter (fun r => String.eqb (key r) k) rs with
         | [] => None
         | group => Some group
         end.
Proof.
  induction rs as [|r rs [IHkeys IHgroups]] using rev_ind.
  - split; [reflexivity | intros k; reflexivity].
  - unfold groupBy. rewrite fold_left_app. cbn [fold_left].
    fold (groupBy key rs). unfold groupStep. split.
    + rewrite mapSet_keys, map_app, rev_app_distr. cbn [map rev app nodup].
      destruct (in_dec string_dec (key r) (rev (map key rs))) as [Hin | Hout].
      * destruct (Js.assoc (key r) (groupBy key rs)) eqn:Hassoc; [exact IHkeys|].
        apply assoc_None in Hassoc. exfalso. apply Hassoc.
        rewrite IHkeys. apply in_rev. rewrite rev_involutive.
        apply nodup_In. exact Hin.
      * destruct (Js.assoc (key r) (groupBy key rs)) eqn:Hassoc.
        -- apply assoc_In in Hassoc. exfalso. apply Hout.
           apply (nodup_In string_dec). apply in_rev. rewrite <- IHkeys.
           apply in_map_iff. eexists. split; [|exact Hassoc]. reflexivity.
        -- cbn [rev]. rewrite IHkeys. reflexivity.
    + intros k. rewrite assoc_mapSet, List.filter_app. cbn [List.filter].
      rewrite (String.eqb_sym (key r) k).
      destruct (String.eqb_spec k (key r)) as [-> | Hne].
      * rewrite IHgroups.
        destruct (List.filter (fun r0 => String.eqb (key r0) (key r)) rs); reflexivity.
      * rewrite app_nil_r. apply IHgroups.
Qed.

(** X25: the groups of the summary partition the results: one group per
    distinct key, in the order of first appearance, and the group of a key
    holds exactly the results with that key, in their order; no group is
    empty. *)
Theorem groupBy_partition (key : QueryResult -> string) (rs : list QueryResult) :
  List.NoDup (map fst (groupBy key rs))
  /\ (forall r, In r rs -> In (key r) (map fst (groupBy key rs)))
  /\ (forall name group,
        In (name, group) (groupBy key rs) ->
        group = List.filter (fun r => String.eqb (key r) name) rs /\ group <> []).
Proof.
  destruct (groupBy_spec key rs) as [Hkeys Hgroups]. split; [|split].
  - rewrite Hkeys. apply List.NoDup_rev. apply List.NoDup_nodup.
  - intros r Hr. rewrite Hkeys. apply in_rev. rewrite rev_involutive.
    apply nodup_In. apply in_rev. rewrite rev_involutive.
    apply in_map. exact Hr.
  - intros name group Hin.
    assert (Hnodup : List.NoDup (map fst (groupBy key rs))).
    { rewrite Hkeys. apply List.NoDup_rev. apply List.NoDup_nodup. }
    pose proof (assoc_In_NoDup name group _ Hnodup Hin) as Hassoc.
    rewrite Hgroups in Hassoc.
    destruct (List.filter (fun r => String.eqb (key r) name) rs) as [|r0 rest];
      [discriminate|].
    injection Hassoc as <-. split; [reflexivity | discriminate].
Qed.

End Summary_facts.

(** ** The entry point *)

Section Entry_facts.
Context `{P : Platform}.
Variable toFixed0 : Z -> nat -> string.
Variable inspect : Thrown -> string.

Lemma logsOnly_ret : logsOnly (ret tt).
Proof.
  intros w. exists []. unfold ret. rewrite app_nil_r. destruct w. reflexivity.
Qed.

Lemma logsOnly_log (line : string) : logsOnly (log line).
Proof. intros w. exists [line]. reflexivity. Qed.

Lemma logsOnly_logAll (lines : list string) : logsOnly (logAll lines).
Proof. intros w. exists lines. reflexivity. Qed.

Lemma logsOnly_then (m k : M unit) : logsOnly m -> logsOnly k -> logsOnly (m;; k).
Proof.
  intros Hm Hk w. destruct (Hm w) as (lines1 & Hrun1).
  destruct (Hk (setConsole (console w ++ lines1) w)) as (lines2 & Hrun2).
  exists (lines1 ++ lines2)%list. unfold bind. rewrite Hrun1, Hrun2.
  cbn. rewrite app_assoc. reflexivity.
Qed.

Ltac logs_only :=
  repeat first
    [ apply logsOnly_then
    | apply logsOnly_log
    | apply logsOnly_logAll
    | apply logsOnly_ret
    | match goal with
      | |- logsOnly (if ?b then _ else _) => destruct b
      end ].

Lemma logsOnly_printSummary (run : RunResult) : logsOnly (printSummary toFixed0 run).
Proof. unfold printSummary. logs_only. Qed.

Lemma logsOnly_announce : logsOnly announce.
Proof.
  unfold announce. logs_only. intros w.
  match goal with
  | |- context [if ?b then _ else _] => destruct b
  end.
  - assert (Hlogs : logsOnly
                      (log ("Warning: Missing API keys: "
                              +:+ Js.join ", "
                                    ((if envMissing (env w) "TAVILY_API_KEY"
                                      then ["TAVILY_API_KEY"] else [])
                                       ++ (if envMissing (env w) "PARALLEL_API_KEY"
                                           then ["PARALLEL_API_KEY"] else []))%list);;
                       log "Configs requiring missing keys will be skipped. Set them in .env.";;
                       log "")) by logs_only.
    apply Hlogs.
  - apply logsOnly_ret.
Qed.



(** X27: the exit status of [main] is 0 or 1, and it is 0 exactly when
    the run returned an artifact, the artifact was saved, and none of its
    Result Records has [hasError]. *)
Theorem main_exit_status (w : World) :
  (fst (main toFixed0 inspect w) = 0 \/ fst (main toFixed0 inspect w) = 1)
  /\ (fst (main toFixed0 inspect w) = 0 <->
      exists art w1 path,
        runEvaluation gateways configs (snd (announce w)) = (Returned art, w1)
        /\ fst (saveResults art w1) = Returned path
        /\ Forall (fun r => hasError r = false) (results art)).
Proof.
  unfold main.
  destruct (logsOnly_announce w) as (lines0 & Hannounce).
  rewrite Hannounce. cbn [snd].
  rewrite (bind_step _ _ _ _ _ Hannounce). unfold mainBody.
  destruct (runEvaluation gateways configs _) as [[art | e] w1] eqn:Hrun.
  2:{ rewrite (bind_throw _ _ _ _ _ Hrun). cbn [fst]. split; [right; reflexivity|].
      split; [discriminate | intros (art & w2 & path & [=] & _)]. }
  rewrite (bind_step _ _ _ _ _ Hrun).
  destruct (saveResults art w1) as [[path | e] w2] eqn:Hsave.
  2:{ rewrite (bind_throw _ _ _ _ _ Hsave). cbn [fst]. split; [right; reflexivity|].
      split; [discriminate|].
      intros (art' & w1' & path & [= <- <-] & Hsaved & _).
      rewrite Hsave in Hsaved. discriminate Hsaved. }
  rewrite (bind_step _ _ _ _ _ Hsave).
  erewrite bind_step by (unfold log; reflexivity).
  erewrite bind_step by (unfold log; reflexivity).
  match goal with
  | |- context [bind (printSummary toFixed0 art) _ ?w0] =>
      destruct (logsOnly_printSummary art w0) as (lines1 & Hsummary)
  end.
  rewrite (bind_step _ _ _ _ _ Hsummary). unfold ret. cbn [fst].
  assert (Hcount : (0 <? length (List.filter hasError (results art)))%nat = false
                   <-> Forall (fun r => hasError r = false) (results art)).
  { induction (results art) as [|r rs IH]; cbn [List.filter].
    - split; [constructor | reflexivity].
    - destruct (hasError r) eqn:Hr.
      + split; [discriminate | intros Hall; inversion Hall; congruence].
      + rewrite IH. split; [intros Hall; constructor; assumption|].
        intros Hall. inversion Hall. assumption. }
  destruct (0 <? length (List.filter hasError (results art)))%nat.
  - split; [right; reflexivity|]. split; [discriminate|].
    intros (art' & w1' & path' & [= <- <-] & _ & Hall).
    apply Hcount in Hall. discriminate Hall.
  - split; [left; reflexivity|]. split; [|reflexivity].
    intros _. exists art, w1, path. split; [reflexivity|].
    split; [rewrite Hsave; reflexivity | apply Hcount; reflexivity].
Qed.

End Entry_facts.

(** ** The WikiData seeder *)

Section Seeder_facts.

Lemma findIndexFrom_first (predicate : SeedEntity -> bool) (pre : list SeedEntity)
  (x : SeedEntity) (rest : list SeedEntity) :
  predicate x = true ->
  forall index : Z,
    (index + Z.of_nat (length pre)
     =? findIndexFrom predicate (pre ++ x :: rest) index)
    = negb (existsb predicate pre).
Proof.
  intros Hx. induction pre as [|y pre IH]; intros index.
  - cbn. rewrite Hx, Z.add_0_r. apply Z.eqb_refl.
  - cbn [app findIndexFrom existsb length]. destruct (predicate y).
    + cbn. apply Z.eqb_neq. lia.
    + cbn [orb]. rewrite <- (IH (index + 1)). f_equal. lia.
Qed.

Lemma existsb_ids (id : string) (pre : list SeedEntity) :
  existsb (fun t => String.eqb (seed_id t) id) pre
  = existsb (String.eqb id) (map seed_id pre).
Proof.
  induction pre as [|y pre IH]; [reflexivity|].
  cbn. rewrite IH, (String.eqb_sym (seed_id y) id). reflexivity.
Qed.

Lemma existsb_app_one (id x : string) (seen : list string) :
  existsb (String.eqb id) (seen ++ [x]) = existsb (String.eqb id) (x :: seen).
Proof.
  rewrite existsb_app. cbn. rewrite orb_false_r. apply orb_comm.
Qed.

Lemma firstOccurrences_seen (entities : list SeedEntity) :
  forall seen seen' : list string,
    (forall id, existsb (String.eqb id) seen = existsb (String.eqb id) seen') ->
    firstOccurrences seen entities = firstOccurrences seen' entities.
Proof.
  induction entities as [|e rest IH]; intros seen seen' Hsame; [reflexivity|].
  cbn [firstOccurrences]. rewrite (Hsame (seed_id e)).
  destruct (existsb (String.eqb (seed_id e)) seen'); [apply IH; exact Hsame|].
  f_equal. apply IH. intros id. cbn [existsb]. rewrite Hsame. reflexivity.
Qed.

(** The duplicate filter of [processResults], at any point of its scan. *)
Lemma filterIndexed_firstOccurrences (rest : list SeedEntity) :
  forall pre : list SeedEntity,
    filterIndexed
      (fun item index =>
         index =? findIndex (fun t => String.eqb (seed_id t) (seed_id item)) (pre ++ rest))
      rest (Z.of_nat (length pre))
    = firstOccurrences (map seed_id pre) rest.
Proof.
  induction rest as [|x rest IH]; intros pre; [reflexivity|].
  cbn [filterIndexed firstOccurrences]. unfold findIndex at 1.
  pose proof (findIndexFrom_first (fun t => String.eqb (seed_id t) (seed_id x)) pre x rest
                (String.eqb_refl _) 0) as Hfirst.
  rewrite Z.add_0_l in Hfirst. rewrite Hfirst, existsb_ids.
  specialize (IH (pre ++ [x])%list).
  rewrite <- app_assoc, length_app, map_app in IH. cbn [app length map] in IH.
  replace (Z.of_nat (length pre + 1)) with (Z.of_nat (length pre) + 1) in IH by lia.
  rewrite IH.
  assert (Hseen : firstOccurrences (map seed_id pre ++ [seed_id x]) rest
                  = firstOccurrences (seed_id x :: map seed_id pre) rest).
  { apply firstOccurrences_seen. intros id. apply existsb_app_one. }
  rewrite Hseen.
  destruct (existsb (String.eqb (seed_id x)) (map seed_id pre)) eqn:Hdup; cbn [negb].
  - apply firstOccurrences_seen. intros id. cbn [existsb].
    destruct (String.eqb_spec id (seed_id x)) as [-> | _]; [|reflexivity].
    rewrite Hdup. reflexivity.
  - reflexivity.
Qed.

Lemma firstOccurrences_spec (entities : list SeedEntity) :
  forall seen : list string,
    List.NoDup (map seed_id (firstOccurrences seen entities))
    /\ (forall e, In e (firstOccurrences seen entities) ->
                  In e entities /\ ~ In (seed_id e) seen)
    /\ (forall e, In e entities ->
                  In (seed_id e) seen
                  \/ In (seed_id e) (map seed_id (firstOccurrences seen entities))).
Proof.
  induction entities as [|x rest IH]; intros seen.
  - split; [constructor|]. split; intros e [].
  - cbn [firstOccurrences].
    destruct (existsb (String.eqb (seed_id x)) seen) eqn:Hdup.
    + destruct (IH seen) as (Hnodup & Hfrom & Hcover).
      split; [exact Hnodup|]. split.
      * intros e He. destruct (Hfrom e He) as [Hin Hnew]. split; [right|]; assumption.
      * intros e [<- | He]; [|apply Hcover; exact He].
        left. apply existsb_exists in Hdup as (id & Hid & Heq).
        apply String.eqb_eq in Heq. rewrite Heq. exact Hid.
    + destruct (IH (seed_id x :: seen)) as (Hnodup & Hfrom & Hcover).
      split; [|split].
      * cbn [map]. constructor; [|exact Hnodup].
        intros Hin. apply in_map_iff in Hin as (e & Heq & He).
        destruct (Hfrom e He) as [_ Hnew]. apply Hnew. left. symmetry. exact Heq.
      * intros e [<- | He].
        -- split; [left; reflexivity|]. intros Hin.
           assert (Hex : existsb (String.eqb (seed_id x)) seen = true).
           { apply existsb_exists. exists (seed_id x).
             split; [exact Hin | apply String.eqb_refl]. }
           congruence.
        -- destruct (Hfrom e He) as [Hin Hnew].
           split; [right; exact Hin|]. intros Hseen. apply Hnew. right. exact Hseen.
      * intros e [<- | He]; [right; left; reflexivity|].
        destruct (Hcover e He) as [[Heq | Hseen] | Hkept].
        -- right. left. exact Heq.
        -- left. exact Hseen.
        -- right. right. exact Hkept.
Qed.

(** X28: [processResults] keeps, of the bindings whose label is English or
    has no language, the first one of each id: its result has no two
    entities with the same id, every entity in it comes from an accepted
    binding, and the id of every accepted binding is in it. *)
Theorem processResults_first_of_each_id (bindings : list WikiDataBinding) :
  processResults bindings
  = firstOccurrences []
      (map toSeedEntity
         (List.filter (fun item => acceptedLanguage (itemLabel_lang item)) bindings))
  /\ List.NoDup (map seed_id (processResults bindings))
  /\ (forall e, In e (processResults bindings) ->
                exists item, In item bindings
                             /\ acceptedLanguage (itemLabel_lang item) = true
                             /\ e = toSeedEntity item)
  /\ (forall item, In item bindings ->
                   acceptedLanguage (itemLabel_lang item) = true ->
                   In (lastSegment (item_value item)) (map seed_id (processResults bindings))).
Proof.
  assert (Heq : processResults bindings
                = firstOccurrences []
                    (map toSeedEntity
                       (List.filter (fun item => acceptedLanguage (itemLabel_lang item))
                          bindings))).
  { unfold processResults. apply (filterIndexed_firstOccurrences _ []). }
  rewrite Heq. split; [reflexivity|].
  destruct (firstOccurrences_spec
              (map toSeedEntity
                 (List.filter (fun item => acceptedLanguage (itemLabel_lang item)) bindings))
              []) as (Hnodup & Hfrom & Hcover).
  split; [exact Hnodup|]. split.
  - intros e He. destruct (Hfrom e He) as [Hin _].
    apply in_map_iff in Hin as (item & <- & Hitem).
    apply filter_In in Hitem as [Hitem Haccepted].
    exists item. repeat split; assumption.
  - intros item Hitem Haccepted.
    destruct (Hcover (toSeedEntity item)) as [[] | Hkept]; [|exact Hkept].
    apply in_map. apply filter_In. split; assumption.
Qed.

End Seeder_facts.

(** ** The further properties on the sample data *)

Section Further_samples.
#[local] Existing Instance Fixture.platform.

(** The Real Madrid entry is runnable from 2025-01-28T23:00Z to
    2025-02-01T19:00Z; the sample run starts on 2025-01-30. *)
Lemma isQueryRunnable_interval_witness :
  isQueryRunnable Fixture.realMadrid (Some (Fixture.startInstant + 1000)) = true.
Proof.
  apply (@isQueryRunnable_interval Fixture.platform Fixture.realMadrid
           Fixture.startInstant (Fixture.startInstant + 1000)
           (Fixture.startInstant + 86400000)).
  - unfold Fixture.startInstant. lia.
  - vm_compute. reflexivity.
  - vm_compute. reflexivity.
Defined.

(** A bound that is not a date: the entry is runnable at any instant. *)
Lemma isQueryRunnable_fails_open_witness :
  isQueryRunnable (Fixture.obj [("query", JStr "Q"); ("validFrom", JStr "soon")])
    (Some Fixture.startInstant) = true.
Proof.
  apply (@isQueryRunnable_fails_open Fixture.platform
           (Fixture.obj [("query", JStr "Q"); ("validFrom", JStr "soon")])
           (Some Fixture.startInstant)).
  - reflexivity.
  - right. split; vm_compute; reflexivity.
Defined.

(** The static query file of the sample: one entry has an empty text. *)
Lemma validateQueries_keeps_sublist_witness :
  exists (valid : list JsValue) (w' : World),
    validateQueries
      [Fixture.worldCup; Fixture.berlinWall; Fixture.emptyText; Fixture.tallestBuilding]
      Fixture.sampleWorld = (Returned valid, w')
    /\ valid `sublist_of`
         [Fixture.worldCup; Fixture.berlinWall; Fixture.emptyText; Fixture.tallestBuilding]
    /\ (forall q,
          In q valid <->
          In q [Fixture.worldCup; Fixture.berlinWall; Fixture.emptyText;
                Fixture.tallestBuilding]
          /\ exists q', validateQuery q 0 = inr q')
    /\ sameButConsole Fixture.sampleWorld w'.
Proof.
  apply (@validateQueries_keeps_sublist Fixture.platform
           [Fixture.worldCup; Fixture.berlinWall; Fixture.emptyText;
            Fixture.tallestBuilding]
           Fixture.sampleWorld).
  reflexivity.
Defined.

Lemma validateQueries_report_witness :
  exists report : list string,
    console (snd (validateQueries
                    [Fixture.worldCup; Fixture.emptyText; Fixture.emptyValidUntil]
                    Fixture.sampleWorld))
    = (console Fixture.sampleWorld ++ report)%list
    /\ (length (List.filter accepts
                  [Fixture.worldCup; Fixture.emptyText; Fixture.emptyValidUntil])
        = length [Fixture.worldCup; Fixture.emptyText; Fixture.emptyValidUntil] ->
        report = [])
    /\ (length (List.filter accepts
                  [Fixture.worldCup; Fixture.emptyText; Fixture.emptyValidUntil])
        <> length [Fixture.worldCup; Fixture.emptyText; Fixture.emptyValidUntil] ->
        head report
        = Some ("Warning: Skipped "
                  +:+ pretty (length [Fixture.worldCup; Fixture.emptyText;
                                      Fixture.emptyValidUntil]
                              - length (List.filter accepts
                                          [Fixture.worldCup; Fixture.emptyText;
                                           Fixture.emptyValidUntil]))%nat
                  +:+ " invalid queries:")
        /\ (length report <= 13)%nat).
Proof.
  apply (@validateQueries_report Fixture.platform
           [Fixture.worldCup; Fixture.emptyText; Fixture.emptyValidUntil]
           Fixture.sampleWorld).
  reflexivity.
Defined.

Lemma validateQuery_kept_shape_witness :
  exists (fields : list (string * JsValue)) (text : string),
    Fixture.realMadrid = JObj fields
    /\ Js.prop Fixture.realMadrid "query" = JStr text
    /\ Js.trim text <> ""
    /\ (Js.prop Fixture.realMadrid "groundTruth" = JUndefined
        \/ exists truth, Js.prop Fixture.realMadrid "groundTruth" = JStr truth)
    /\ (Js.truthy (Js.prop Fixture.realMadrid "validFrom") = true ->
        isValidIsoDate (Js.prop Fixture.realMadrid "validFrom") = true)
    /\ (Js.prop Fixture.realMadrid "validUntil" = JUndefined
        \/ Js.prop Fixture.realMadrid "validUntil" = JNull
        \/ (Js.truthy (Js.prop Fixture.realMadrid "validUntil") = true
            /\ isValidIsoDate (Js.prop Fixture.realMadrid "validUntil") = true)).
Proof.
  apply (@validateQuery_kept_shape Fixture.platform Fixture.realMadrid
           Fixture.realMadrid 4).
  vm_compute. reflexivity.
Defined.

Lemma validateQuery_kept_window_witness :
  exists now : Z, isQueryRunnable Fixture.realMadrid (Some now) = true.
Proof.
  apply (@validateQuery_kept_window Fixture.platform Fixture.realMadrid
           Fixture.realMadrid 4).
  vm_compute. reflexivity.
Defined.

Lemma validateQueries_idempotent_witness :
  fst (validateQueries [Fixture.worldCup; Fixture.tallestBuilding] Fixture.sampleWorld)
  = Returned [Fixture.worldCup; Fixture.tallestBuilding]
  /\ console (snd (validateQueries [Fixture.worldCup; Fixture.tallestBuilding]
                     Fixture.sampleWorld))
     = console Fixture.sampleWorld.
Proof.
  apply (@validateQueries_idempotent Fixture.platform
           [Fixture.worldCup; Fixture.emptyText; Fixture.tallestBuilding]
           [Fixture.worldCup; Fixture.tallestBuilding]
           Fixture.sampleWorld Fixture.sampleWorld).
  vm_compute. reflexivity.
Defined.


Lemma gateway_without_key_witness :
  YouGateway (JStr "Who won the 2022 World Cup?") [("count", JNum 5)] Fixture.bareWorld
  = (Returned (missingKeyResponse (apiKeyName "you") Fixture.bareWorld),
     afterTwoReads Fixture.bareWorld).
Proof.
  apply (@gateway_without_key Fixture.platform "you" YouGateway).
  - right. right. left. reflexivity.
  - reflexivity.
  - reflexivity.
Defined.

Lemma client_is_built_on_first_use_witness :
  moduleClient "parallel"
    (snd (ParallelGateway (JStr "Who won the 2022 World Cup?") [] Fixture.sampleWorld))
  = Some "par-1".
Proof.
  apply (@client_is_built_on_first_use Fixture.platform "parallel" ParallelGateway).
  - right. left. reflexivity.
  - reflexivity.
  - reflexivity.
  - discriminate.
Defined.

Lemma built_client_is_reused_witness :
  YouGateway (JStr "Who won the 2022 World Cup?") []
    (setEnv ∅ (setYouClient (Some "ydc-1") Fixture.sampleWorld))
  = (fst (YouGateway (JStr "Who won the 2022 World Cup?") []
            (setYouClient (Some "ydc-1") Fixture.sampleWorld)),
     setEnv ∅ (snd (YouGateway (JStr "Who won the 2022 World Cup?") []
                      (setYouClient (Some "ydc-1") Fixture.sampleWorld))))
  /\ moduleClient "you"
       (snd (YouGateway (JStr "Who won the 2022 World Cup?") []
               (setYouClient (Some "ydc-1") Fixture.sampleWorld)))
     = Some "ydc-1".
Proof.
  apply (@built_client_is_reused Fixture.platform "you" YouGateway).
  - right. right. left. reflexivity.
  - reflexivity.
Defined.

Lemma getGateway_available_witness :
  exists g,
    getGateway gateways "parallel" Fixture.sampleWorld = (Returned g, Fixture.sampleWorld)
    /\ In ("parallel", g) gateways.
Proof.
  apply (@getGateway_available Fixture.platform gateways "parallel" Fixture.sampleWorld).
  right. left. reflexivity.
Defined.

(** A configuration for a gateway that was never registered. *)
Lemma executeQuery_unknown_gateway_witness :
  error (response (fst (executeQuery gateways Fixture.worldCup
                          {| cfg_id := "perplexity-sonar"; cfg_gateway := "perplexity";
                             cfg_parameters := [] |} Fixture.sampleWorld)))
  = Some ("Unknown gateway: " +:+ "perplexity" +:+ ". Available gateways: "
            +:+ Js.join ", " (getAvailableGateways gateways))
  /\ hasError (fst (executeQuery gateways Fixture.worldCup
                      {| cfg_id := "perplexity-sonar"; cfg_gateway := "perplexity";
                         cfg_parameters := [] |} Fixture.sampleWorld)) = true
  /\ data (response (fst (executeQuery gateways Fixture.worldCup
                            {| cfg_id := "perplexity-sonar"; cfg_gateway := "perplexity";
                               cfg_parameters := [] |} Fixture.sampleWorld))) = JNull
  /\ tokenCount (response (fst (executeQuery gateways Fixture.worldCup
                                  {| cfg_id := "perplexity-sonar";
                                     cfg_gateway := "perplexity";
                                     cfg_parameters := [] |} Fixture.sampleWorld))) = 0.
Proof.
  apply (@executeQuery_unknown_gateway Fixture.platform gateways Fixture.worldCup
           {| cfg_id := "perplexity-sonar"; cfg_gateway := "perplexity";
              cfg_parameters := [] |} Fixture.sampleWorld).
  - cbn. intros [H | [H | [H | []]]]; discriminate H.
  - reflexivity.
Defined.

Lemma inherited_gateway_aborts_run_witness :
  fst (runEvaluation gateways
         [Fixture.youDefault;
          {| cfg_id := "odd"; cfg_gateway := "constructor"; cfg_parameters := [] |}]
         Fixture.sampleWorld)
  = Threw (ErrorObj "required.filter is not a function")
  /\ sameButConsole
       (setExt (snd (Date_now (ext Fixture.sampleWorld))) Fixture.sampleWorld)
       (snd (runEvaluation gateways
               [Fixture.youDefault;
                {| cfg_id := "odd"; cfg_gateway := "constructor"; cfg_parameters := [] |}]
               Fixture.sampleWorld)).
Proof.
  apply (@inherited_gateway_aborts_run Fixture.platform gateways
           [Fixture.youDefault;
            {| cfg_id := "odd"; cfg_gateway := "constructor"; cfg_parameters := [] |}]
           Fixture.sampleWorld).
  apply Exists_cons_tl. apply Exists_cons_hd. reflexivity.
Defined.

Lemma kept_config_has_client_witness :
  (cfg_gateway Fixture.tavilyBasic = "tavily" ->
   exists client w', tavily_getClient Fixture.sampleWorld = (Returned client, w'))
  /\ (cfg_gateway Fixture.tavilyBasic = "parallel" ->
      exists client w', parallel_getClient Fixture.sampleWorld = (Returned client, w')).
Proof.
  apply (@kept_config_has_client Fixture.platform Fixture.tavilyBasic Fixture.sampleWorld).
  reflexivity.
Defined.

Lemma run_id_of_artifact_witness :
  run_id Fixture.sampleArtifact = Js.replaceColons (run_executedAt Fixture.sampleArtifact)
  /\ hasChar ":" (run_id Fixture.sampleArtifact) = false
  /\ fst (generateResultFilename Fixture.sampleWorld)
     = Returned (run_id Fixture.sampleArtifact +:+ ".json").
Proof.
  apply (@run_id_of_artifact Fixture.platform gateways Fixture.sampleConfigs
           Fixture.sampleWorld Fixture.sampleArtifact).
  vm_compute. reflexivity.
Defined.

(** The second record of the sample artifact: the first query through the
    Parallel gateway, whose service drops the connection. *)
Lemma artifact_records_witness :
  (exists text, query (Fixture.sampleRecord 1) = JStr text /\ Js.trim text <> "")
  /\ (exists c, In c Fixture.sampleConfigs
                /\ credentialsPresent (env Fixture.sampleWorld) c = true
                /\ configId (Fixture.sampleRecord 1) = cfg_id c
                /\ gateway (Fixture.sampleRecord 1) = cfg_gateway c
                /\ parameters (Fixture.sampleRecord 1) = cfg_parameters c)
  /\ (hasError (Fixture.sampleRecord 1) = true <->
      exists message,
        error (response (Fixture.sampleRecord 1)) = Some message /\ message <> "").
Proof.
  apply (@artifact_records Fixture.platform gateways Fixture.sampleConfigs
           Fixture.sampleWorld Fixture.sampleArtifact (Fixture.sampleRecord 1)).
  - vm_compute. reflexivity.
  - unfold Fixture.sampleRecord. apply nth_In. apply Nat.ltb_lt. vm_compute. reflexivity.
Defined.

(** All keys set, no query file on disk. *)
Lemma runEvaluation_without_queries_witness :
  fst (runEvaluation gateways Fixture.sampleConfigs
         (Fixture.worldWith Fixture.platform Fixture.allKeys ∅ Fixture.startInstant))
  = Threw (ENOENT "open" "/app/queries/queries-static.json")
  /\ sameButConsole
       (setExt (snd (Date_now (ext (Fixture.worldWith Fixture.platform Fixture.allKeys ∅
                                     Fixture.startInstant))))
          (Fixture.worldWith Fixture.platform Fixture.allKeys ∅ Fixture.startInstant))
       (snd (runEvaluation gateways Fixture.sampleConfigs
               (Fixture.worldWith Fixture.platform Fixture.allKeys ∅
                  Fixture.startInstant))).
Proof.
  apply (@runEvaluation_without_queries Fixture.platform gateways Fixture.sampleConfigs
           (Fixture.worldWith Fixture.platform Fixture.allKeys ∅ Fixture.startInstant)
           (ENOENT "open" "/app/queries/queries-static.json")).
  - repeat constructor.
  - vm_compute. discriminate.
  - vm_compute. reflexivity.
Defined.

Lemma saveResults_stores_witness :
  exists w',
    saveResults Fixture.sampleArtifact Fixture.sampleWorld
    = (Returned (joinPath (joinPath projectRoot "results")
                   (run_id Fixture.sampleArtifact +:+ ".json")), w')
    /\ readFile (joinPath (joinPath projectRoot "results")
                   (run_id Fixture.sampleArtifact +:+ ".json")) w'
       = (Returned (Json.stringify "" (Json.ofRunResult Fixture.sampleArtifact)), w')
    /\ (forall dir name,
          (dir, name) <> (joinPath projectRoot "results",
                          run_id Fixture.sampleArtifact +:+ ".json") ->
          dirs w' !! dir ≫= (.!! name) = dirs Fixture.sampleWorld !! dir ≫= (.!! name)).
Proof.
  apply (@saveResults_stores Fixture.platform Fixture.sampleArtifact Fixture.sampleWorld).
  repeat split; vm_compute; reflexivity.
Defined.





End Further_samples.
